(** * F1 2020 UDP telemetry packets: layout, dispatch and decoding

    A shallow embedding of [bin/packets.py].  The Python module declares
    its packets as [ctypes] structures and decodes a datagram with
    [from_buffer_copy]; the embedding therefore consists of

    - a small universe [ctype] of the [ctypes] types the module uses,
      with the layout rules of [ctypes] ([sizeof], [alignment], [_pack_],
      byte order of [LittleEndianStructure]);
    - the field lists of the module, transcribed one for one;
    - the values read from a buffer ([read]) and written to one ([write]);
    - the registry [HeaderFieldsToPacketType] and [unpack_udp_packet]. *)

From Stdlib Require Import ZArith List QArith Lia.
From Stdlib.Strings Require Import Byte.
From stdpp Require Import gmap strings list pretty.

Set Warnings "-register-all".

Local Open Scope string_scope.
Local Open Scope list_scope.
Local Open Scope nat_scope.

(** ** Buffers *)

(** A Python [bytes] object. *)
Abbreviation bytes := (list byte).

Definition byte_to_Z (b : byte) : Z := Z.of_N (Byte.to_N b).

#[global] Instance byte_eq_decision : EqDecision byte := Byte.byte_eq_dec.

Definition byte_of_Z (z : Z) : byte :=
  match Byte.of_N (Z.to_N (z mod 256)) with
  | Some b => b
  | None => x00
  end.

(** Unsigned value of a byte string, least significant byte first. *)
Fixpoint le_uint (bs : bytes) : Z :=
  match bs with
  | [] => 0
  | b :: bs' => byte_to_Z b + 256 * le_uint bs'
  end%Z.

(** The [w] bytes of [z], least significant byte first. *)
Fixpoint le_bytes (w : nat) (z : Z) : bytes :=
  match w with
  | O => []
  | S w' => byte_of_Z z :: le_bytes w' (z / 256)
  end%Z.

(** ** The [ctypes] types used by the module *)

(** [sys.byteorder] of the host, and the byte order a structure class
    asks for: [LittleEndianStructure], [BigEndianStructure], or the plain
    [Structure] and [Union], which follow the host.

    A host stands for one on which the classes in question exist.  Whether
    the classes of this module can be created on a host depends on the
    [ctypes] at hand; see [create_class] below. *)
Inductive endian : Type := Little | Big.
Inductive byteorder : Type := LittleEndian | BigEndian | Native.

Definition effective (host : endian) (bo : byteorder) : endian :=
  match bo with
  | LittleEndian => Little
  | BigEndian => Big
  | Native => host
  end.

Inductive ctype : Type :=
| c_uint8 | c_int8 | c_uint16 | c_int16 | c_uint32 | c_uint64
| c_float | c_double | c_char
| Array (elt : ctype) (len : nat)
| Structure (name : string) (bo : byteorder) (pack : nat)
            (fields : list (string * ctype))
| Union (name : string) (bo : byteorder) (pack : nat)
        (fields : list (string * ctype)).

(** *** Layout: [ctypes.sizeof] and [ctypes.alignment]

    [ctypes] places the fields of a structure one after the other.  A
    field is aligned to [min(_pack_, alignment of its type)] when [_pack_]
    is set and to the alignment of its type otherwise; the offset is
    rounded up to that alignment, and the size of the whole structure is
    rounded up to the largest field alignment.  The members of a union all
    start at offset 0.  Simple types are aligned to their size. *)

Definition round_up (off a : nat) : nat :=
  match a with
  | O => off
  | _ => ((off + a - 1) / a) * a
  end.

Definition field_align (pack a : nat) : nat :=
  match pack with
  | O => a
  | _ => min pack a
  end.

(** Offset after the last field and largest field alignment, from the
    (size, alignment) of the fields, starting at [off] with alignment [al]. *)
Fixpoint struct_end (pack : nat) (ls : list (nat * nat)) (off al : nat) : nat * nat :=
  match ls with
  | [] => (off, al)
  | (s, a) :: ls' =>
      let a' := field_align pack a in
      struct_end pack ls' (round_up off a' + s) (max al a')
  end.

Fixpoint union_end (pack : nat) (ls : list (nat * nat)) (sz al : nat) : nat * nat :=
  match ls with
  | [] => (sz, al)
  | (s, a) :: ls' => union_end pack ls' (max sz s) (max al (field_align pack a))
  end.

Definition simple_size (t : ctype) : nat :=
  match t with
  | c_uint8 | c_int8 | c_char => 1
  | c_uint16 | c_int16 => 2
  | c_uint32 | c_float => 4
  | c_uint64 | c_double => 8
  | _ => 0
  end.

(** (size, alignment) of a type. *)
Fixpoint layout (t : ctype) : nat * nat :=
  match t with
  | Array e n => (n * fst (layout e), snd (layout e))
  | Structure _ _ pack fs =>
      let '(off, al) := struct_end pack (map (fun f => layout (snd f)) fs) 0 1 in
      (round_up off al, al)
  | Union _ _ pack fs =>
      let '(sz, al) := union_end pack (map (fun f => layout (snd f)) fs) 0 1 in
      (round_up sz al, al)
  | _ => (simple_size t, simple_size t)
  end.

Definition sizeof (t : ctype) : nat := fst (layout t).
Definition alignment (t : ctype) : nat := snd (layout t).

(** Sum of the declared widths of the fields, nested records included; a
    union counts for its widest member.  This is what the size of a type
    is when no padding is inserted anywhere. *)
Fixpoint width_sum (t : ctype) : nat :=
  match t with
  | Array e n => n * width_sum e
  | Structure _ _ _ fs => foldr (fun f acc => width_sum (snd f) + acc) 0 fs
  | Union _ _ _ fs => foldr (fun f acc => max (width_sum (snd f)) acc) 0 fs
  | _ => simple_size t
  end.

(** ** The declarations of the module *)

(** [class PackedLittleEndianStructure(ctypes.LittleEndianStructure)] with
    [_pack_ = 1]: the base of every structure of the module. *)
Definition PackedLittleEndianStructure (name : string)
    (fields : list (string * ctype)) : ctype :=
  Structure name LittleEndian 1 fields.

Definition PacketHeader : ctype :=
  PackedLittleEndianStructure "PacketHeader" [
    ("packetFormat"           , c_uint16);
    ("gameMajorVersion"       , c_uint8 );
    ("gameMinorVersion"       , c_uint8 );
    ("packetVersion"          , c_uint8 );
    ("packetId"               , c_uint8 );
    ("sessionUID"             , c_uint64);
    ("sessionTime"            , c_float );
    ("frameIdentifier"        , c_uint32);
    ("playerCarIndex"         , c_uint8 );
    ("secondaryPlayerCarIndex", c_uint8 )
  ].

(** [class PacketID(enum.IntEnum)] *)
Module PacketID.
Definition MOTION : Z := 0.
Definition SESSION : Z := 1.
Definition LAP_DATA : Z := 2.
Definition EVENT : Z := 3.
Definition PARTICIPANTS : Z := 4.
Definition CAR_SETUPS : Z := 5.
Definition CAR_TELEMETRY : Z := 6.
Definition CAR_STATUS : Z := 7.
Definition FINAL_CLASSIFICATION : Z := 8.
Definition LOBBY_INFO : Z := 9.
End PacketID.

Definition CarMotionData_V1 : ctype :=
  PackedLittleEndianStructure "CarMotionData_V1" [
    ("worldPositionX"     , c_float);
    ("worldPositionY"     , c_float);
    ("worldPositionZ"     , c_float);
    ("worldVelocityX"     , c_float);
    ("worldVelocityY"     , c_float);
    ("worldVelocityZ"     , c_float);
    ("worldForwardDirX"   , c_int16);
    ("worldForwardDirY"   , c_int16);
    ("worldForwardDirZ"   , c_int16);
    ("worldRightDirX"     , c_int16);
    ("worldRightDirY"     , c_int16);
    ("worldRightDirZ"     , c_int16);
    ("gForceLateral"      , c_float);
    ("gForceLongitudinal" , c_float);
    ("gForceVertical"     , c_float);
    ("yaw"                , c_float);
    ("pitch"              , c_float);
    ("roll"               , c_float)
  ].

Definition PacketMotionData_V1 : ctype :=
  PackedLittleEndianStructure "PacketMotionData_V1" [
    ("header"                 , PacketHeader);
    ("carMotionData"          , Array CarMotionData_V1 22);
    ("suspensionPosition"     , Array c_float 4);
    ("suspensionVelocity"     , Array c_float 4);
    ("suspensionAcceleration" , Array c_float 4);
    ("wheelSpeed"             , Array c_float 4);
    ("wheelSlip"              , Array c_float 4);
    ("localVelocityX"         , c_float);
    ("localVelocityY"         , c_float);
    ("localVelocityZ"         , c_float);
    ("angularVelocityX"       , c_float);
    ("angularVelocityY"       , c_float);
    ("angularVelocityZ"       , c_float);
    ("angularAccelerationX"   , c_float);
    ("angularAccelerationY"   , c_float);
    ("angularAccelerationZ"   , c_float);
    ("frontWheelsAngle"       , c_float)
  ].

Definition MarshalZone_V1 : ctype :=
  PackedLittleEndianStructure "MarshalZone_V1" [
    ("zoneStart" , c_float);
    ("zoneFlag"  , c_int8 )
  ].

Definition WeatherForecastSample : ctype :=
  PackedLittleEndianStructure "WeatherForecastSample" [
    ("sessionType"     , c_uint8);
    ("timeOffset"      , c_uint8);
    ("weather"         , c_uint8);
    ("trackTemperature", c_int8);
    ("airTemperature"  , c_int8)
  ].

Definition PacketSessionData_V1 : ctype :=
  PackedLittleEndianStructure "PacketSessionData_V1" [
    ("header"                   , PacketHeader);
    ("weather"                  , c_uint8);
    ("trackTemperature"         , c_int8);
    ("airTemperature"           , c_int8);
    ("totalLaps"                , c_uint8);
    ("trackLength"              , c_uint16);
    ("sessionType"              , c_uint8);
    ("trackId"                  , c_int8);
    ("formula"                  , c_uint8);
    ("sessionTimeLeft"          , c_uint16);
    ("sessionDuration"          , c_uint16);
    ("pitSpeedLimit"            , c_uint8);
    ("gamePaused"               , c_uint8);
    ("isSpectating"             , c_uint8);
    ("spectatorCarIndex"        , c_uint8);
    ("sliProNativeSupport"      , c_uint8);
    ("numMarshalZones"          , c_uint8);
    ("marshalZones"             , Array MarshalZone_V1 21);
    ("safetyCarStatus"          , c_uint8);
    ("networkGame"              , c_uint8);
    ("numWeatherForecastSamples", c_uint8);
    ("weatherForecastSamples"   , Array WeatherForecastSample 20)
  ].

Definition LapData_V1 : ctype :=
  PackedLittleEndianStructure "LapData_V1" [
    ("lastLapTime"               , c_float);
    ("currentLapTime"            , c_float);
    ("sector1TimeInMS"           , c_uint16);
    ("sector2TimeInMS"           , c_uint16);
    ("bestLapTime"               , c_float);
    ("bestLapNum"                , c_uint8);
    ("bestLapSector1TimeInMS"    , c_uint16);
    ("bestLapSector2TimeInMS"    , c_uint16);
    ("bestLapSector3TimeInMS"    , c_uint16);
    ("bestOverallSector1TimeInMS", c_uint16);
    ("bestOverallSector1LapNum"  , c_uint8);
    ("bestOverallSector2TimeInMS", c_uint16);
    ("bestOverallSector2LapNum"  , c_uint8);
    ("bestOverallSector3TimeInMS", c_uint16);
    ("bestOverallSector3LapNum"  , c_uint8);
    ("lapDistance"               , c_float);
    ("totalDistance"             , c_float);
    ("safetyCarDelta"            , c_float);
    ("carPosition"               , c_uint8);
    ("currentLapNum"             , c_uint8);
    ("pitStatus"                 , c_uint8);
    ("sector"                    , c_uint8);
    ("currentLapInvalid"         , c_uint8);
    ("penalties"                 , c_uint8);
    ("gridPosition"              , c_uint8);
    ("driverStatus"              , c_uint8);
    ("resultStatus"              , c_uint8)
  ].

Definition PacketLapData_V1 : ctype :=
  PackedLittleEndianStructure "PacketLapData_V1" [
    ("header"  , PacketHeader);
    ("lapData" , Array LapData_V1 22)
  ].

Definition FastestLapData : ctype :=
  PackedLittleEndianStructure "FastestLapData" [
    ("vehicleIdx", c_uint8);
    ("lapTime"   , c_float)
  ].

Definition PenaltyData : ctype :=
  PackedLittleEndianStructure "PenaltyData" [
    ("penaltyType"     , c_uint8);
    ("infringementType", c_uint8);
    ("vehicleIdx"      , c_uint8);
    ("otherVehicleIdx" , c_uint8);
    ("time"            , c_uint8);
    ("lapNum"          , c_uint8);
    ("placesGained"    , c_uint8)
  ].

Definition RaceWinnerData : ctype :=
  PackedLittleEndianStructure "RaceWinnerData" [
    ("vehicleIdx", c_uint8)
  ].

Definition RetirementData : ctype :=
  PackedLittleEndianStructure "RetirementData" [
    ("vehicleIdx", c_uint8)
  ].

Definition SpeedTrapData : ctype :=
  PackedLittleEndianStructure "SpeedTrapData" [
    ("vehicleIdx", c_uint8);
    ("speed"     , c_float)
  ].

Definition TeamMateInPitsData : ctype :=
  PackedLittleEndianStructure "TeamMateInPitsData" [
    ("vehicleIdx", c_uint8)
  ].

(** [class EventDataDetails(ctypes.Union)]: a plain union, without
    [_pack_]. *)
Definition EventDataDetails : ctype :=
  Union "EventDataDetails" Native 0 [
    ("fastestLap"    , FastestLapData);
    ("penalty"       , PenaltyData);
    ("raceWinner"    , RaceWinnerData);
    ("retirement"    , RetirementData);
    ("speedTrap"     , SpeedTrapData);
    ("teamMateInPits", TeamMateInPitsData)
  ].

Definition PacketEventData_V1 : ctype :=
  PackedLittleEndianStructure "PacketEventData_V1" [
    ("header"         , PacketHeader);
    ("eventStringCode", Array c_char 4);
    ("eventDetails"   , EventDataDetails)
  ].

Definition ParticipantData_V1 : ctype :=
  PackedLittleEndianStructure "ParticipantData_V1" [
    ("aiControlled" , c_uint8);
    ("driverId"     , c_uint8);
    ("teamId"       , c_uint8);
    ("raceNumber"   , c_uint8);
    ("nationality"  , c_uint8);
    ("name"         , Array c_char 48);
    ("yourTelemetry", c_uint8)
  ].

Definition PacketParticipantsData_V1 : ctype :=
  PackedLittleEndianStructure "PacketParticipantsData_V1" [
    ("header"        , PacketHeader);
    ("numActiveCars" , c_uint8);
    ("participants"  , Array ParticipantData_V1 22)
  ].

Definition CarSetupData_V1 : ctype :=
  PackedLittleEndianStructure "CarSetupData_V1" [
    ("frontWing"             , c_uint8);
    ("rearWing"              , c_uint8);
    ("onThrottle"            , c_uint8);
    ("offThrottle"           , c_uint8);
    ("frontCamber"           , c_float);
    ("rearCamber"            , c_float);
    ("frontToe"              , c_float);
    ("rearToe"               , c_float);
    ("frontSuspension"       , c_uint8);
    ("rearSuspension"        , c_uint8);
    ("frontAntiRollBar"      , c_uint8);
    ("rearAntiRollBar"       , c_uint8);
    ("frontSuspensionHeight" , c_uint8);
    ("rearSuspensionHeight"  , c_uint8);
    ("brakePressure"         , c_uint8);
    ("brakeBias"             , c_uint8);
    ("rearLeftTyrePressure"  , c_float);
    ("rearRightTyrePressure" , c_float);
    ("frontLeftTyrePressure" , c_float);
    ("frontRightTyrePressure", c_float);
    ("ballast"               , c_uint8);
    ("fuelLoad"              , c_float)
  ].

Definition PacketCarSetupData_V1 : ctype :=
  PackedLittleEndianStructure "PacketCarSetupData_V1" [
    ("header"    , PacketHeader);
    ("carSetups" , Array CarSetupData_V1 22)
  ].

Definition CarTelemetryData_V1 : ctype :=
  PackedLittleEndianStructure "CarTelemetryData_V1" [
    ("speed"                   , c_uint16);
    ("throttle"                , c_float);
    ("steer"                   , c_float);
    ("brake"                   , c_float);
    ("clutch"                  , c_uint8);
    ("gear"                    , c_int8);
    ("engineRPM"               , c_uint16);
    ("drs"                     , c_uint8);
    ("revLightsPercent"        , c_uint8);
    ("brakesTemperature"       , Array c_uint16 4);
    ("tyresSurfaceTemperature" , Array c_uint8 4);
    ("tyresInnerTemperature"   , Array c_uint8 4);
    ("engineTemperature"       , c_uint16);
    ("tyresPressure"           , Array c_float 4);
    ("surfaceType"             , Array c_uint8 4)
  ].

Definition PacketCarTelemetryData_V1 : ctype :=
  PackedLittleEndianStructure "PacketCarTelemetryData_V1" [
    ("header"                      , PacketHeader);
    ("carTelemetryData"            , Array CarTelemetryData_V1 22);
    ("buttonStatus"                , c_uint32);
    ("mfdPanelIndex"               , c_uint8);
    ("mfdPanelIndexSecondaryPlayer", c_uint8);
    ("suggestedGear"               , c_int8)
  ].

Definition CarStatusData_V1 : ctype :=
  PackedLittleEndianStructure "CarStatusData_V1" [
    ("tractionControl"         , c_uint8);
    ("antiLockBrakes"          , c_uint8);
    ("fuelMix"                 , c_uint8);
    ("frontBrakeBias"          , c_uint8);
    ("pitLimiterStatus"        , c_uint8);
    ("fuelInTank"              , c_float);
    ("fuelCapacity"            , c_float);
    ("fuelRemainingLaps"       , c_float);
    ("maxRPM"                  , c_uint16);
    ("idleRPM"                 , c_uint16);
    ("maxGears"                , c_uint8);
    ("drsAllowed"              , c_uint8);
    ("drsActivationDistance"   , c_uint16);
    ("tyresWear"               , Array c_uint8 4);
    ("actualTyreCompound"      , c_uint8);
    ("visualTyreCompound"      , c_uint8);
    ("tyresAgeLaps"            , c_uint8);
    ("tyresDamage"             , Array c_uint8 4);
    ("frontLeftWingDamage"     , c_uint8);
    ("frontRightWingDamage"    , c_uint8);
    ("rearWingDamage"          , c_uint8);
    ("drsFault"                , c_uint8);
    ("engineDamage"            , c_uint8);
    ("gearBoxDamage"           , c_uint8);
    ("vehicleFiaFlags"         , c_int8);
    ("ersStoreEnergy"          , c_float);
    ("ersDeployMode"           , c_uint8);
    ("ersHarvestedThisLapMGUK" , c_float);
    ("ersHarvestedThisLapMGUH" , c_float);
    ("ersDeployedThisLap"      , c_float)
  ].

Definition PacketCarStatusData_V1 : ctype :=
  PackedLittleEndianStructure "PacketCarStatusData_V1" [
    ("header"        , PacketHeader);
    ("carStatusData" , Array CarStatusData_V1 22)
  ].

Definition FinalClassificationData_V1 : ctype :=
  PackedLittleEndianStructure "FinalClassificationData_V1" [
    ("position"        , c_uint8);
    ("numLaps"         , c_uint8);
    ("gridPosition"    , c_uint8);
    ("points"          , c_uint8);
    ("numPitStops"     , c_uint8);
    ("resultStatus"    , c_uint8);
    ("bestLapTime"     , c_float);
    ("totalRaceTime"   , c_double);
    ("penaltiesTime"   , c_uint8);
    ("numPenalties"    , c_uint8);
    ("numTyreStints"   , c_uint8);
    ("tyreStintsActual", Array c_uint8 8);
    ("tyreStintsVisual", Array c_uint8 8)
  ].

Definition PacketFinalClassificationData_V1 : ctype :=
  PackedLittleEndianStructure "PacketFinalClassificationData_V1" [
    ("header"            , PacketHeader);
    ("numCars"           , c_uint8);
    ("classificationData", Array FinalClassificationData_V1 22)
  ].

Definition LobbyInfoData_V1 : ctype :=
  PackedLittleEndianStructure "LobbyInfoData_V1" [
    ("aiControlled" , c_uint8);
    ("teamId"       , c_uint8);
    ("nationality"  , c_uint8);
    ("name"         , Array c_char 48);
    ("readyStatus"  , c_uint8)
  ].

Definition PacketLobbyInfoData_V1 : ctype :=
  PackedLittleEndianStructure "PacketLobbyInfoData_V1" [
    ("header"      , PacketHeader);
    ("numPlayers"  , c_uint8);
    ("lobbyPlayers", Array LobbyInfoData_V1 22)
  ].

(** Map from (packetFormat, packetVersion, packetId) to a specific packet
    type. *)
Definition HeaderFieldsToPacketType : gmap (Z * Z * Z) ctype :=
  list_to_map [
    ((2020, 1, 0)%Z, PacketMotionData_V1);
    ((2020, 1, 1)%Z, PacketSessionData_V1);
    ((2020, 1, 2)%Z, PacketLapData_V1);
    ((2020, 1, 3)%Z, PacketEventData_V1);
    ((2020, 1, 4)%Z, PacketParticipantsData_V1);
    ((2020, 1, 5)%Z, PacketCarSetupData_V1);
    ((2020, 1, 6)%Z, PacketCarTelemetryData_V1);
    ((2020, 1, 7)%Z, PacketCarStatusData_V1);
    ((2020, 1, 8)%Z, PacketFinalClassificationData_V1);
    ((2020, 1, 9)%Z, PacketLobbyInfoData_V1)
  ].

(** The size checks of the [__main__] block: each [assert
    ctypes.sizeof(T) == n] as the pair [(T, n)]. *)
Definition main_size_assertions : list (ctype * nat) := [
  (PacketMotionData_V1             , 1464);
  (PacketSessionData_V1            ,  251);
  (PacketLapData_V1                , 1190);
  (PacketEventData_V1              ,   35);
  (PacketParticipantsData_V1       , 1213);
  (PacketCarSetupData_V1           , 1102);
  (PacketCarTelemetryData_V1       , 1307);
  (PacketCarStatusData_V1          , 1344);
  (PacketFinalClassificationData_V1,  839);
  (PacketLobbyInfoData_V1          , 1169)
].

(** ** Values held by a [ctypes] object *)

(** What reading the fields of a [ctypes] object gives: integers, the bit
    pattern of a binary32 ([c_float]) or binary64 ([c_double]) number, one
    byte for [c_char], and recursively arrays and structures.  A union is
    kept as the bytes its members overlay; see [union_member]. *)
Inductive value : Type :=
| VInt (n : Z)
| VFloat (bits : Z)
| VDouble (bits : Z)
| VChar (b : byte)
| VArray (elts : list value)
| VStruct (fields : list (string * value))
| VUnion (raw : bytes).

(** Unsigned value of [bs] in the byte order [ord]. *)
Definition uint_of (ord : endian) (bs : bytes) : Z :=
  match ord with
  | Little => le_uint bs
  | Big => le_uint (rev bs)
  end.

Definition bytes_of (ord : endian) (w : nat) (z : Z) : bytes :=
  match ord with
  | Little => le_bytes w z
  | Big => rev (le_bytes w z)
  end.

(** Two's complement reading of a [w]-byte unsigned value. *)
Definition to_signed (w : nat) (u : Z) : Z :=
  if (u <? 2 ^ (8 * Z.of_nat w - 1))%Z then u else (u - 2 ^ (8 * Z.of_nat w))%Z.

Definition read_simple (ord : endian) (t : ctype) (buf : bytes) : value :=
  let u := uint_of ord (take (simple_size t) buf) in
  match t with
  | c_int8 | c_int16 => VInt (to_signed (simple_size t) u)
  | c_float => VFloat u
  | c_double => VDouble u
  | c_char => VChar (hd x00 buf)
  | _ => VInt u
  end.

(** The fields [fs] of a structure laid out from offset [off] on, each
    read by [rd] at its offset in [buf]. *)
Definition read_fields (rd : ctype -> bytes -> value) (pack : nat) (buf : bytes) :
    list (string * ctype) -> nat -> list (string * value) :=
  fix go fs off :=
    match fs with
    | [] => []
    | f :: fs' =>
        let o := round_up off (field_align pack (alignment (snd f))) in
        (fst f, rd (snd f) (drop o buf)) :: go fs' (o + sizeof (snd f))
    end.

(** The value of type [t] stored at the front of [buf].  [ord] is the
    byte order of the enclosing structure; a structure or union imposes
    its own on its fields. *)
Fixpoint read (host ord : endian) (t : ctype) (buf : bytes) : value :=
  match t with
  | Array e n =>
      VArray (map (fun i => read host ord e (drop (i * sizeof e) buf)) (seq 0 n))
  | Structure _ bo pack fs =>
      VStruct (read_fields (read host (effective host bo)) pack buf fs 0)
  | Union _ _ _ _ => VUnion (take (sizeof t) buf)
  | _ => read_simple ord t buf
  end.

Definition write_simple (ord : endian) (t : ctype) (v : value) : bytes :=
  match t, v with
  | (c_int8 | c_int16 | c_uint8 | c_uint16 | c_uint32 | c_uint64), VInt n =>
      bytes_of ord (simple_size t) n
  | c_float, VFloat b => bytes_of ord 4 b
  | c_double, VDouble b => bytes_of ord 8 b
  | c_char, VChar b => [b]
  | _, _ => []
  end.

(** The fields [fs] holding [fvs], written from offset [off] up to the
    size [total] of the structure.  Padding, where the layout has any, is
    zero. *)
Definition write_fields (wr : ctype -> value -> bytes) (pack total : nat) :
    list (string * ctype) -> list (string * value) -> nat -> bytes :=
  fix go fs fvs off :=
    match fs, fvs with
    | f :: fs', fv :: fvs' =>
        let o := round_up off (field_align pack (alignment (snd f))) in
        replicate (o - off) x00 ++ wr (snd f) (snd fv) ++ go fs' fvs' (o + sizeof (snd f))
    | _, _ => replicate (total - off) x00
    end.

(** The bytes of an object of type [t] holding [v]: [bytes(obj)]. *)
Fixpoint write (host ord : endian) (t : ctype) (v : value) : bytes :=
  match t with
  | Array e n =>
      match v with
      | VArray vs => concat (map (write host ord e) vs)
      | _ => []
      end
  | Structure _ bo pack fs =>
      match v with
      | VStruct fvs =>
          write_fields (write host (effective host bo)) pack (sizeof t) fs fvs 0
      | _ => []
      end
  | Union _ _ _ _ =>
      match v with
      | VUnion raw => raw
      | _ => []
      end
  | _ => write_simple ord t v
  end.

Definition in_range (lo hi n : Z) : bool := ((lo <=? n) && (n <? hi))%Z.

Definition has_simple_type (t : ctype) (v : value) : bool :=
  match t, v with
  | (c_uint8 | c_uint16 | c_uint32 | c_uint64), VInt n =>
      in_range 0 (2 ^ (8 * Z.of_nat (simple_size t))) n
  | (c_int8 | c_int16), VInt n =>
      in_range (- 2 ^ (8 * Z.of_nat (simple_size t) - 1))
               (2 ^ (8 * Z.of_nat (simple_size t) - 1)) n
  | c_float, VFloat b => in_range 0 (2 ^ 32) b
  | c_double, VDouble b => in_range 0 (2 ^ 64) b
  | c_char, VChar _ => true
  | _, _ => false
  end.

Definition have_types (ht : ctype -> value -> bool) :
    list (string * ctype) -> list (string * value) -> bool :=
  fix go fs fvs :=
    match fs, fvs with
    | [], [] => true
    | f :: fs', fv :: fvs' =>
        String.eqb (fst f) (fst fv) && ht (snd f) (snd fv) && go fs' fvs'
    | _, _ => false
    end.

(** [v] is a value that an object of type [t] can hold: every integer in
    the range of its field, every array of its declared length, every
    structure with its declared fields in order. *)
Fixpoint has_type (t : ctype) (v : value) : bool :=
  match t with
  | Array e n =>
      match v with
      | VArray vs => Nat.eqb (length vs) n && forallb (has_type e) vs
      | _ => false
      end
  | Structure _ _ _ fs =>
      match v with
      | VStruct fvs => have_types has_type fs fvs
      | _ => false
      end
  | Union _ _ _ _ =>
      match v with
      | VUnion raw => Nat.eqb (length raw) (sizeof t)
      | _ => false
      end
  | _ => has_simple_type t v
  end.

(** Every structure and union inside [t], and [t] itself, is as large as
    the widths of its fields add up to. *)
Fixpoint tight (t : ctype) : bool :=
  match t with
  | Array e _ => tight e
  | Structure _ _ _ fs | Union _ _ _ fs =>
      Nat.eqb (sizeof t) (width_sum t) && forallb (fun f => tight (snd f)) fs
  | _ => true
  end.

(** ** Exceptions *)

(** The three places where [unpack_udp_packet] raises [UnpackError], with
    the data their messages are formatted from:
    - ["Bad telemetry packet: too short ({actual_packet_size} bytes)."]
    - ["Bad telemetry packet: no match for key fields {key!r}."]
    - ["Bad telemetry packet: bad size for {} packet; expected {} bytes but
       received {} bytes."] *)
Inductive unpack_error : Type :=
| TooShort (actual_packet_size : nat)
| NoMatch (key : Z * Z * Z)
| BadSize (name : string) (expected_packet_size actual_packet_size : nat).

(** [str(e)] for an [UnpackError] *)
Definition UnpackError_message (e : unpack_error) : string :=
  match e with
  | TooShort actual_packet_size =>
      "Bad telemetry packet: too short (" +:+ pretty actual_packet_size +:+ " bytes)."
  | NoMatch (packetFormat, packetVersion, packetId) =>
      "Bad telemetry packet: no match for key fields (" +:+ pretty packetFormat +:+ ", "
        +:+ pretty packetVersion +:+ ", " +:+ pretty packetId +:+ ")."
  | BadSize name expected_packet_size actual_packet_size =>
      "Bad telemetry packet: bad size for " +:+ name +:+ " packet; expected "
        +:+ pretty expected_packet_size +:+ " bytes but received "
        +:+ pretty actual_packet_size +:+ " bytes."
  end.

Inductive exn : Type :=
| UnpackError (e : unpack_error)
| ValueError
| AttributeError (name : string)
| UnicodeDecodeError
| RuntimeError (msg : string) (arg : string)
| TypeError (typ : string).

Inductive result (A : Type) : Type :=
| Ok (a : A)
| Raise (e : exn).
Arguments Ok {A} a.
Arguments Raise {A} e.

#[global] Instance result_ret : MRet result := @Ok.
#[global] Instance result_bind : MBind result :=
  fun A B f m => match m with Ok a => f a | Raise e => Raise e end.

(** ** Objects and attribute access *)

(** A [ctypes] object: its class and what it holds. *)
Record cobj : Type := Cobj { otype : ctype; ovalue : value }.

Definition type_name (t : ctype) : string :=
  match t with
  | Structure name _ _ _ | Union name _ _ _ => name
  | _ => ""
  end.

(** [T.from_buffer_copy(source)]: [ValueError] when the buffer is smaller
    than the type, otherwise an object over a copy of the first
    [sizeof(T)] bytes. *)
Definition from_buffer_copy (host : endian) (t : ctype) (source : bytes) : result cobj :=
  if length source <? sizeof t then Raise ValueError
  else Ok (Cobj t (read host host t (take (sizeof t) source))).

Fixpoint assoc {A : Type} (name : string) (l : list (string * A)) : option A :=
  match l with
  | [] => None
  | (n, a) :: l' => if String.eqb name n then Some a else assoc name l'
  end.

(** [v.name] for a structure value. *)
Definition getattr (v : value) (name : string) : result value :=
  match v with
  | VStruct fs =>
      match assoc name fs with
      | Some x => Ok x
      | None => Raise (AttributeError name)
      end
  | _ => Raise (AttributeError name)
  end.

(** [v.name] where the field is an integer. *)
Definition getattr_int (v : value) (name : string) : result Z :=
  x ← getattr v name;
  match x with
  | VInt n => Ok n
  | _ => Raise (AttributeError name)
  end.

Fixpoint until_nul (bs : bytes) : bytes :=
  match bs with
  | [] => []
  | b :: bs' => if Byte.eqb b x00 then [] else b :: until_nul bs'
  end.

Definition chars (vs : list value) : bytes :=
  omap (fun v => match v with VChar b => Some b | _ => None end) vs.

(** [v.name] where the field is an array of [c_char]: [ctypes] returns
    the bytes up to the first NUL. *)
Definition getattr_bytes (v : value) (name : string) : result bytes :=
  x ← getattr v name;
  match x with
  | VArray vs => Ok (until_nul (chars vs))
  | _ => Raise (AttributeError name)
  end.

(** [u.name] for a union of type [t] over the bytes [u]: the member is
    read from the start of the union. *)
Definition union_member (host : endian) (t : ctype) (name : string) (u : value) : result value :=
  match t, u with
  | Union _ bo _ fs, VUnion raw =>
      match assoc name fs with
      | Some ft => Ok (read host (effective host bo) ft raw)
      | None => Raise (AttributeError name)
      end
  | _, _ => Raise (AttributeError name)
  end.

(** ** Decode UDP telemetry packets *)

Definition unpack_udp_packet (host : endian) (packet : bytes) : result cobj :=
  let actual_packet_size := length packet in
  let header_size := sizeof PacketHeader in
  if actual_packet_size <? header_size then
    Raise (UnpackError (TooShort actual_packet_size))
  else
    header ← from_buffer_copy host PacketHeader packet;
    packetFormat ← getattr_int (ovalue header) "packetFormat";
    packetVersion ← getattr_int (ovalue header) "packetVersion";
    packetId ← getattr_int (ovalue header) "packetId";
    let key := (packetFormat, packetVersion, packetId) in
    match HeaderFieldsToPacketType !! key with
    | None => Raise (UnpackError (NoMatch key))
    | Some packet_type =>
        let expected_packet_size := sizeof packet_type in
        if negb (Nat.eqb actual_packet_size expected_packet_size) then
          Raise (UnpackError (BadSize (type_name packet_type)
                                      expected_packet_size actual_packet_size))
        else from_buffer_copy host packet_type packet
    end.

(** [bytes(obj)] *)
Definition to_bytes (host : endian) (obj : cobj) : bytes :=
  write host host (otype obj) (ovalue obj).

(** ** Text *)

(** A Python [str] is represented by its UTF-8 encoding, so that
    [bytes.decode()] is a check: it returns the same bytes as text when
    they are well-formed UTF-8 and raises [UnicodeDecodeError] otherwise. *)
Fixpoint utf8_valid (bs : bytes) : bool :=
  match bs with
  | [] => true
  | b0 :: r0 =>
      let c0 := byte_to_Z b0 in
      if (c0 <? 0x80)%Z then utf8_valid r0 else
      match r0 with
      | [] => false
      | b1 :: r1 =>
          let c1 := byte_to_Z b1 in
          if in_range 0xC2 0xE0 c0 then in_range 0x80 0xC0 c1 && utf8_valid r1 else
          match r1 with
          | [] => false
          | b2 :: r2 =>
              let c2 := byte_to_Z b2 in
              if in_range 0xE0 0xF0 c0 then
                (if (c0 =? 0xE0)%Z then in_range 0xA0 0xC0 c1
                 else if (c0 =? 0xED)%Z then in_range 0x80 0xA0 c1
                 else in_range 0x80 0xC0 c1)
                && in_range 0x80 0xC0 c2 && utf8_valid r2
              else
              match r2 with
              | [] => false
              | b3 :: r3 =>
                  let c3 := byte_to_Z b3 in
                  if in_range 0xF0 0xF5 c0 then
                    (if (c0 =? 0xF0)%Z then in_range 0x90 0xC0 c1
                     else if (c0 =? 0xF4)%Z then in_range 0x80 0x90 c1
                     else in_range 0x80 0xC0 c1)
                    && in_range 0x80 0xC0 c2 && in_range 0x80 0xC0 c3 && utf8_valid r3
                  else false
              end
          end
      end
  end.

Definition decode (bs : bytes) : result string :=
  if utf8_valid bs then Ok (String.string_of_list_byte bs) else Raise UnicodeDecodeError.

(** ** [PacketEventData_V1.__repr__]

    The method prints the header and the event code, and then the one
    member of [eventDetails] that the event code selects.  This first
    embedding keeps the selection and leaves the text out: the result is
    the member whose [repr] ends the output, [None] when the output ends
    after the event code, or the exception raised.  The method with its
    text is [PacketEventData_V1___repr__] below, and
    [PacketEventData_V1_repr_spec] relates the two. *)
Definition PacketEventData_V1_repr (host : endian) (self : value) : result (option value) :=
  code ← getattr_bytes self "eventStringCode";
  event ← decode code;
  if bool_decide (event ∈ ["CHQF"; "DRSD"; "DRSE"; "SEND"; "SSTA"]) then Ok None
  else
    eventDetails ← getattr self "eventDetails";
    event_str ←
      (if String.eqb event "FTLP" then union_member host EventDataDetails "fastestLap" eventDetails
       else if String.eqb event "PENA" then union_member host EventDataDetails "penalty" eventDetails
       else if String.eqb event "RCWN" then union_member host EventDataDetails "raceWinner" eventDetails
       else if String.eqb event "RTMT" then union_member host EventDataDetails "retirement" eventDetails
       else if String.eqb event "SPTP" then union_member host EventDataDetails "speedTrap" eventDetails
       else if String.eqb event "TMPT" then union_member host EventDataDetails "teamMateInPits" eventDetails
       else Raise (RuntimeError "Bad event code {}" event));
    Ok (Some event_str).

(** [class EventStringCode(enum.Enum)]: the eleven event codes. *)
Definition EventStringCode : list (string * bytes) := [
  ("SSTA", String.list_byte_of_string "SSTA");
  ("SEND", String.list_byte_of_string "SEND");
  ("FTLP", String.list_byte_of_string "FTLP");
  ("RTMT", String.list_byte_of_string "RTMT");
  ("DRSE", String.list_byte_of_string "DRSE");
  ("DRSD", String.list_byte_of_string "DRSD");
  ("TMPT", String.list_byte_of_string "TMPT");
  ("CHQF", String.list_byte_of_string "CHQF");
  ("RCWN", String.list_byte_of_string "RCWN");
  ("PENA", String.list_byte_of_string "PENA");
  ("SPTP", String.list_byte_of_string "SPTP")
].

(** ** Numbers *)

(** The number a binary32 bit pattern stands for, which is the Python
    [float] that reading a [c_float] field gives (the conversion to
    binary64 is exact); [None] for infinities and NaN. *)
Definition float32_value (bits : Z) : option Q :=
  let e := Z.land (Z.shiftr bits 23) 255 in
  let m := Z.land bits (2 ^ 23 - 1) in
  if (e =? 255)%Z then None
  else
    let mag :=
      if (e =? 0)%Z then (inject_Z m * Qpower 2 (-149))%Q
      else (inject_Z (2 ^ 23 + m) * Qpower 2 (e - 150))%Q in
    Some (Qred (if Z.testbit bits 31 then (- mag)%Q else mag)).

(** ** Appendices: value enumerations used in the UDP output *)

(** The driver names; text is kept in UTF-8, as in the source file. *)
Definition DriverIDs : gmap Z string :=
  list_to_map ([
  ( 0, "Carlos Sainz");
  ( 1, "Daniil Kvyat");
  ( 2, "Daniel Ricciardo");
  ( 6, "Kimi Räikkönen");
  ( 7, "Lewis Hamilton");
  ( 9, "Max Verstappen");
  (10, "Nico Hulkenberg");
  (11, "Kevin Magnussen");
  (12, "Romain Grosjean");
  (13, "Sebastian Vettel");
  (14, "Sergio Perez");
  (15, "Valtteri Bottas");
  (17, "Esteban Ocon");
  (19, "Lance Stroll");
  (20, "Arron Barnes");
  (21, "Martin Giles");
  (22, "Alex Murray");
  (23, "Lucas Roth");
  (24, "Igor Correia");
  (25, "Sophie Levasseur");
  (26, "Jonas Schiffer");
  (27, "Alain Forest");
  (28, "Jay Letourneau");
  (29, "Esto Saari");
  (30, "Yasar Atiyeh");
  (31, "Callisto Calabresi");
  (32, "Naota Izum");
  (33, "Howard Clarke");
  (34, "Wilhelm Kaufmann");
  (35, "Marie Laursen");
  (36, "Flavio Nieves");
  (37, "Peter Belousov");
  (38, "Klimek Michalski");
  (39, "Santiago Moreno");
  (40, "Benjamin Coppens");
  (41, "Noah Visser");
  (42, "Gert Waldmuller");
  (43, "Julian Quesada");
  (44, "Daniel Jones");
  (45, "Artem Markelov");
  (46, "Tadasuke Makino");
  (47, "Sean Gelael");
  (48, "Nyck De Vries");
  (49, "Jack Aitken");
  (50, "George Russell");
  (51, "Maximilian Günther");
  (52, "Nirei Fukuzumi");
  (53, "Luca Ghiotto");
  (54, "Lando Norris");
  (55, "Sérgio Sette Câmara");
  (56, "Louis Delétraz");
  (57, "Antonio Fuoco");
  (58, "Charles Leclerc");
  (59, "Pierre Gasly");
  (62, "Alexander Albon");
  (63, "Nicholas Latifi");
  (64, "Dorian Boccolacci");
  (65, "Niko Kari");
  (66, "Roberto Merhi");
  (67, "Arjun Maini");
  (68, "Alessio Lorandi");
  (69, "Ruben Meijer");
  (70, "Rashid Nair");
  (71, "Jack Tremblay");
  (74, "Antonio Giovinazzi");
  (75, "Robert Kubica");
  (78, "Nobuharu Matsushita");
  (79, "Nikita Mazepin");
  (80, "Guanyu Zhou");
  (81, "Mick Schumacher");
  (82, "Callum Ilott");
  (83, "Juan Manuel Correa");
  (84, "Jordan King");
  (85, "Mahaveer Raghunathan");
  (86, "Tatiana Calderón");
  (87, "Anthoine Hubert");
  (88, "Giuliano Alesi");
  (89, "Ralph Boschung")
  ]%Z).

(** The team names. *)
Definition TeamIDs : gmap Z string :=
  list_to_map ([
  (0, "Mercedes");
  (1, "Ferrari");
  (2, "Red Bull Racing");
  (3, "Williams");
  (4, "Racing Point");
  (5, "Renault");
  (6, "AlphaTauri");
  (7, "Haas");
  (8, "McLaren");
  (9, "Alfa Romeo");
  (10, "McLaren 1988");
  (11, "McLaren 1991");
  (12, "Williams 1992");
  (13, "Ferrari 1995");
  (14, "Williams 1996");
  (15, "McLaren 1998");
  (16, "Ferrari 2002");
  (17, "Ferrari 2004");
  (18, "Renault 2006");
  (19, "Ferrari 2007");
  (21, "Red Bull 2010");
  (22, "Ferrari 1976");
  (23, "ART Grand Prix");
  (24, "Campos Vexatec Racing");
  (25, "Carlin");
  (26, "Charouz Racing System");
  (27, "DAMS");
  (28, "Russian Time");
  (29, "MP Motorsport");
  (30, "Pertamina");
  (31, "McLaren 1990");
  (32, "Trident");
  (33, "BWT Arden");
  (34, "McLaren 1976");
  (35, "Lotus 1972");
  (36, "Ferrari 1979");
  (37, "McLaren 1982");
  (38, "Williams 2003");
  (39, "Brawn 2009");
  (40, "Lotus 1978");
  (41, "F1 Generic car");
  (42, "Art GP '19");
  (43, "Campos '19");
  (44, "Carlin '19");
  (45, "Sauber Junior Charouz '19");
  (46, "Dams '19");
  (47, "Uni-Virtuosi '19");
  (48, "MP Motorsport '19");
  (49, "Prema '19");
  (50, "Trident '19");
  (51, "Arden '19");
  (53, "Benetton 1994");
  (54, "Benetton 1995");
  (55, "Ferrari 2000");
  (56, "Jordan 1991");
  (63, "Ferrari 1990");
  (64, "McLaren 2010");
  (65, "Ferrari 2010");
  (255, "My Team")
  ]%Z).

(** The track names. *)
Definition TrackIDs : gmap Z string :=
  list_to_map ([
  (0, "Melbourne");
  (1, "Paul Ricard");
  (2, "Shanghai");
  (3, "Sakhir (Bahrain)");
  (4, "Catalunya");
  (5, "Monaco");
  (6, "Montreal");
  (7, "Silverstone");
  (8, "Hockenheim");
  (9, "Hungaroring");
  (10, "Spa");
  (11, "Monza");
  (12, "Singapore");
  (13, "Suzuka");
  (14, "Abu Dhabi");
  (15, "Texas");
  (16, "Brazil");
  (17, "Austria");
  (18, "Sochi");
  (19, "Mexico");
  (20, "Baku (Azerbaijan)");
  (21, "Sakhir Short");
  (22, "Silverstone Short");
  (23, "Texas Short");
  (24, "Suzuka Short");
  (25, "Hanoi");
  (26, "Zandvoort")
  ]%Z).

(** The nationalities. *)
Definition NationalityIDs : gmap Z string :=
  list_to_map ([
  (1, "American");
  (2, "Argentinian");
  (3, "Australian");
  (4, "Austrian");
  (5, "Azerbaijani");
  (6, "Bahraini");
  (7, "Belgian");
  (8, "Bolivian");
  (9, "Brazilian");
  (10, "British");
  (11, "Bulgarian");
  (12, "Cameroonian");
  (13, "Canadian");
  (14, "Chilean");
  (15, "Chinese");
  (16, "Colombian");
  (17, "Costa Rican");
  (18, "Croatian");
  (19, "Cypriot");
  (20, "Czech");
  (21, "Danish");
  (22, "Dutch");
  (23, "Ecuadorian");
  (24, "English");
  (25, "Emirian");
  (26, "Estonian");
  (27, "Finnish");
  (28, "French");
  (29, "German");
  (30, "Ghanaian");
  (31, "Greek");
  (32, "Guatemalan");
  (33, "Honduran");
  (34, "Hong Konger");
  (35, "Hungarian");
  (36, "Icelander");
  (37, "Indian");
  (38, "Indonesian");
  (39, "Irish");
  (40, "Israeli");
  (41, "Italian");
  (42, "Jamaican");
  (43, "Japanese");
  (44, "Jordanian");
  (45, "Kuwaiti");
  (46, "Latvian");
  (47, "Lebanese");
  (48, "Lithuanian");
  (49, "Luxembourger");
  (50, "Malaysian");
  (51, "Maltese");
  (52, "Mexican");
  (53, "Monegasque");
  (54, "New Zealander");
  (55, "Nicaraguan");
  (56, "North Korean");
  (57, "Northern Irish");
  (58, "Norwegian");
  (59, "Omani");
  (60, "Pakistani");
  (61, "Panamanian");
  (62, "Paraguayan");
  (63, "Peruvian");
  (64, "Polish");
  (65, "Portuguese");
  (66, "Qatari");
  (67, "Romanian");
  (68, "Russian");
  (69, "Salvadoran");
  (70, "Saudi");
  (71, "Scottish");
  (72, "Serbian");
  (73, "Singaporean");
  (74, "Slovakian");
  (75, "Slovenian");
  (76, "South Korean");
  (77, "South African");
  (78, "Spanish");
  (79, "Swedish");
  (80, "Swiss");
  (81, "Thai");
  (82, "Turkish");
  (83, "Uruguayan");
  (84, "Ukrainian");
  (85, "Venezuelan");
  (86, "Welsh");
  (87, "Barbadian");
  (88, "Vietnamese")
  ]%Z).

(** These surface types are from physics data and show what type of contact
    each wheel is experiencing. *)
Definition SurfaceTypes : gmap Z string :=
  list_to_map ([
  (0, "Tarmac");
  (1, "Rumble strip");
  (2, "Concrete");
  (3, "Rock");
  (4, "Gravel");
  (5, "Mud");
  (6, "Sand");
  (7, "Grass");
  (8, "Water");
  (9, "Cobblestone");
  (10, "Metal");
  (11, "Ridged")
  ]%Z).

(** The penalty types. *)
Definition PenaltyTypes : gmap Z string :=
  list_to_map ([
  (0, "Drive through");
  (1, "Stop Go");
  (2, "Grid penalty");
  (3, "Penalty reminder");
  (4, "Time penalty");
  (5, "Warning");
  (6, "Disqualified");
  (7, "Removed from formation lap");
  (8, "Parked too long timer");
  (9, "Tyre regulations");
  (10, "This lap invalidated");
  (11, "This and next lap invalidated");
  (12, "This lap invalidated without reason");
  (13, "This and next lap invalidated without reason");
  (14, "This and previous lap invalidated");
  (15, "This and previous lap invalidated without reason");
  (16, "Retired");
  (17, "Black flag timer")
  ]%Z).

(** The infringement types. *)
Definition InfringementTypes : gmap Z string :=
  list_to_map ([
  (0, "Blocking by slow driving");
  (1, "Blocking by wrong way driving");
  (2, "Reversing off the start line");
  (3, "Big Collision");
  (4, "Small Collision");
  (5, "Collision failed to hand back position single");
  (6, "Collision failed to hand back position multiple");
  (7, "Corner cutting gained time");
  (8, "Corner cutting overtake single");
  (9, "Corner cutting overtake multiple");
  (10, "Crossed pit exit lane");
  (11, "Ignoring blue flags");
  (12, "Ignoring yellow flags");
  (13, "Ignoring drive through");
  (14, "Too many drive throughs");
  (15, "Drive through reminder serve within n laps");
  (16, "Drive through reminder serve this lap");
  (17, "Pit lane speeding");
  (18, "Parked for too long");
  (19, "Ignoring tyre regulations");
  (20, "Too many penalties");
  (21, "Multiple warnings");
  (22, "Approaching disqualification");
  (23, "Tyre regulations select single");
  (24, "Tyre regulations select multiple");
  (25, "Lap invalidated corner cutting");
  (26, "Lap invalidated running wide");
  (27, "Corner cutting ran wide gained time minor");
  (28, "Corner cutting ran wide gained time significant");
  (29, "Corner cutting ran wide gained time extreme");
  (30, "Lap invalidated wall riding");
  (31, "Lap invalidated flashback used");
  (32, "Lap invalidated reset to track");
  (33, "Blocking the pitlane");
  (34, "Jump start");
  (35, "Safety car to car collision");
  (36, "Safety car illegal overtake");
  (37, "Safety car exceeding allowed pace");
  (38, "Virtual safety car exceeding allowed pace");
  (39, "Formation lap below allowed speed");
  (40, "Retired mechanical failure");
  (41, "Retired terminally damaged");
  (42, "Safety car falling too far back");
  (43, "Black flag timer");
  (44, "Unserved stop go penalty");
  (45, "Unserved drive through penalty");
  (46, "Engine component change");
  (47, "Gearbox change");
  (48, "League grid penalty");
  (49, "Retry penalty");
  (50, "Illegal time gain");
  (51, "Mandatory pitstop")
  ]%Z).

(** The members of [PacketID], by name and value. *)
Definition PacketID_members : list (string * Z) := [
  ("MOTION", PacketID.MOTION);
  ("SESSION", PacketID.SESSION);
  ("LAP_DATA", PacketID.LAP_DATA);
  ("EVENT", PacketID.EVENT);
  ("PARTICIPANTS", PacketID.PARTICIPANTS);
  ("CAR_SETUPS", PacketID.CAR_SETUPS);
  ("CAR_TELEMETRY", PacketID.CAR_TELEMETRY);
  ("CAR_STATUS", PacketID.CAR_STATUS);
  ("FINAL_CLASSIFICATION", PacketID.FINAL_CLASSIFICATION);
  ("LOBBY_INFO", PacketID.LOBBY_INFO)
].

(** [PacketID.short_description] *)
Definition PacketID_short_description : gmap Z string :=
  list_to_map [
  (PacketID.MOTION, "Motion");
  (PacketID.SESSION, "Session");
  (PacketID.LAP_DATA, "Lap Data");
  (PacketID.EVENT, "Event");
  (PacketID.PARTICIPANTS, "Participants");
  (PacketID.CAR_SETUPS, "Car Setups");
  (PacketID.CAR_TELEMETRY, "Car Telemetry");
  (PacketID.CAR_STATUS, "Car Status");
  (PacketID.FINAL_CLASSIFICATION, "Final Classification");
  (PacketID.LOBBY_INFO, "Lobby information")
  ].

(** [PacketID.long_description] *)
Definition PacketID_long_description : gmap Z string :=
  list_to_map [
  (PacketID.MOTION, "Contains all motion data for player's car – only sent while player is in control");
  (PacketID.SESSION, "Data about the session – track, time left");
  (PacketID.LAP_DATA, "Data about all the lap times of cars in the session");
  (PacketID.EVENT, "Various notable events that happen during a session");
  (PacketID.PARTICIPANTS, "List of participants in the session, mostly relevant for multiplayer");
  (PacketID.CAR_SETUPS, "Packet detailing car setups for cars in the race");
  (PacketID.CAR_TELEMETRY, "Telemetry data for all cars");
  (PacketID.CAR_STATUS, "Status data for all cars such as damage");
  (PacketID.FINAL_CLASSIFICATION, "Final classification confirmation at the end of a race");
  (PacketID.LOBBY_INFO, "Information about players in a multiplayer lobby")
  ].

(** [EventStringCode.short_description], by the name of the member *)
Definition EventStringCode_short_description : gmap string string :=
  list_to_map [
  ("SSTA", "Session Started");
  ("SEND", "Session Ended");
  ("FTLP", "Fastest Lap");
  ("RTMT", "Retirement");
  ("DRSE", "DRS enabled");
  ("DRSD", "DRS disabled");
  ("TMPT", "Team mate in pits");
  ("CHQF", "Chequered flag");
  ("RCWN", "Race Winner");
  ("PENA", "Penalty issued");
  ("SPTP", "Speed trap triggered")
  ].

(** [EventStringCode.long_description], by the name of the member *)
Definition EventStringCode_long_description : gmap string string :=
  list_to_map [
  ("SSTA", "Sent when the session starts");
  ("SEND", "Sent when the session ends");
  ("FTLP", "When a driver achieves the fastest lap");
  ("RTMT", "When a driver retires");
  ("DRSE", "Race control have enabled DRS");
  ("DRSD", "Race control have disabled DRS");
  ("TMPT", "Your team mate has entered the pits");
  ("CHQF", "The chequered flag has been waved");
  ("RCWN", "The race winner is announced");
  ("PENA", "A penalty has been issued");
  ("SPTP", "Speed trap has been triggered")
  ].

(** [class ButtonFlag(enum.IntEnum)]: bit-mask values for the 'button' field
    in Car Telemetry Data packets. *)
Definition ButtonFlag : list (string * Z) := [
  ("CROSS", 0x0001);
  ("TRIANGLE", 0x0002);
  ("CIRCLE", 0x0004);
  ("SQUARE", 0x0008);
  ("D_PAD_LEFT", 0x0010);
  ("D_PAD_RIGHT", 0x0020);
  ("D_PAD_UP", 0x0040);
  ("D_PAD_DOWN", 0x0080);
  ("OPTIONS", 0x0100);
  ("L1", 0x0200);
  ("R1", 0x0400);
  ("L2", 0x0800);
  ("R2", 0x1000);
  ("LEFT_STICK_CLICK", 0x2000);
  ("RIGHT_STICK_CLICK", 0x4000)
]%Z.

(** [ButtonFlag.description] *)
Definition ButtonFlag_description : gmap Z string :=
  list_to_map ([
  (0x0001, "Cross or A");
  (0x0002, "Triangle or Y");
  (0x0004, "Circle or B");
  (0x0008, "Square or X");
  (0x0010, "D-pad Left");
  (0x0020, "D-pad Right");
  (0x0040, "D-pad Up");
  (0x0080, "D-pad Down");
  (0x0100, "Options or Menu");
  (0x0200, "L1 or LB");
  (0x0400, "R1 or RB");
  (0x0800, "L2 or LT");
  (0x1000, "R2 or RT");
  (0x2000, "Left Stick Click");
  (0x4000, "Right Stick Click")
  ]%Z).

(** ** Reading a datagram by hand *)

(** The unsigned little-endian number in the [w] bytes of [buf] from
    offset [off] on. *)
Definition field_at (buf : bytes) (off w : nat) : Z :=
  le_uint (take w (drop off buf)).

(** The header that the first 24 bytes of [buf] encode, field by field at
    the offsets of the wire format. *)
Definition header_at (buf : bytes) : value :=
  VStruct [
    ("packetFormat"           , VInt (field_at buf 0 2));
    ("gameMajorVersion"       , VInt (field_at buf 2 1));
    ("gameMinorVersion"       , VInt (field_at buf 3 1));
    ("packetVersion"          , VInt (field_at buf 4 1));
    ("packetId"               , VInt (field_at buf 5 1));
    ("sessionUID"             , VInt (field_at buf 6 8));
    ("sessionTime"            , VFloat (field_at buf 14 4));
    ("frameIdentifier"        , VInt (field_at buf 18 4));
    ("playerCarIndex"         , VInt (field_at buf 22 1));
    ("secondaryPlayerCarIndex", VInt (field_at buf 23 1))
  ].

(** The three header fields that select the packet type, read from the
    bytes 0-1, 4 and 5 of [buf]. *)
Definition key_at (buf : bytes) : Z * Z * Z :=
  (field_at buf 0 2, field_at buf 4 1, field_at buf 5 1).

(** The keys (2020, 1, 0) to (2020, 1, 9). *)
Definition registered_keys : list (Z * Z * Z) :=
  map (fun kind => (2020, 1, kind)%Z) (seqZ 0 10).

(** The key that [unpack_udp_packet] looks up: the header of [packet]
    decoded, and its three fields. *)
Definition decoded_key (host : endian) (packet : bytes) : result (Z * Z * Z) :=
  header ← from_buffer_copy host PacketHeader packet;
  packetFormat ← getattr_int (ovalue header) "packetFormat";
  packetVersion ← getattr_int (ovalue header) "packetVersion";
  packetId ← getattr_int (ovalue header) "packetId";
  Ok (packetFormat, packetVersion, packetId).

(** The key held by the header of a packet value. *)
Definition key_of (v : value) : result (Z * Z * Z) :=
  header ← getattr v "header";
  packetFormat ← getattr_int header "packetFormat";
  packetVersion ← getattr_int header "packetVersion";
  packetId ← getattr_int header "packetId";
  Ok (packetFormat, packetVersion, packetId).

(** The four bytes of the event code of an event datagram, and for each
    code that carries details the sub-record that the bytes after the code
    encode. *)
Definition event_code_at (packet : bytes) : bytes := take 4 (drop 24 packet).

Definition vehicle_at (packet : bytes) : value :=
  VStruct [("vehicleIdx", VInt (field_at packet 28 1))].

Definition event_details_at (packet : bytes) : list (string * (string * value)) := [
  ("FTLP", ("fastestLap",
            VStruct [("vehicleIdx", VInt (field_at packet 28 1));
                     ("lapTime"   , VFloat (field_at packet 29 4))]));
  ("PENA", ("penalty",
            VStruct [("penaltyType"     , VInt (field_at packet 28 1));
                     ("infringementType", VInt (field_at packet 29 1));
                     ("vehicleIdx"      , VInt (field_at packet 30 1));
                     ("otherVehicleIdx" , VInt (field_at packet 31 1));
                     ("time"            , VInt (field_at packet 32 1));
                     ("lapNum"          , VInt (field_at packet 33 1));
                     ("placesGained"    , VInt (field_at packet 34 1))]));
  ("RCWN", ("raceWinner", vehicle_at packet));
  ("RTMT", ("retirement", vehicle_at packet));
  ("SPTP", ("speedTrap",
            VStruct [("vehicleIdx", VInt (field_at packet 28 1));
                     ("speed"     , VFloat (field_at packet 29 4))]));
  ("TMPT", ("teamMateInPits", vehicle_at packet))
].

Definition no_details_codes : list string := ["SSTA"; "SEND"; "DRSE"; "DRSD"; "CHQF"].

(** Two packet values that are the same but for the game version in
    their headers. *)
Definition same_but_game_version (v1 v2 : value) : Prop :=
  exists h1 h2 rest,
    v1 = VStruct (("header", VStruct h1) :: rest) /\
    v2 = VStruct (("header", VStruct h2) :: rest) /\
    map fst h1 = map fst h2 /\
    forall name, name <> "gameMajorVersion" -> name <> "gameMinorVersion" ->
                 assoc name h1 = assoc name h2.

(** A registered type is a packed little-endian structure that starts
    with the header. *)
Definition header_first (t : ctype) : Prop :=
  exists name fs, t = PackedLittleEndianStructure name (("header", PacketHeader) :: fs).

(** The member of [eventDetails] that [__repr__] prints for each event
    code, with its type in [EventDataDetails]. *)
Definition event_members : list (string * (string * ctype)) := [
  ("FTLP", ("fastestLap"    , FastestLapData));
  ("PENA", ("penalty"       , PenaltyData));
  ("RCWN", ("raceWinner"    , RaceWinnerData));
  ("RTMT", ("retirement"    , RetirementData));
  ("SPTP", ("speedTrap"     , SpeedTrapData));
  ("TMPT", ("teamMateInPits", TeamMateInPitsData))
].

(** The class of the member of [eventDetails] that [__repr__] prints for
    the event code [code]. *)
Definition event_class (code : bytes) : ctype :=
  match assoc (String.string_of_list_byte code) event_members with
  | Some (_, t) => t
  | None => EventDataDetails
  end.

(** The fields of a structure or union type. *)
Definition fields_of (t : ctype) : list (string * ctype) :=
  match t with
  | Structure _ _ _ fs | Union _ _ _ fs => fs
  | _ => []
  end.

(** The type of the elements of an array type, the type itself
    otherwise. *)
Definition element_type (t : ctype) : ctype :=
  match t with
  | Array e _ => e
  | _ => t
  end.

(** The lookup tables of the appendices, each with a structure and the
    field of it whose values the table names. *)
Definition appendix_tables : list (string * (gmap Z string * (ctype * string))) := [
  ("TeamIDs"          , (TeamIDs          , (ParticipantData_V1  , "teamId")));
  ("TeamIDs"          , (TeamIDs          , (LobbyInfoData_V1    , "teamId")));
  ("DriverIDs"        , (DriverIDs        , (ParticipantData_V1  , "driverId")));
  ("TrackIDs"         , (TrackIDs         , (PacketSessionData_V1, "trackId")));
  ("NationalityIDs"   , (NationalityIDs   , (ParticipantData_V1  , "nationality")));
  ("NationalityIDs"   , (NationalityIDs   , (LobbyInfoData_V1    , "nationality")));
  ("SurfaceTypes"     , (SurfaceTypes     , (CarTelemetryData_V1 , "surfaceType")));
  ("PenaltyTypes"     , (PenaltyTypes     , (PenaltyData         , "penaltyType")));
  ("InfringementTypes", (InfringementTypes, (PenaltyData         , "infringementType")))
].

(** ** Byte order and packing of a type *)

(** The byte order in which the simple fields of [t] are read is set by a
    structure around them ([LittleEndianStructure] or [BigEndianStructure])
    and not by the host; [inside] tells whether [t] itself stands in such
    a structure. *)
Fixpoint order_fixed (inside : bool) (t : ctype) : bool :=
  match t with
  | Array e _ => order_fixed inside e
  | Structure _ bo _ fs =>
      forallb (fun f => order_fixed (match bo with Native => false | _ => true end) (snd f)) fs
  | Union _ _ _ _ => true
  | _ => inside
  end.

(** The members of a union, read one by one, do not depend on the host
    either. *)
Definition members_order_fixed (t : ctype) : bool :=
  match t with
  | Union _ bo _ fs =>
      forallb (fun f => order_fixed (match bo with Native => false | _ => true end) (snd f)) fs
  | _ => false
  end.

(** Every structure in [t] is declared with [_pack_ = 1]. *)
Fixpoint packed (t : ctype) : bool :=
  match t with
  | Array e _ => packed e
  | Structure _ _ pack fs => Nat.eqb pack 1 && forallb (fun f => packed (snd f)) fs
  | _ => true
  end.

(** ** Printing: [PackedLittleEndianStructure.__repr__]

    What Python itself prints is taken as given: [repr] of a [float] read
    from a [c_float] or [c_double] field (by its bit pattern), and the
    default [repr] of a [ctypes] object and of a class, which show an
    address and a module name.  [repr] of an [int] and of [bytes] are
    written out. *)

Definition hex_digit (n : Z) : byte :=
  nth (Z.to_nat n) (String.list_byte_of_string "0123456789abcdef") x00.

(** One byte inside [repr(bytes)]. *)
Definition repr_byte (quote c : byte) : bytes :=
  if Byte.eqb c quote || Byte.eqb c x5c then [x5c; c]
  else if Byte.eqb c x09 then [x5c; x74]
  else if Byte.eqb c x0a then [x5c; x6e]
  else if Byte.eqb c x0d then [x5c; x72]
  else if (byte_to_Z c <? 0x20)%Z || (0x7f <=? byte_to_Z c)%Z then
    [x5c; x78; hex_digit (byte_to_Z c / 16); hex_digit (byte_to_Z c mod 16)]
  else [c].

(** [repr(bs)] for [bs : bytes]: in single quotes, unless [bs] has a
    single quote and no double quote. *)
Definition repr_bytes (bs : bytes) : string :=
  let quote :=
    if existsb (Byte.eqb x27) bs && negb (existsb (Byte.eqb x22) bs) then x22 else x27 in
  String.string_of_list_byte ([x62; quote] ++ concat (map (repr_byte quote) bs) ++ [quote]).

(** [sep.join(l)] *)
Fixpoint join (sep : string) (l : list string) : string :=
  match l with
  | [] => ""
  | [x] => x
  | x :: l' => x +:+ sep +:+ join sep l'
  end.

Fixpoint mapM {A B : Type} (f : A -> result B) (l : list A) : result (list B) :=
  match l with
  | [] => Ok []
  | a :: l' => b ← f a; bs ← mapM f l'; Ok (b :: bs)
  end.

(** The structures of the module all derive from
    [PackedLittleEndianStructure]; they are the little-endian structures
    with [_pack_ = 1]. *)
Definition is_PackedLittleEndianStructure (t : ctype) : bool :=
  match t with
  | Structure _ LittleEndian 1 _ => true
  | _ => false
  end.

(** What Python prints by itself. *)
Record builtins : Type := Builtins {
  repr_float : Z -> string;     (* [repr] of the [float] read from a [c_float] *)
  repr_double : Z -> string;    (* [repr] of the [float] read from a [c_double] *)
  repr_object : ctype -> string;  (* default [repr] of an object of a type *)
  repr_class : ctype -> string    (* [repr] of the class of a type *)
}.

Section Printing.

Variable py : builtins.

(** [repr] of what a field or an array element of a simple type holds. *)
Definition repr_simple (t : ctype) (v : value) : result string :=
  match t, v with
  | (c_uint8 | c_int8 | c_uint16 | c_int16 | c_uint32 | c_uint64), VInt n => Ok (pretty n)
  | c_float, VFloat b => Ok (repr_float py b)
  | c_double, VDouble b => Ok (repr_double py b)
  | c_char, VChar b => Ok (repr_bytes [b])
  | _, _ => Raise (AttributeError "")
  end.

(** [vstr] for the field of type [ft] holding [fv], in the loop of
    [__repr__]; [rp] is [repr] of a nested object.  A field that is
    neither a packed structure, a number, bytes nor an array raises
    [RuntimeError] (its one argument is the formatted message). *)
Definition field_repr (rp : ctype -> value -> result string) (ft : ctype) (fv : value) :
    result string :=
  match ft with
  | Array c_char _ =>
      match fv with
      | VArray vs => Ok (repr_bytes (until_nul (chars vs)))
      | _ => Raise (AttributeError "")
      end
  | Array e _ =>
      match fv with
      | VArray vs => strs ← mapM (rp e) vs; Ok ("[" +:+ join ", " strs +:+ "]")
      | _ => Raise (AttributeError "")
      end
  | Structure _ _ _ _ | Union _ _ _ _ =>
      if is_PackedLittleEndianStructure ft then rp ft fv
      else Raise (RuntimeError ("Bad value " +:+ repr_object py ft +:+ " of type "
                                  +:+ repr_class py ft) "")
  | _ => rp ft fv
  end.

(** The loop over [_fields_]: the list [fstr_list]. *)
Definition fields_repr (rp : ctype -> value -> result string) :
    list (string * ctype) -> list (string * value) -> result (list string) :=
  fix go fs fvs :=
    match fs, fvs with
    | [], _ => Ok []
    | f :: fs', fv :: fvs' =>
        vstr ← field_repr rp (snd f) (snd fv);
        rest ← go fs' fvs';
        Ok ((fst f +:+ "=" +:+ vstr) :: rest)
    | _ :: _, [] => Raise (AttributeError "")
    end.

(** [repr(x)] for [x] a field or an array element of type [t]: for a
    packed structure this is [PackedLittleEndianStructure.__repr__]; an
    array, a union or another structure met as an array element prints as
    any object does. *)
Fixpoint instance_repr (t : ctype) (v : value) : result string :=
  match t with
  | Structure name LittleEndian 1 fs =>
      match v with
      | VStruct fvs =>
          fstr_list ← fields_repr instance_repr fs fvs;
          Ok (name +:+ "(" +:+ join ", " fstr_list +:+ ")")
      | _ => Raise (AttributeError "")
      end
  | Structure _ _ _ _ | Union _ _ _ _ | Array _ _ => Ok (repr_object py t)
  | _ => repr_simple t v
  end.

(** [PacketEventData_V1.__repr__(self)] *)
Definition PacketEventData_V1___repr__ (host : endian) (self : value) : result string :=
  header ← getattr self "header";
  header_repr ← instance_repr PacketHeader header;
  eventStringCode ← getattr_bytes self "eventStringCode";
  let msg := type_name PacketEventData_V1 +:+ "(header=" +:+ header_repr
               +:+ ", eventStringCode=" +:+ repr_bytes eventStringCode in
  event ← decode eventStringCode;
  if bool_decide (event ∈ ["CHQF"; "DRSD"; "DRSE"; "SEND"; "SSTA"]) then Ok (msg +:+ ")")
  else
    eventDetails ← getattr self "eventDetails";
    event_str ←
      (if String.eqb event "FTLP" then
         m ← union_member host EventDataDetails "fastestLap" eventDetails;
         instance_repr FastestLapData m
       else if String.eqb event "PENA" then
         m ← union_member host EventDataDetails "penalty" eventDetails;
         instance_repr PenaltyData m
       else if String.eqb event "RCWN" then
         m ← union_member host EventDataDetails "raceWinner" eventDetails;
         instance_repr RaceWinnerData m
       else if String.eqb event "RTMT" then
         m ← union_member host EventDataDetails "retirement" eventDetails;
         instance_repr RetirementData m
       else if String.eqb event "SPTP" then
         m ← union_member host EventDataDetails "speedTrap" eventDetails;
         instance_repr SpeedTrapData m
       else if String.eqb event "TMPT" then
         m ← union_member host EventDataDetails "teamMateInPits" eventDetails;
         instance_repr TeamMateInPitsData m
       else Raise (RuntimeError "Bad event code {}" event));
    Ok (msg +:+ ", eventDetails=" +:+ event_str +:+ ")").

(** [repr(obj)] for an object of one of the packet classes: the method of
    [PacketEventData_V1] for an event, the inherited one otherwise. *)
Definition repr (host : endian) (obj : cobj) : result string :=
  if String.eqb (type_name (otype obj)) (type_name PacketEventData_V1) then
    PacketEventData_V1___repr__ host (ovalue obj)
  else instance_repr (otype obj) (ovalue obj).

End Printing.

(** A field that [field_repr] prints without [RuntimeError], and a type
    whose structures have only such fields. *)
Definition field_printable (pr : ctype -> bool) (ft : ctype) : bool :=
  match ft with
  | Array c_char _ => true
  | Array e _ => pr e
  | Structure _ _ _ _ | Union _ _ _ _ => is_PackedLittleEndianStructure ft && pr ft
  | _ => true
  end.

Fixpoint printable (t : ctype) : bool :=
  match t with
  | Structure _ LittleEndian 1 fs => forallb (fun f => field_printable printable (snd f)) fs
  | _ => true
  end.

(** [t] is printed without an exception whenever it is printable. *)
Definition prints (py : builtins) (t : ctype) : Prop :=
  printable t = true ->
  forall v, has_type t v = true -> exists s, instance_repr py t v = Ok s.

(** The structures of the module. *)
Definition packed_structures : list ctype := [
  PacketHeader;
  CarMotionData_V1; PacketMotionData_V1;
  MarshalZone_V1; WeatherForecastSample; PacketSessionData_V1;
  LapData_V1; PacketLapData_V1;
  FastestLapData; PenaltyData; RaceWinnerData; RetirementData; SpeedTrapData;
  TeamMateInPitsData; PacketEventData_V1;
  ParticipantData_V1; PacketParticipantsData_V1;
  CarSetupData_V1; PacketCarSetupData_V1;
  CarTelemetryData_V1; PacketCarTelemetryData_V1;
  CarStatusData_V1; PacketCarStatusData_V1;
  FinalClassificationData_V1; PacketFinalClassificationData_V1;
  LobbyInfoData_V1; PacketLobbyInfoData_V1
].

(** ** Creating the classes

    [ctypes/_endian.py].  On a little-endian host [LittleEndianStructure]
    is [Structure] itself; on a big-endian host it is a class of its own
    whose metaclass [_swapped_struct_meta] replaces the type of each field
    by [_other_endian(typ)] when [_fields_] is set, that is, when a class
    deriving from it is created.  [BigEndianStructure] is the same with
    the hosts exchanged.

    [_other_endian] gives a simple type with the other byte order, an
    array of what its element type gives, and a structure as it is.  For
    a union, the [ctypes] of CPython 3.11.2 raises [TypeError]; that of
    CPython 3.11.11 returns it as it is. *)
Inductive ctypes_release : Type :=
| Structure_only        (* [if issubclass(typ, Structure)], as in CPython 3.11.2 *)
| Structure_or_Union.   (* [if issubclass(typ, (Structure, Union))], as in CPython 3.11.11 *)

(** [_other_endian(typ)].  The byte order of a simple type is not part of
    a [ctype] here: a simple field is read in the order of the structure
    around it, see [read].  The message of the [TypeError] names the
    class. *)
Fixpoint _other_endian (lib : ctypes_release) (typ : ctype) : result ctype :=
  match typ with
  | Array elt len => t ← _other_endian lib elt; Ok (Array t len)
  | Structure _ _ _ _ => Ok typ
  | Union name _ _ _ =>
      match lib with
      | Structure_only => Raise (TypeError name)
      | Structure_or_Union => Ok typ
      end
  | _ => Ok typ
  end.

(** Whether a class of byte order [bo] is a swapped one on [host]. *)
Definition swapped (host : endian) (bo : byteorder) : bool :=
  match bo, host with
  | LittleEndian, Big | BigEndian, Little => true
  | _, _ => false
  end.

(** The [class] statement of [t] on [host]: the fields that the class
    gets, or the exception raised when [_fields_] is set. *)
Definition create_class (lib : ctypes_release) (host : endian) (t : ctype) :
    result (list (string * ctype)) :=
  match t with
  | Structure _ bo _ fs | Union _ bo _ fs =>
      if swapped host bo then
        mapM (fun desc => typ ← _other_endian lib (snd desc); Ok (fst desc, typ)) fs
      else Ok fs
  | _ => Ok []
  end.

(** The classes of the module in the order of their [class] statements,
    which importing the module runs one after the other. *)
Definition module_classes : list ctype := [
  PacketHeader;
  CarMotionData_V1; PacketMotionData_V1;
  MarshalZone_V1; WeatherForecastSample; PacketSessionData_V1;
  LapData_V1; PacketLapData_V1;
  FastestLapData; PenaltyData; RaceWinnerData; RetirementData; SpeedTrapData;
  TeamMateInPitsData; EventDataDetails; PacketEventData_V1;
  ParticipantData_V1; PacketParticipantsData_V1;
  CarSetupData_V1; PacketCarSetupData_V1;
  CarTelemetryData_V1; PacketCarTelemetryData_V1;
  CarStatusData_V1; PacketCarStatusData_V1;
  FinalClassificationData_V1; PacketFinalClassificationData_V1;
  LobbyInfoData_V1; PacketLobbyInfoData_V1
].

Definition create_classes (lib : ctypes_release) (host : endian) :
    result (list (list (string * ctype))) :=
  mapM (create_class lib host) module_classes.

(** ** Sample data *)

(** [T()]: a freshly constructed object, all bytes zero. *)
Definition new (t : ctype) : cobj :=
  Cobj t (read Little Little t (replicate (sizeof t) x00)).

(** A header for format 2020, packet version 1 and packet [kind];
    game version 1.2, session 0xA1..A8, time 1.0, frame 513, cars 19 and 255. *)
Definition sample_header (kind : byte) : bytes :=
  [xe4; x07; x01; x02; x01; kind;
   xa1; xa2; xa3; xa4; xa5; xa6; xa7; xa8;
   x00; x00; x80; x3f;
   x01; x02; x00; x00;
   x13; xff].

(** The fastest-lap event of car 7 with a lap of 91.234 s, which as a
    binary32 number is the bytes [cf 77 b6 42]. *)
Definition fastest_lap_packet : bytes :=
  sample_header x03 ++ String.list_byte_of_string "FTLP"
    ++ [x07; xcf; x77; xb6; x42; x00; x00].

(** The same event with other bytes after the five of the fastest-lap
    record. *)
Definition fastest_lap_packet' : bytes :=
  sample_header x03 ++ String.list_byte_of_string "FTLP"
    ++ [x07; xcf; x77; xb6; x42; xff; xee].

(** A session-started event, which has no details, over the same seven
    bytes after the code. *)
Definition session_started_packet : bytes :=
  sample_header x03 ++ String.list_byte_of_string "SSTA"
    ++ [x07; xcf; x77; xb6; x42; x00; x00].

(** The race-winner event of car 7. *)
Definition race_winner_packet : bytes :=
  sample_header x03 ++ String.list_byte_of_string "RCWN"
    ++ [x07; x00; x00; x00; x00; x00; x00].

(** An event datagram with a code that is none of the eleven. *)
Definition unknown_event_packet : bytes :=
  sample_header x03 ++ String.list_byte_of_string "XXXX" ++ replicate 7 x00.

(** Event datagrams whose code has a NUL byte and then a byte that is no
    text, [41 42 00 ff], and whose code is no text at all,
    [ff ff ff ff]. *)
Definition nul_code_packet : bytes :=
  sample_header x03 ++ [x41; x42; x00; xff] ++ replicate 7 x00.
Definition bad_utf8_packet : bytes :=
  sample_header x03 ++ [xff; xff; xff; xff] ++ replicate 7 x00.

(** A motion datagram with a zero payload, and the same with another
    game version. *)
Definition motion_packet : bytes := sample_header x00 ++ replicate 1440 x00.
Definition motion_packet' : bytes :=
  [xe4; x07; x09; x08] ++ drop 4 (sample_header x00) ++ replicate 1440 x00.

(** Stand-ins for what Python prints by itself, to run [repr] on
    samples: a float shows its bit pattern. *)
Definition sample_builtins : builtins := {|
  repr_float := fun bits => "<float32 " +:+ pretty bits +:+ ">";
  repr_double := fun bits => "<float64 " +:+ pretty bits +:+ ">";
  repr_object := fun t => "<" +:+ type_name t +:+ " object>";
  repr_class := fun t => "<class " +:+ type_name t +:+ ">"
|}.

(** ** Tactics *)

(** A buffer of known length as a list of that many bytes. *)
Ltac explicit_bytes packet H :=
  repeat (destruct packet as [|? packet]; [discriminate H|]);
  destruct packet; [|simpl in H; discriminate H].

(** * Properties *)

(** ** The model at work *)

Example sizeof_PacketHeader : sizeof PacketHeader = 24.
Proof. reflexivity. Qed.

Example sizeof_EventDataDetails :
  sizeof EventDataDetails = 7 /\ alignment EventDataDetails = 1.
Proof. split; reflexivity. Qed.

(** Without [_pack_] the same fields would be padded. *)
Example sizeof_unpacked_FastestLapData :
  sizeof (Structure "FastestLapData" LittleEndian 0
            [("vehicleIdx", c_uint8); ("lapTime", c_float)]) = 8.
Proof. reflexivity. Qed.

Example key_of_fastest_lap_packet :
  decoded_key Big fastest_lap_packet = Ok (2020, 1, 3)%Z.
Proof. reflexivity. Qed.

Example header_of_fastest_lap_packet :
  header_at fastest_lap_packet =
  VStruct [("packetFormat", VInt 2020); ("gameMajorVersion", VInt 1);
           ("gameMinorVersion", VInt 2); ("packetVersion", VInt 1);
           ("packetId", VInt 3); ("sessionUID", VInt 0xa8a7a6a5a4a3a2a1);
           ("sessionTime", VFloat 0x3f800000); ("frameIdentifier", VInt 513);
           ("playerCarIndex", VInt 19); ("secondaryPlayerCarIndex", VInt 255)].
Proof. reflexivity. Qed.

Example signed_field :
  read Little Little c_int8 [xff] = VInt (-1) /\
  read Little Big c_int16 [xff; xfe] = VInt (-2) /\
  read Little Little c_int16 [xff; xfe] = VInt (-257).
Proof. repeat split; reflexivity. Qed.

Example text_until_nul :
  getattr_bytes (VStruct [("name", VArray [VChar "a"; VChar "b"; VChar x00; VChar "c"])]) "name"
  = Ok (String.list_byte_of_string "ab").
Proof. reflexivity. Qed.

Example decode_text :
  decode [xc3; xa4] = Ok "ä" /\ decode [xc3] = Raise UnicodeDecodeError /\
  decode [xff] = Raise UnicodeDecodeError /\ decode [xed; xa0; x80] = Raise UnicodeDecodeError.
Proof. repeat split; reflexivity. Qed.

Example messages :
  UnpackError_message (TooShort 23) = "Bad telemetry packet: too short (23 bytes)." /\
  UnpackError_message (NoMatch (2020, 1, 10)%Z)
    = "Bad telemetry packet: no match for key fields (2020, 1, 10)." /\
  UnpackError_message (BadSize (type_name PacketEventData_V1) 35 36)
    = "Bad telemetry packet: bad size for PacketEventData_V1 packet; expected 35 bytes but received 36 bytes.".
Proof. repeat split; reflexivity. Qed.

Example repr_bytes_quotes :
  String.list_byte_of_string (repr_bytes (String.list_byte_of_string "FTLP"))
    = [x62; x27; x46; x54; x4c; x50; x27] /\
  String.list_byte_of_string (repr_bytes [x41; x27; x09; xff; x5c; x7f])
    = [x62; x22; x41; x27; x5c; x74; x5c; x78; x66; x66; x5c; x5c; x5c; x78; x37; x66; x22] /\
  String.list_byte_of_string (repr_bytes [x27; x22])
    = [x62; x27; x5c; x27; x22; x27].
Proof. repeat split; reflexivity. Qed.

Example repr_fastest_lap_packet :
  (o ← unpack_udp_packet Little fastest_lap_packet; repr sample_builtins Little o)
  = Ok ("PacketEventData_V1(header=PacketHeader(packetFormat=2020, gameMajorVersion=1, "
        +:+ "gameMinorVersion=2, packetVersion=1, packetId=3, sessionUID=12152865349844574881, "
        +:+ "sessionTime=<float32 1065353216>, frameIdentifier=513, playerCarIndex=19, "
        +:+ "secondaryPlayerCarIndex=255), eventStringCode=b'FTLP', "
        +:+ "eventDetails=FastestLapData(vehicleIdx=7, lapTime=<float32 1119254479>))").
Proof. vm_compute. reflexivity. Qed.

Example repr_array :
  instance_repr sample_builtins
    (PackedLittleEndianStructure "T" [("a", Array c_int8 3); ("s", Array MarshalZone_V1 1)])
    (VStruct [("a", VArray [VInt 1; VInt (-2); VInt 3]);
              ("s", VArray [VStruct [("zoneStart", VFloat 0); ("zoneFlag", VInt (-1))]])])
  = Ok "T(a=[1, -2, 3], s=[MarshalZone_V1(zoneStart=<float32 0>, zoneFlag=-1)])".
Proof. vm_compute. reflexivity. Qed.

Example float_one :
  float32_value 0x3f800000 = Some 1%Q /\ float32_value 0xc0200000 = Some (-5 # 2)%Q.
Proof. split; reflexivity. Qed.

(** ** Bytes and numbers *)

Lemma byte_to_Z_range (b : byte) : (0 <= byte_to_Z b < 256)%Z.
Proof.
  unfold byte_to_Z. pose proof (Byte.to_N_bounded b). lia.
Qed.

Lemma byte_of_to_Z (b : byte) : byte_of_Z (byte_to_Z b) = b.
Proof.
  unfold byte_of_Z, byte_to_Z.
  rewrite Z.mod_small by (pose proof (Byte.to_N_bounded b); lia).
  rewrite N2Z.id. now rewrite Byte.of_to_N.
Qed.

Lemma byte_to_of_Z (z : Z) : byte_to_Z (byte_of_Z z) = (z mod 256)%Z.
Proof.
  unfold byte_of_Z, byte_to_Z.
  pose proof (Z.mod_pos_bound z 256 eq_refl) as Hz.
  destruct (Byte.of_N (Z.to_N (z mod 256))) as [b|] eqn:E.
  - apply Byte.to_of_N in E. rewrite E. lia.
  - apply Byte.of_N_None_iff in E. lia.
Qed.

Lemma length_le_bytes (w : nat) (z : Z) : length (le_bytes w z) = w.
Proof.
  revert z. induction w as [|w IH]; intros z; simpl; [reflexivity|].
  now rewrite IH.
Qed.

Lemma le_uint_le_bytes (w : nat) (z : Z) :
  le_uint (le_bytes w z) = (z mod 2 ^ (8 * Z.of_nat w))%Z.
Proof.
  revert z. induction w as [|w IH]; intros z.
  - simpl. now rewrite Z.mod_1_r.
  - cbn [le_bytes le_uint]. rewrite IH, byte_to_of_Z.
    replace (8 * Z.of_nat (S w))%Z with (8 + 8 * Z.of_nat w)%Z by lia.
    rewrite Z.pow_add_r by lia. change (2 ^ 8)%Z with 256%Z.
    rewrite Z.rem_mul_r by lia. reflexivity.
Qed.

Lemma le_uint_range (bs : bytes) : (0 <= le_uint bs < 2 ^ (8 * Z.of_nat (length bs)))%Z.
Proof.
  induction bs as [|b bs IH].
  - simpl. lia.
  - cbn [le_uint length]. pose proof (byte_to_Z_range b).
    replace (8 * Z.of_nat (S (length bs)))%Z with (8 + 8 * Z.of_nat (length bs))%Z by lia.
    rewrite Z.pow_add_r by lia. change (2 ^ 8)%Z with 256%Z. nia.
Qed.

Lemma length_bytes_of (ord : endian) (w : nat) (z : Z) : length (bytes_of ord w z) = w.
Proof.
  destruct ord; simpl; [|rewrite length_rev]; apply length_le_bytes.
Qed.

Lemma uint_of_bytes_of (ord : endian) (w : nat) (z : Z) :
  uint_of ord (bytes_of ord w z) = (z mod 2 ^ (8 * Z.of_nat w))%Z.
Proof.
  destruct ord; simpl; [|rewrite rev_involutive]; apply le_uint_le_bytes.
Qed.

Lemma to_signed_mod (w : nat) (n : Z) :
  0 < w ->
  (- 2 ^ (8 * Z.of_nat w - 1) <= n < 2 ^ (8 * Z.of_nat w - 1))%Z ->
  to_signed w (n mod 2 ^ (8 * Z.of_nat w)) = n.
Proof.
  intros Hw Hn. unfold to_signed.
  assert (2 ^ (8 * Z.of_nat w) = 2 * 2 ^ (8 * Z.of_nat w - 1))%Z as Hp.
  { rewrite <- Z.pow_succ_r by lia. f_equal. lia. }
  destruct (Z.ltb_spec (n mod 2 ^ (8 * Z.of_nat w)) (2 ^ (8 * Z.of_nat w - 1))) as [Hlt|Hge].
  - destruct (Z.neg_nonneg_cases n) as [Hneg|Hpos].
    + exfalso. rewrite <- (Z.mod_add n 1) in Hlt by lia.
      rewrite Z.mod_small in Hlt by lia. lia.
    + apply Z.mod_small. lia.
  - destruct (Z.neg_nonneg_cases n) as [Hneg|Hpos].
    + rewrite <- (Z.mod_add n 1) by lia. rewrite Z.mod_small by lia. lia.
    + exfalso. rewrite Z.mod_small in Hge by lia. lia.
Qed.

(** ** Layout *)

Lemma round_up_ge (off a : nat) : off <= round_up off a.
Proof.
  unfold round_up. destruct a as [|a]; [lia|].
  pose proof (Nat.div_mod_eq (off + S a - 1) (S a)) as H.
  pose proof (Nat.mod_upper_bound (off + S a - 1) (S a) ltac:(lia)). nia.
Qed.

Lemma round_up_1 (off : nat) : round_up off 1 = off.
Proof.
  unfold round_up. rewrite Nat.div_1_r. lia.
Qed.

Lemma struct_end_ge (pack : nat) (ls : list (nat * nat)) (off al : nat) :
  off <= fst (struct_end pack ls off al).
Proof.
  revert off al. induction ls as [|[s a] ls IH]; intros off al; simpl; [lia|].
  etransitivity; [|apply IH].
  pose proof (round_up_ge off (field_align pack a)). lia.
Qed.

Lemma sizeof_Structure name bo pack fs :
  sizeof (Structure name bo pack fs) =
  round_up (fst (struct_end pack (map (fun f => layout (snd f)) fs) 0 1))
           (snd (struct_end pack (map (fun f => layout (snd f)) fs) 0 1)).
Proof.
  unfold sizeof. cbn [layout].
  now destruct (struct_end pack (map (fun f => layout (snd f)) fs) 0 1).
Qed.

(** Induction over types that reaches the fields of structures and
    unions. *)
Lemma ctype_fields_ind (P : ctype -> Prop) :
  (forall t, simple_size t <> 0 -> P t) ->
  (forall e n, P e -> P (Array e n)) ->
  (forall name bo pack fs, Forall (fun f => P (snd f)) fs -> P (Structure name bo pack fs)) ->
  (forall name bo pack fs, Forall (fun f => P (snd f)) fs -> P (Union name bo pack fs)) ->
  forall t, P t.
Proof.
  intros Hsimple Harray Hstruct Hunion.
  fix IH 1. intros t.
  destruct t as [| | | | | | | | |e n|name bo pack fs|name bo pack fs];
    try (apply Hsimple; discriminate).
  - apply Harray, IH.
  - apply Hstruct. induction fs as [|f fs IHfs]; constructor; [apply IH|apply IHfs].
  - apply Hunion. induction fs as [|f fs IHfs]; constructor; [apply IH|apply IHfs].
Qed.

(** ** Writing, then reading *)

Lemma length_write_simple (ord : endian) (t : ctype) (v : value) :
  has_simple_type t v = true -> length (write_simple ord t v) = simple_size t.
Proof.
  destruct t, v; try discriminate; intros _; simpl;
    try apply length_bytes_of; reflexivity.
Qed.

Lemma in_range_spec (lo hi n : Z) : in_range lo hi n = true <-> (lo <= n < hi)%Z.
Proof.
  unfold in_range. rewrite andb_true_iff, Z.leb_le, Z.ltb_lt. reflexivity.
Qed.

Lemma take_bytes_of (ord : endian) (w : nat) (z : Z) (rest : bytes) :
  take w (bytes_of ord w z ++ rest) = bytes_of ord w z.
Proof.
  apply take_app_length'. symmetry. apply length_bytes_of.
Qed.

Lemma read_write_simple (ord : endian) (t : ctype) (v : value) (rest : bytes) :
  has_simple_type t v = true ->
  read_simple ord t (write_simple ord t v ++ rest) = v.
Proof.
  destruct t, v; try discriminate; intros H; unfold read_simple, write_simple;
    try reflexivity;
    apply in_range_spec in H; rewrite take_bytes_of, uint_of_bytes_of; f_equal;
    first [ apply Z.mod_small; exact H
          | apply to_signed_mod; [simpl; lia | exact H] ].
Qed.

Lemma length_write_fields (wr : ctype -> value -> bytes) (ht : ctype -> value -> bool)
    (pack total : nat) (fs : list (string * ctype)) :
  Forall (fun f => forall v, ht (snd f) v = true -> length (wr (snd f) v) = sizeof (snd f)) fs ->
  forall fvs off al,
    have_types ht fs fvs = true ->
    fst (struct_end pack (map (fun f => layout (snd f)) fs) off al) <= total ->
    length (write_fields wr pack total fs fvs off) = total - off.
Proof.
  induction 1 as [|f fs Hf _ IH]; intros fvs off al Ht Hend.
  - destruct fvs; [|discriminate]. simpl. now rewrite length_replicate.
  - destruct fvs as [|fv fvs]; [discriminate|].
    cbn [have_types] in Ht. apply andb_true_iff in Ht as [Ht Hrest].
    apply andb_true_iff in Ht as [_ Hv].
    cbn [write_fields]. cbn [map struct_end] in Hend.
    unfold sizeof, alignment in *. destruct (layout (snd f)) as [s a]. cbn [fst snd] in *.
    pose proof (round_up_ge off (field_align pack a)) as Hge.
    pose proof (struct_end_ge pack (map (fun f => layout (snd f)) fs)
                  (round_up off (field_align pack a) + s) (max al (field_align pack a))) as Hge'.
    rewrite !length_app, length_replicate, (Hf _ Hv), (IH _ _ _ Hrest Hend). lia.
Qed.

Lemma length_write (t : ctype) :
  forall host ord v, has_type t v = true -> length (write host ord t v) = sizeof t.
Proof.
  induction t as [t Ht|e n IH|name bo pack fs IH|name bo pack fs _] using ctype_fields_ind;
    intros host ord v Hv.
  - destruct t; try (exfalso; apply Ht; reflexivity);
      apply (length_write_simple ord _ _ Hv).
  - destruct v as [| | | |vs| |]; try discriminate.
    cbn [has_type] in Hv. apply andb_true_iff in Hv as [Hn Hvs].
    apply Nat.eqb_eq in Hn. subst n. cbn [write]. unfold sizeof. cbn [layout fst].
    induction vs as [|v vs IHvs]; [reflexivity|].
    cbn [forallb] in Hvs. apply andb_true_iff in Hvs as [Hv Hvs].
    cbn [map concat length]. rewrite length_app, (IH _ _ _ Hv), (IHvs Hvs).
    unfold sizeof. lia.
  - destruct v as [| | | | |fvs|]; try discriminate.
    cbn [has_type] in Hv. cbn [write].
    rewrite (length_write_fields _ has_type pack _ fs) with (al := 1).
    + lia.
    + eapply Forall_impl; [exact IH|]. intros f Hf v. apply Hf.
    + exact Hv.
    + rewrite sizeof_Structure. apply round_up_ge.
  - destruct v as [| | | | | |raw]; try discriminate.
    cbn [has_type] in Hv. apply Nat.eqb_eq in Hv. exact Hv.
Qed.

Lemma read_write_fields (rd : ctype -> bytes -> value) (wr : ctype -> value -> bytes)
    (ht : ctype -> value -> bool) (pack total : nat) (fs : list (string * ctype)) (rest : bytes) :
  Forall (fun f => forall v tail, ht (snd f) v = true ->
                     length (wr (snd f) v) = sizeof (snd f) /\
                     rd (snd f) (wr (snd f) v ++ tail) = v) fs ->
  forall fvs off pre,
    length pre = off ->
    have_types ht fs fvs = true ->
    read_fields rd pack (pre ++ write_fields wr pack total fs fvs off ++ rest) fs off = fvs.
Proof.
  induction 1 as [|f fs Hf _ IH]; intros fvs off pre Hpre Ht.
  - destruct fvs; [reflexivity|discriminate].
  - destruct fvs as [|[m v] fvs]; [discriminate|].
    cbn [have_types fst snd] in Ht. apply andb_true_iff in Ht as [Ht Hrest].
    apply andb_true_iff in Ht as [Hname Hv]. apply String.eqb_eq in Hname.
    cbn [read_fields write_fields fst snd].
    set (o := round_up off (field_align pack (alignment (snd f)))).
    assert (off <= o) as Hge by apply round_up_ge.
    destruct (Hf v nil Hv) as [Hlen _].
    f_equal.
    + f_equal; [exact Hname|].
      rewrite <- !app_assoc, app_assoc.
      rewrite drop_app_length' by (rewrite length_app, length_replicate; lia).
      apply Hf, Hv.
    + specialize (IH fvs (o + sizeof (snd f)) (pre ++ replicate (o - off) x00 ++ wr (snd f) v)).
      rewrite <- !app_assoc in IH. rewrite <- !app_assoc. apply IH.
      * rewrite !length_app, length_replicate. lia.
      * exact Hrest.
Qed.

Lemma read_write_array (rd : ctype -> bytes -> value) (wr : ctype -> value -> bytes)
    (e : ctype) (s : nat) (rest : bytes) (vs : list value) :
  Forall (fun v => length (wr e v) = s /\ forall tail, rd e (wr e v ++ tail) = v) vs ->
  forall k pre,
    length pre = k * s ->
    map (fun i => rd e (drop (i * s) (pre ++ concat (map (wr e) vs) ++ rest)))
        (seq k (length vs)) = vs.
Proof.
  induction 1 as [|v vs [Hlen Hv] _ IH]; intros k pre Hpre; [reflexivity|].
  cbn [length seq map concat]. f_equal.
  - rewrite drop_app_length' by (symmetry; exact Hpre). rewrite <- app_assoc. apply Hv.
  - specialize (IH (S k) (pre ++ wr e v)).
    rewrite <- !app_assoc in IH. rewrite <- !app_assoc. apply IH.
    rewrite length_app. lia.
Qed.

(** Reading back what was written gives the value written, whatever
    follows in the buffer. *)
Lemma read_write (t : ctype) :
  forall host ord v rest,
    has_type t v = true -> read host ord t (write host ord t v ++ rest) = v.
Proof.
  induction t as [t Ht|e n IH|name bo pack fs IH|name bo pack fs _] using ctype_fields_ind;
    intros host ord v rest Hv.
  - destruct t; try (exfalso; apply Ht; reflexivity);
      apply (read_write_simple ord _ _ rest Hv).
  - destruct v as [| | | |vs| |]; try discriminate.
    cbn [has_type] in Hv. apply andb_true_iff in Hv as [Hn Hvs].
    apply Nat.eqb_eq in Hn. subst n. cbn [read write]. f_equal.
    apply (read_write_array (read host ord) (write host ord) e (sizeof e) rest vs) with (pre := []);
      [|reflexivity].
    apply Forall_forall. intros v Hin.
    rewrite forallb_forall in Hvs. specialize (Hvs v ltac:(now apply list_elem_of_In)).
    split; [now apply length_write | intros tail; now apply IH].
  - destruct v as [| | | | |fvs|]; try discriminate.
    cbn [has_type] in Hv. cbn [read write]. f_equal.
    apply (read_write_fields _ _ has_type pack _ fs rest) with (pre := []);
      [|reflexivity|exact Hv].
    eapply Forall_impl; [exact IH|]. intros f Hf v tail Hfv.
    split; [now apply length_write | now apply Hf].
  - destruct v as [| | | | | |raw]; try discriminate.
    cbn [has_type] in Hv. apply Nat.eqb_eq in Hv. cbn [read write].
    now rewrite take_app_length' by (symmetry; exact Hv).
Qed.

(** ** What is read is well typed *)

Lemma to_signed_range (w : nat) (u : Z) :
  0 < w ->
  (0 <= u < 2 ^ (8 * Z.of_nat w))%Z ->
  (- 2 ^ (8 * Z.of_nat w - 1) <= to_signed w u < 2 ^ (8 * Z.of_nat w - 1))%Z.
Proof.
  intros Hw Hu. unfold to_signed.
  assert (2 ^ (8 * Z.of_nat w) = 2 * 2 ^ (8 * Z.of_nat w - 1))%Z as Hp.
  { rewrite <- Z.pow_succ_r by lia. f_equal. lia. }
  destruct (Z.ltb_spec u (2 ^ (8 * Z.of_nat w - 1))); lia.
Qed.

Lemma uint_of_range (ord : endian) (w : nat) (buf : bytes) :
  (0 <= uint_of ord (take w buf) < 2 ^ (8 * Z.of_nat w))%Z.
Proof.
  assert (forall bs : bytes, length bs <= w -> (0 <= le_uint bs < 2 ^ (8 * Z.of_nat w))%Z) as H.
  { intros bs Hbs. pose proof (le_uint_range bs) as Hr.
    assert (2 ^ (8 * Z.of_nat (length bs)) <= 2 ^ (8 * Z.of_nat w))%Z
      by (apply Z.pow_le_mono_r; lia).
    lia. }
  pose proof (length_take buf w) as Hlen.
  destruct ord; cbn [uint_of]; apply H; [|rewrite length_rev]; lia.
Qed.

Lemma has_type_read_simple (ord : endian) (t : ctype) (buf : bytes) :
  simple_size t <> 0 -> has_simple_type t (read_simple ord t buf) = true.
Proof.
  intros Ht. pose proof (uint_of_range ord (simple_size t) buf) as Hu.
  destruct t; try (exfalso; apply Ht; reflexivity);
    cbn [has_simple_type read_simple]; try reflexivity; apply in_range_spec;
    first [ exact Hu | apply to_signed_range; [simpl; lia | exact Hu] ].
Qed.

Lemma have_types_read_fields (rd : ctype -> bytes -> value) (ht : ctype -> value -> bool)
    (pack : nat) (buf : bytes) (fs : list (string * ctype)) :
  Forall (fun f => forall b, sizeof (snd f) <= length b -> ht (snd f) (rd (snd f) b) = true) fs ->
  forall off al,
    fst (struct_end pack (map (fun f => layout (snd f)) fs) off al) <= length buf ->
    have_types ht fs (read_fields rd pack buf fs off) = true.
Proof.
  induction 1 as [|f fs Hf _ IH]; intros off al Hend; [reflexivity|].
  cbn [read_fields have_types fst snd]. cbn [map struct_end] in Hend.
  pose proof (struct_end_ge pack (map (fun f => layout (snd f)) fs)
                (round_up off (field_align pack (alignment (snd f))) + sizeof (snd f))
                (max al (field_align pack (alignment (snd f))))) as Hge.
  unfold sizeof, alignment in *. destruct (layout (snd f)) as [sz a]. cbn [fst snd] in *.
  rewrite String.eqb_refl, (IH _ _ Hend), Hf; [reflexivity|].
  rewrite length_drop. lia.
Qed.

(** An object over a buffer that is large enough holds a value of its
    type. *)
Lemma has_type_read (t : ctype) :
  forall host ord buf, sizeof t <= length buf -> has_type t (read host ord t buf) = true.
Proof.
  induction t as [t Ht|e n IH|name bo pack fs IH|name bo pack fs _] using ctype_fields_ind;
    intros host ord buf Hlen.
  - pose proof (has_type_read_simple ord t buf Ht) as H.
    destruct t; try (exfalso; apply Ht; reflexivity); exact H.
  - cbn [read has_type]. rewrite length_map, length_seq, Nat.eqb_refl. cbn [andb].
    apply forallb_forall. intros v Hv. apply in_map_iff in Hv as (i & <- & Hi).
    apply in_seq in Hi. apply IH. rewrite length_drop.
    unfold sizeof in Hlen. cbn [layout fst] in Hlen. fold (sizeof e) in Hlen. nia.
  - cbn [read has_type].
    apply (have_types_read_fields _ has_type pack buf fs) with (al := 1).
    + eapply Forall_impl; [exact IH|]. intros f Hf b Hb. now apply Hf.
    + rewrite sizeof_Structure in Hlen. etransitivity; [apply round_up_ge|exact Hlen].
  - cbn [read has_type]. apply Nat.eqb_eq. now apply length_take_le.
Qed.

(** ** The header and the registry *)

Lemma read_PacketHeader (host ord : endian) (buf : bytes) :
  read host ord PacketHeader buf = header_at buf.
Proof. reflexivity. Qed.

Lemma field_at_take (buf : bytes) (n off w : nat) :
  off + w <= n -> field_at (take n buf) off w = field_at buf off w.
Proof.
  intros H. unfold field_at. rewrite !take_drop_commute, take_take.
  now rewrite Nat.min_l by lia.
Qed.

Lemma header_at_take (buf : bytes) (n : nat) :
  24 <= n -> header_at (take n buf) = header_at buf.
Proof.
  intros H. unfold header_at. now rewrite !field_at_take by lia.
Qed.

Lemma from_buffer_copy_ok (host : endian) (t : ctype) (source : bytes) :
  sizeof t <= length source ->
  from_buffer_copy host t source = Ok (Cobj t (read host host t (take (sizeof t) source))).
Proof.
  intros H. unfold from_buffer_copy.
  destruct (Nat.ltb_spec (length source) (sizeof t)); [lia|reflexivity].
Qed.

Lemma from_buffer_copy_exact (host : endian) (t : ctype) (source : bytes) :
  length source = sizeof t ->
  from_buffer_copy host t source = Ok (Cobj t (read host host t source)).
Proof.
  intros H. rewrite from_buffer_copy_ok by lia. now rewrite <- H, firstn_all.
Qed.

Lemma decoded_key_spec (host : endian) (packet : bytes) :
  24 <= length packet -> decoded_key host packet = Ok (key_at packet).
Proof.
  intros H. unfold decoded_key.
  rewrite from_buffer_copy_ok by exact H.
  change (sizeof PacketHeader) with 24. cbn [mbind result_bind ovalue].
  rewrite read_PacketHeader, header_at_take by lia. reflexivity.
Qed.

(** What [unpack_udp_packet] does, in terms of the bytes of the packet. *)
Lemma unpack_udp_packet_spec (host : endian) (packet : bytes) :
  unpack_udp_packet host packet =
  if length packet <? 24 then Raise (UnpackError (TooShort (length packet)))
  else match HeaderFieldsToPacketType !! key_at packet with
       | None => Raise (UnpackError (NoMatch (key_at packet)))
       | Some packet_type =>
           if negb (Nat.eqb (length packet) (sizeof packet_type)) then
             Raise (UnpackError (BadSize (type_name packet_type)
                                         (sizeof packet_type) (length packet)))
           else Ok (Cobj packet_type (read host host packet_type packet))
       end.
Proof.
  unfold unpack_udp_packet. change (sizeof PacketHeader) with 24.
  destruct (Nat.ltb_spec (length packet) 24) as [Hlt|Hge]; [reflexivity|].
  rewrite from_buffer_copy_ok by exact Hge.
  change (sizeof PacketHeader) with 24. cbn [mbind result_bind ovalue].
  rewrite read_PacketHeader, header_at_take by lia.
  change (getattr_int (header_at packet) "packetFormat") with (Ok (field_at packet 0 2)).
  change (getattr_int (header_at packet) "packetVersion") with (Ok (field_at packet 4 1)).
  change (getattr_int (header_at packet) "packetId") with (Ok (field_at packet 5 1)).
  cbn [mbind result_bind]. fold (key_at packet).
  destruct (HeaderFieldsToPacketType !! key_at packet) as [packet_type|]; [|reflexivity].
  destruct (Nat.eqb_spec (length packet) (sizeof packet_type)) as [Heq|Hne]; [|reflexivity].
  cbn [negb]. now apply from_buffer_copy_exact.
Qed.

Lemma registry_lookup (key : Z * Z * Z) (t : ctype) :
  HeaderFieldsToPacketType !! key = Some t <->
  (key, t) ∈ [
    ((2020, 1, 0)%Z, PacketMotionData_V1);
    ((2020, 1, 1)%Z, PacketSessionData_V1);
    ((2020, 1, 2)%Z, PacketLapData_V1);
    ((2020, 1, 3)%Z, PacketEventData_V1);
    ((2020, 1, 4)%Z, PacketParticipantsData_V1);
    ((2020, 1, 5)%Z, PacketCarSetupData_V1);
    ((2020, 1, 6)%Z, PacketCarTelemetryData_V1);
    ((2020, 1, 7)%Z, PacketCarStatusData_V1);
    ((2020, 1, 8)%Z, PacketFinalClassificationData_V1);
    ((2020, 1, 9)%Z, PacketLobbyInfoData_V1)
  ].
Proof.
  unfold HeaderFieldsToPacketType. symmetry. apply elem_of_list_to_map.
  apply (bool_decide_unpack _). vm_compute. exact I.
Qed.

Lemma registry_keys (key : Z * Z * Z) :
  is_Some (HeaderFieldsToPacketType !! key) <-> key ∈ registered_keys.
Proof.
  split.
  - intros [t Ht]. apply registry_lookup in Ht.
    apply (list_elem_of_fmap_2 fst) in Ht. exact Ht.
  - intros Hk. apply list_elem_of_In in Hk. cbv [registered_keys seqZ] in Hk.
    simpl in Hk.
    repeat (destruct Hk as [<-|Hk]; [eexists; vm_compute; reflexivity|]).
    destruct Hk.
Qed.

Lemma registered_header_first (key : Z * Z * Z) (t : ctype) :
  HeaderFieldsToPacketType !! key = Some t -> header_first t.
Proof.
  intros Ht. apply registry_lookup, list_elem_of_In in Ht. simpl in Ht.
  repeat (destruct Ht as [Ht|Ht]; [inversion Ht; eexists _, _; reflexivity|]).
  destruct Ht.
Qed.

Lemma read_header_first (host ord : endian) (name : string)
    (fs : list (string * ctype)) (buf : bytes) :
  read host ord (PackedLittleEndianStructure name (("header", PacketHeader) :: fs)) buf =
  VStruct (("header", header_at buf) :: read_fields (read host Little) 1 buf fs 24).
Proof. reflexivity. Qed.

Lemma field_at_app (hdr rest : bytes) (off w : nat) :
  off + w <= length hdr -> field_at (hdr ++ rest) off w = field_at hdr off w.
Proof.
  intros H. unfold field_at. rewrite !take_drop_commute.
  now rewrite take_app_le by lia.
Qed.

(** ** Types whose byte order is fixed *)

Lemma read_fields_rd_ext (rd1 rd2 : ctype -> bytes -> value) (pack : nat) (buf : bytes)
    (fs : list (string * ctype)) :
  Forall (fun f => forall b, rd1 (snd f) b = rd2 (snd f) b) fs ->
  forall off, read_fields rd1 pack buf fs off = read_fields rd2 pack buf fs off.
Proof.
  induction 1 as [|f fs Hf _ IH]; intros off; [reflexivity|].
  cbn [read_fields]. now rewrite Hf, IH.
Qed.

(** A type whose byte order is fixed is read the same on every host. *)
Lemma read_order_fixed (t : ctype) :
  forall inside h1 h2 o1 o2 buf,
    order_fixed inside t = true ->
    (inside = true -> o1 = o2) ->
    read h1 o1 t buf = read h2 o2 t buf.
Proof.
  induction t as [t Ht|e n IH|name bo pack fs IH|name bo pack fs _] using ctype_fields_ind;
    intros inside h1 h2 o1 o2 buf Hfix Hord.
  - assert (inside = true) as Hin
        by (destruct t; try (exfalso; apply Ht; reflexivity); exact Hfix).
    rewrite (Hord Hin).
    destruct t; try (exfalso; apply Ht; reflexivity); reflexivity.
  - cbn [read order_fixed] in *. f_equal. apply map_ext. intros i.
    now apply (IH inside).
  - cbn [read order_fixed] in *. f_equal. apply read_fields_rd_ext.
    rewrite forallb_forall in Hfix. rewrite Forall_forall in IH.
    apply Forall_forall. intros f Hf b.
    apply (IH f Hf _ _ _ _ _ _ (Hfix f ltac:(now apply list_elem_of_In))).
    destruct bo; [reflexivity|reflexivity|discriminate].
  - reflexivity.
Qed.

Lemma registered_order_fixed (key : Z * Z * Z) (t : ctype) :
  HeaderFieldsToPacketType !! key = Some t -> order_fixed false t = true /\ packed t = true.
Proof.
  intros Ht. apply registry_lookup, list_elem_of_In in Ht. simpl in Ht.
  repeat (destruct Ht as [Ht|Ht]; [injection Ht as _ <-; split; vm_compute; reflexivity|]).
  destruct Ht.
Qed.

Lemma union_member_order_fixed (h1 h2 : endian) (t : ctype) (member : string) (u : value) :
  members_order_fixed t = true ->
  union_member h1 t member u = union_member h2 t member u.
Proof.
  destruct t as [| | | | | | | | | | |name bo pack fs]; try discriminate.
  cbn [members_order_fixed union_member]. intros Hfix.
  destruct u as [| | | | | |raw]; try reflexivity.
  destruct (assoc member fs) as [ft|] eqn:Hft; [|reflexivity].
  f_equal. rewrite forallb_forall in Hfix.
  assert (In (member, ft) fs \/ exists n, In (n, ft) fs) as Hin.
  { clear -Hft. induction fs as [|[n a] fs IH]; [discriminate|].
    cbn [assoc] in Hft. destruct (String.eqb member n).
    - injection Hft as ->. right. exists n. now left.
    - destruct (IH Hft) as [H|[m H]]; [left|right; exists m]; now right. }
  assert (exists n, In (n, ft) fs) as [n Hn] by (destruct Hin as [H|H]; eauto).
  apply (read_order_fixed ft _ _ _ _ _ _ (Hfix _ Hn)).
  destruct bo; [reflexivity|reflexivity|discriminate].
Qed.

(** ** Writing what was read *)

Lemma le_bytes_le_uint (bs : bytes) : le_bytes (length bs) (le_uint bs) = bs.
Proof.
  induction bs as [|b bs IH]; [reflexivity|].
  cbn [length le_uint le_bytes]. pose proof (byte_to_Z_range b) as Hb.
  f_equal.
  - assert ((byte_to_Z b + 256 * le_uint bs) mod 256 = byte_to_Z b)%Z as Hm.
    { rewrite Z.mul_comm, Z.mod_add by lia. apply Z.mod_small. lia. }
    transitivity (byte_of_Z (byte_to_Z b)); [|apply byte_of_to_Z].
    unfold byte_of_Z. now rewrite Hm, (Z.mod_small (byte_to_Z b)) by lia.
  - rewrite Z.mul_comm, Z.div_add by lia.
    rewrite Z.div_small by lia. exact IH.
Qed.

Lemma le_bytes_mod (w : nat) (z : Z) :
  le_bytes w (z mod 2 ^ (8 * Z.of_nat w)) = le_bytes w z.
Proof.
  rewrite <- le_uint_le_bytes.
  rewrite <- (length_le_bytes w z) at 1. apply le_bytes_le_uint.
Qed.

Lemma bytes_of_uint_of (ord : endian) (bs : bytes) :
  bytes_of ord (length bs) (uint_of ord bs) = bs.
Proof.
  destruct ord; cbn [bytes_of uint_of]; [apply le_bytes_le_uint|].
  rewrite <- (length_rev bs), le_bytes_le_uint. apply rev_involutive.
Qed.

Lemma bytes_of_to_signed (ord : endian) (w : nat) (u : Z) :
  bytes_of ord w (to_signed w u) = bytes_of ord w u.
Proof.
  assert (le_bytes w (to_signed w u) = le_bytes w u) as H.
  { unfold to_signed. destruct (u <? 2 ^ (8 * Z.of_nat w - 1))%Z; [reflexivity|].
    rewrite <- (le_bytes_mod w (u - _)), <- (le_bytes_mod w u). f_equal.
    rewrite <- (Z.mod_add (u - 2 ^ (8 * Z.of_nat w)) 1) by lia. f_equal. lia. }
  destruct ord; cbn [bytes_of]; now rewrite H.
Qed.

Lemma write_read_simple (ord : endian) (t : ctype) (buf : bytes) :
  simple_size t <> 0 ->
  simple_size t <= length buf ->
  write_simple ord t (read_simple ord t buf) = take (simple_size t) buf.
Proof.
  intros Ht Hlen.
  pose proof (bytes_of_uint_of ord (take (simple_size t) buf)) as H.
  rewrite length_take_le in H by exact Hlen.
  destruct t; try (exfalso; apply Ht; reflexivity);
    cbn [write_simple read_simple]; try rewrite bytes_of_to_signed; try exact H.
  destruct buf; [simpl in Hlen; lia|reflexivity].
Qed.

Lemma take_plus {A : Type} (l : list A) (a b : nat) :
  take (a + b) l = take a l ++ take b (drop a l).
Proof.
  revert l. induction a as [|a IH]; intros l; [reflexivity|].
  destruct l as [|x l]; [now rewrite drop_nil, !take_nil|].
  cbn. now rewrite IH.
Qed.

Lemma round_up_pack1 (off a : nat) : round_up off (field_align 1 a) = off.
Proof.
  unfold field_align. destruct a as [|a]; [reflexivity|].
  rewrite Nat.min_l by lia. apply round_up_1.
Qed.

Lemma struct_end_pack1 (ls : list (nat * nat)) (off : nat) :
  snd (struct_end 1 ls off 1) = 1.
Proof.
  revert off. induction ls as [|[s a] ls IH]; intros off; [reflexivity|].
  cbn [struct_end]. replace (max 1 (field_align 1 a)) with 1; [apply IH|].
  unfold field_align. lia.
Qed.

Lemma write_read_fields (rd : ctype -> bytes -> value) (wr : ctype -> value -> bytes)
    (total : nat) (buf : bytes) (fs : list (string * ctype)) :
  Forall (fun f => forall b, sizeof (snd f) <= length b ->
                     wr (snd f) (rd (snd f) b) = take (sizeof (snd f)) b) fs ->
  forall off,
    fst (struct_end 1 (map (fun f => layout (snd f)) fs) off 1) = total ->
    total <= length buf ->
    write_fields wr 1 total fs (read_fields rd 1 buf fs off) off
    = take (total - off) (drop off buf).
Proof.
  induction 1 as [|f fs Hf _ IH]; intros off Hend Hlen.
  - cbn in *. subst total. now rewrite Nat.sub_diag.
  - cbn [read_fields write_fields fst snd]. cbn [map struct_end] in Hend.
    unfold alignment. destruct (layout (snd f)) as [sz a] eqn:Hl.
    assert (sizeof (snd f) = sz) as Hsz by (unfold sizeof; now rewrite Hl).
    cbn [fst snd] in *. rewrite round_up_pack1 in *.
    replace (max 1 (field_align 1 a)) with 1 in Hend by (unfold field_align; lia).
    pose proof (struct_end_ge 1 (map (fun f => layout (snd f)) fs) (off + sz) 1) as Hge.
    rewrite Hend in Hge. rewrite Hsz.
    rewrite Nat.sub_diag. cbn [replicate app].
    rewrite Hf by (rewrite length_drop; lia). rewrite Hsz.
    rewrite (IH (off + sz) Hend Hlen).
    replace (total - off) with (sz + (total - (off + sz))) by lia.
    now rewrite take_plus, drop_drop.
Qed.

(** In a packed type every byte belongs to a field: writing what was read
    gives the bytes read. *)
Lemma write_read (t : ctype) :
  forall host ord buf,
    packed t = true -> sizeof t <= length buf ->
    write host ord t (read host ord t buf) = take (sizeof t) buf.
Proof.
  induction t as [t Ht|e n IH|name bo pack fs IH|name bo pack fs _] using ctype_fields_ind;
    intros host ord buf Hp Hlen.
  - pose proof (write_read_simple ord t buf Ht) as H.
    destruct t; try (exfalso; apply Ht; reflexivity); apply H; exact Hlen.
  - cbn [read write packed] in *. unfold sizeof in *. cbn [layout fst] in *.
    fold (sizeof e) in *. rewrite map_map.
    assert (forall k m, (k + m) * sizeof e <= length buf ->
              concat (map (fun i => write host ord e (read host ord e (drop (i * sizeof e) buf)))
                          (seq k m))
              = take (m * sizeof e) (drop (k * sizeof e) buf)) as H.
    { intros k m. revert k. induction m as [|m IHm]; intros k Hk; [reflexivity|].
      cbn [seq map concat]. rewrite IH by first [exact Hp | rewrite length_drop; nia].
      rewrite (IHm (S k)) by lia.
      replace (S m * sizeof e) with (sizeof e + m * sizeof e) by lia.
      rewrite take_plus, drop_drop. do 3 f_equal. lia. }
    now rewrite (H 0 n) by exact Hlen.
  - cbn [read write packed] in *. apply andb_true_iff in Hp as [Hpack Hp].
    apply Nat.eqb_eq in Hpack. subst pack.
    rewrite sizeof_Structure, struct_end_pack1, round_up_1 in *.
    rewrite (write_read_fields _ _ _ buf fs); [now rewrite Nat.sub_0_r| |reflexivity|exact Hlen].
    rewrite forallb_forall in Hp. rewrite Forall_forall in IH.
    apply Forall_forall. intros f Hf b Hb.
    apply IH; [exact Hf|apply Hp; now apply list_elem_of_In|exact Hb].
  - reflexivity.
Qed.

(** ** The claims on dispatch *)

(** C5.  A buffer shorter than 24 bytes, whatever it holds, makes
    [unpack_udp_packet] raise [UnpackError] from its first check, the one
    on the length ("too short"); the header is not read. *)
Theorem unpack_too_short (host : endian) (packet : bytes) :
  length packet < 24 ->
  unpack_udp_packet host packet = Raise (UnpackError (TooShort (length packet))).
Proof.
  intros H. rewrite unpack_udp_packet_spec.
  destruct (Nat.ltb_spec (length packet) 24); [reflexivity|lia].
Qed.

Lemma unpack_too_short_witness :
  length (take 23 (sample_header x03)) < 24 /\
  unpack_udp_packet Big (take 23 (sample_header x03)) = Raise (UnpackError (TooShort 23)).
Proof.
  split; [simpl; lia|].
  apply (unpack_too_short Big (take 23 (sample_header x03))). simpl. lia.
Defined.

(** C4.  When the key decoded from the header of a buffer of at least 24
    bytes is not one of (2020, 1, 0) .. (2020, 1, 9), [unpack_udp_packet]
    raises [UnpackError] for an unknown key ("no match for key fields")
    and returns no object; the registry holds exactly those ten keys. *)
Theorem unpack_unknown_key :
  (forall host packet key,
      24 <= length packet ->
      decoded_key host packet = Ok key ->
      key ∉ registered_keys ->
      unpack_udp_packet host packet = Raise (UnpackError (NoMatch key))) /\
  (forall key, is_Some (HeaderFieldsToPacketType !! key) <-> key ∈ registered_keys) /\
  size HeaderFieldsToPacketType = 10.
Proof.
  split; [|split].
  - intros host packet key Hlen Hkey Hnot.
    rewrite decoded_key_spec in Hkey by exact Hlen. injection Hkey as <-.
    rewrite unpack_udp_packet_spec.
    destruct (Nat.ltb_spec (length packet) 24); [lia|].
    destruct (HeaderFieldsToPacketType !! key_at packet) as [t|] eqn:Ht; [|reflexivity].
    exfalso. apply Hnot, registry_keys. now exists t.
  - apply registry_keys.
  - vm_compute. reflexivity.
Qed.

Lemma unpack_unknown_key_witness :
  unpack_udp_packet Little (sample_header x0a) = Raise (UnpackError (NoMatch (2020, 1, 10)%Z)).
Proof.
  apply (proj1 unpack_unknown_key Little (sample_header x0a) (2020, 1, 10)%Z).
  - simpl. lia.
  - reflexivity.
  - intros H. apply list_elem_of_In in H. vm_compute in H. intuition congruence.
Defined.

(** C3.  When the key decoded from the header of a buffer of at least 24
    bytes is registered and the buffer is not exactly as long as the
    registered type (one byte shorter, one byte longer, or any other
    length), [unpack_udp_packet] raises [UnpackError] for a bad size,
    reporting the expected and the actual size, and returns no object. *)
Theorem unpack_bad_size (host : endian) (packet : bytes) (key : Z * Z * Z)
    (packet_type : ctype) :
  24 <= length packet ->
  decoded_key host packet = Ok key ->
  HeaderFieldsToPacketType !! key = Some packet_type ->
  length packet <> sizeof packet_type ->
  unpack_udp_packet host packet =
  Raise (UnpackError (BadSize (type_name packet_type) (sizeof packet_type) (length packet))).
Proof.
  intros Hlen Hkey Ht Hne.
  rewrite decoded_key_spec in Hkey by exact Hlen. injection Hkey as <-.
  rewrite unpack_udp_packet_spec, Ht.
  destruct (Nat.ltb_spec (length packet) 24); [lia|].
  destruct (Nat.eqb_spec (length packet) (sizeof packet_type)); [contradiction|reflexivity].
Qed.

Lemma unpack_bad_size_witness :
  unpack_udp_packet Little (take 34 fastest_lap_packet) =
    Raise (UnpackError (BadSize "PacketEventData_V1" 35 34)) /\
  unpack_udp_packet Little (fastest_lap_packet ++ [x00]) =
    Raise (UnpackError (BadSize "PacketEventData_V1" 35 36)).
Proof.
  split.
  - apply (unpack_bad_size Little (take 34 fastest_lap_packet) (2020, 1, 3)%Z PacketEventData_V1).
    + simpl. lia.
    + reflexivity.
    + vm_compute. reflexivity.
    + simpl. unfold sizeof. simpl. lia.
  - apply (unpack_bad_size Little (fastest_lap_packet ++ [x00]) (2020, 1, 3)%Z PacketEventData_V1).
    + simpl. lia.
    + reflexivity.
    + vm_compute. reflexivity.
    + simpl. unfold sizeof. simpl. lia.
Defined.

Lemma registry_kind (kind : Z) :
  (0 <= kind <= 9)%Z ->
  exists packet_type,
    HeaderFieldsToPacketType !! (2020, 1, kind)%Z = Some packet_type /\
    (packet_type, sizeof packet_type) ∈ main_size_assertions.
Proof.
  intros Hk.
  assert (kind ∈ seqZ 0 10) as Hin by (apply elem_of_seqZ; lia).
  apply list_elem_of_In in Hin. vm_compute in Hin.
  repeat (destruct Hin as [<-|Hin];
          [eexists; split; [vm_compute; reflexivity|];
           apply list_elem_of_In; repeat first [left; reflexivity | right]|]).
  destruct Hin.
Qed.

Lemma sizeof_header_first (t : ctype) : header_first t -> 24 <= sizeof t.
Proof.
  intros (name & fs & ->). unfold PackedLittleEndianStructure.
  rewrite sizeof_Structure. etransitivity; [|apply round_up_ge].
  cbn [map snd]. change (layout PacketHeader) with (24, 1). cbn [struct_end].
  etransitivity; [|apply struct_end_ge]. rewrite round_up_1. lia.
Qed.

Lemma unpack_exact (host : endian) (packet : bytes) (packet_type : ctype) :
  HeaderFieldsToPacketType !! key_at packet = Some packet_type ->
  length packet = sizeof packet_type ->
  unpack_udp_packet host packet = Ok (Cobj packet_type (read host host packet_type packet)).
Proof.
  intros Ht Hlen. rewrite unpack_udp_packet_spec, Ht.
  pose proof (sizeof_header_first _ (registered_header_first _ _ Ht)).
  destruct (Nat.ltb_spec (length packet) 24); [lia|].
  destruct (Nat.eqb_spec (length packet) (sizeof packet_type)); [reflexivity|contradiction].
Qed.

Lemma getattr_header (host ord : endian) (t : ctype) (buf : bytes) :
  header_first t -> getattr (read host ord t buf) "header" = Ok (header_at buf).
Proof.
  intros (name & fs & ->). now rewrite read_header_first.
Qed.

Lemma header_at_app (hdr rest : bytes) :
  length hdr = 24 -> header_at (hdr ++ rest) = header_at hdr.
Proof.
  intros H. unfold header_at. now rewrite !field_at_app by lia.
Qed.

(** C1.  For each kind 0..9: a buffer of the size of the registered type
    that starts with 24 header bytes giving format 2020, version 1 and
    that kind, and is zero after them, is unpacked without an error into
    an object of the registered type, on a little-endian and on a
    big-endian host alike.  What the object holds is a record of that
    type: a value for each declared field, in the order and of the type
    declared, every integer within the range of its field and every array
    of its declared length; and the bytes of the object are the buffer.
    Every field of its header is the little-endian number in the bytes of
    that field. *)
Theorem unpack_valid_header (host : endian) (kind : Z) (hdr : bytes) :
  (0 <= kind <= 9)%Z ->
  length hdr = 24 ->
  key_at hdr = (2020, 1, kind)%Z ->
  exists packet_type v,
    HeaderFieldsToPacketType !! (2020, 1, kind)%Z = Some packet_type /\
    (packet_type, length (hdr ++ replicate (sizeof packet_type - 24) x00))
      ∈ main_size_assertions /\
    unpack_udp_packet host (hdr ++ replicate (sizeof packet_type - 24) x00)
      = Ok (Cobj packet_type v) /\
    has_type packet_type v = true /\
    to_bytes host (Cobj packet_type v) = hdr ++ replicate (sizeof packet_type - 24) x00 /\
    getattr v "header" = Ok (header_at hdr).
Proof.
  intros Hk Hlen Hkey.
  destruct (registry_kind kind Hk) as (t & Ht & Hsize).
  pose proof (registered_header_first _ _ Ht) as Hfirst.
  pose proof (sizeof_header_first _ Hfirst) as Hge.
  set (packet := hdr ++ replicate (sizeof t - 24) x00).
  assert (length packet = sizeof t) as Hpacket.
  { unfold packet. rewrite length_app, length_replicate. lia. }
  assert (key_at packet = (2020, 1, kind)%Z) as Hkey'.
  { rewrite <- Hkey. unfold key_at, packet. now rewrite !field_at_app by lia. }
  exists t, (read host host t packet).
  change (hdr ++ replicate (sizeof t - 24) x00) with packet.
  split; [|split; [|split; [|split; [|split]]]].
  - exact Ht.
  - now rewrite Hpacket.
  - apply unpack_exact; [now rewrite Hkey'|exact Hpacket].
  - apply has_type_read. lia.
  - unfold to_bytes. cbn [otype ovalue].
    rewrite write_read by (first [exact (proj2 (registered_order_fixed _ _ Ht)) | lia]).
    rewrite <- Hpacket. apply firstn_all.
  - rewrite getattr_header by exact Hfirst. f_equal. now apply header_at_app.
Qed.

Lemma unpack_valid_header_witness :
  exists packet_type v,
    HeaderFieldsToPacketType !! (2020, 1, 0)%Z = Some packet_type /\
    (packet_type, length (sample_header x00 ++ replicate (sizeof packet_type - 24) x00))
      ∈ main_size_assertions /\
    unpack_udp_packet Little (sample_header x00 ++ replicate (sizeof packet_type - 24) x00)
      = Ok (Cobj packet_type v) /\
    has_type packet_type v = true /\
    to_bytes Little (Cobj packet_type v)
      = sample_header x00 ++ replicate (sizeof packet_type - 24) x00 /\
    getattr v "header" = Ok (header_at (sample_header x00)).
Proof.
  apply (unpack_valid_header Little 0%Z (sample_header x00)).
  - lia.
  - reflexivity.
  - reflexivity.
Defined.

(** C2.  Each of the ten packet types is exactly as large as the widths
    of its fields add up to, and so is every structure and union nested
    in it: [_pack_ = 1] leaves no padding.  The sizes are those that the
    module asserts: 1464, 251, 1190, 35, 1213, 1102, 1307, 1344, 839 and
    1169 bytes for the kinds 0 to 9. *)
Theorem packet_sizes :
  Forall (fun p => sizeof (fst p) = snd p /\ width_sum (fst p) = snd p /\ tight (fst p) = true)
         main_size_assertions /\
  map (fun kind => HeaderFieldsToPacketType !! (2020, 1, kind)%Z) (seqZ 0 10)
    = map (fun p => Some (fst p)) main_size_assertions /\
  map snd main_size_assertions = [1464; 251; 1190; 35; 1213; 1102; 1307; 1344; 839; 1169].
Proof.
  split; [|split].
  - repeat constructor; vm_compute; reflexivity.
  - vm_compute. reflexivity.
  - reflexivity.
Qed.

(** C9.  Driver 34 is "Wilhelm Kaufmann", with the spelling corrected. *)
Theorem driver_34 :
  DriverIDs !! 34%Z = Some "Wilhelm Kaufmann" /\
  DriverIDs !! 34%Z <> Some "Wilheim Kaufmann".
Proof.
  split; [vm_compute; reflexivity|].
  intros H. vm_compute in H. discriminate H.
Qed.

(** ** Bytes that a field does not cover *)

Lemma field_at_ext (p1 p2 : bytes) (off w : nat) :
  (forall i, off <= i < off + w -> p1 !! i = p2 !! i) ->
  field_at p1 off w = field_at p2 off w.
Proof.
  intros H. unfold field_at. f_equal. apply list_eq. intros i.
  destruct (Nat.lt_ge_cases i w) as [Hlt|Hge].
  - rewrite !lookup_take_lt, !lookup_drop by exact Hlt. apply H. lia.
  - now rewrite !lookup_take_ge by exact Hge.
Qed.

Lemma drop_ext (p1 p2 : bytes) (n : nat) :
  (forall i, n <= i -> p1 !! i = p2 !! i) -> drop n p1 = drop n p2.
Proof.
  intros H. apply list_eq. intros i. rewrite !lookup_drop. apply H. lia.
Qed.

Lemma read_fields_ext (rd : ctype -> bytes -> value) (pack : nat) (p1 p2 : bytes)
    (fs : list (string * ctype)) :
  forall off,
    drop off p1 = drop off p2 ->
    read_fields rd pack p1 fs off = read_fields rd pack p2 fs off.
Proof.
  assert (forall n m, n <= m -> drop n p1 = drop n p2 -> drop m p1 = drop m p2) as Hmono.
  { intros n m Hnm H. replace m with (n + (m - n)) by lia. now rewrite <- !drop_drop, H. }
  induction fs as [|f fs IH]; intros off Hoff; [reflexivity|].
  cbn [read_fields].
  pose proof (round_up_ge off (field_align pack (alignment (snd f)))) as Hge.
  f_equal.
  - f_equal. f_equal. now apply (Hmono off).
  - apply IH. apply (Hmono off); [lia|exact Hoff].
Qed.

(** C10.  The bytes 2 and 3 of a buffer, the game version, play no part
    in the dispatch: two buffers of one length that agree everywhere else
    are both refused with the same error, or both unpacked into objects of
    the same type that are the same but for [gameMajorVersion] and
    [gameMinorVersion] in their headers. *)
Theorem unpack_ignores_game_version (host : endian) (p1 p2 : bytes) :
  length p1 = length p2 ->
  (forall i, i <> 2 -> i <> 3 -> p1 !! i = p2 !! i) ->
  match unpack_udp_packet host p1, unpack_udp_packet host p2 with
  | Ok o1, Ok o2 => otype o1 = otype o2 /\ same_but_game_version (ovalue o1) (ovalue o2)
  | Raise e1, Raise e2 => e1 = e2
  | _, _ => False
  end.
Proof.
  intros Hlen Hsame.
  assert (forall off w, off + w <= 2 \/ 4 <= off -> field_at p1 off w = field_at p2 off w) as Hfield.
  { intros off w Hoff. apply field_at_ext. intros i Hi. apply Hsame; lia. }
  assert (key_at p1 = key_at p2) as Hkey.
  { unfold key_at. now rewrite !Hfield by lia. }
  rewrite !unpack_udp_packet_spec, <- Hkey, <- Hlen.
  destruct (length p1 <? 24); [reflexivity|].
  destruct (HeaderFieldsToPacketType !! key_at p1) as [t|] eqn:Ht; [|reflexivity].
  destruct (negb (Nat.eqb (length p1) (sizeof t))); [reflexivity|].
  cbn [otype ovalue]. split; [reflexivity|].
  destruct (registered_header_first _ _ Ht) as (name & fs & ->).
  rewrite !read_header_first.
  rewrite (read_fields_ext _ 1 p1 p2 fs 24)
    by (apply drop_ext; intros i Hi; apply Hsame; lia).
  eexists _, _, _. split; [reflexivity|]. split; [reflexivity|]. split.
  - reflexivity.
  - intros field Hmajor Hminor.
    rewrite (Hfield 0 2), (Hfield 4 1), (Hfield 5 1), (Hfield 6 8), (Hfield 14 4),
      (Hfield 18 4), (Hfield 22 1), (Hfield 23 1) by lia.
    cbn [assoc].
    destruct (String.eqb_spec field "gameMajorVersion"); [contradiction|].
    destruct (String.eqb_spec field "gameMinorVersion"); [contradiction|].
    reflexivity.
Qed.

Lemma unpack_ignores_game_version_witness :
  match unpack_udp_packet Little motion_packet, unpack_udp_packet Little motion_packet' with
  | Ok o1, Ok o2 => otype o1 = otype o2 /\ same_but_game_version (ovalue o1) (ovalue o2)
  | Raise e1, Raise e2 => e1 = e2
  | _, _ => False
  end.
Proof.
  apply (unpack_ignores_game_version Little motion_packet motion_packet').
  - reflexivity.
  - intros [|[|[|[|i]]]] H2 H3; try reflexivity; congruence.
Defined.

(** ** Round trip *)

Lemma key_of_read (host ord : endian) (t : ctype) (buf : bytes) :
  header_first t -> key_of (read host ord t buf) = Ok (key_at buf).
Proof.
  intros H. unfold key_of. now rewrite getattr_header by exact H.
Qed.

(** C8, counterexample.  A freshly constructed event object
    [PacketEventData_V1()] is a typed record of a registered type, yet its
    bytes are refused: its header holds the key (0, 0, 0). *)
Lemma roundtrip_counterexample :
  HeaderFieldsToPacketType !! (2020, 1, 3)%Z = Some (otype (new PacketEventData_V1)) /\
  has_type (otype (new PacketEventData_V1)) (ovalue (new PacketEventData_V1)) = true /\
  unpack_udp_packet Little (to_bytes Little (new PacketEventData_V1))
    = Raise (UnpackError (NoMatch (0, 0, 0)%Z)).
Proof.
  split; [|split]; vm_compute; reflexivity.
Qed.

(** C8, as amended.  For each of the ten packet types: an object of that
    type whose header holds the key under which the type is registered
    (format 2020, version 1 and the kind of the type), all other fields
    being arbitrary, is unpacked from its own bytes as an object of the
    same type with the same value in every field. *)
Theorem roundtrip (host : endian) (key : Z * Z * Z) (t : ctype) (v : value) :
  HeaderFieldsToPacketType !! key = Some t ->
  has_type t v = true ->
  key_of v = Ok key ->
  unpack_udp_packet host (to_bytes host (Cobj t v)) = Ok (Cobj t v).
Proof.
  intros Ht Hv Hkey. unfold to_bytes. cbn [otype ovalue].
  pose proof (registered_header_first _ _ Ht) as Hfirst.
  pose proof (read_write t host host v [] Hv) as Hread. rewrite app_nil_r in Hread.
  assert (key_at (write host host t v) = key) as Hkey'.
  { pose proof (key_of_read host host t (write host host t v) Hfirst) as H.
    rewrite Hread, Hkey in H. now injection H. }
  rewrite (unpack_exact host _ t).
  - now rewrite Hread.
  - now rewrite Hkey'.
  - now apply length_write.
Qed.

Lemma roundtrip_witness :
  unpack_udp_packet Big
    (to_bytes Big (Cobj PacketEventData_V1
                        (read Big Big PacketEventData_V1 fastest_lap_packet)))
  = Ok (Cobj PacketEventData_V1 (read Big Big PacketEventData_V1 fastest_lap_packet)).
Proof.
  apply (roundtrip Big (2020, 1, 3)%Z).
  - vm_compute. reflexivity.
  - vm_compute. reflexivity.
  - vm_compute. reflexivity.
Defined.

(** What [unpack_udp_packet] returns: an object of the registered type over
    the whole packet. *)
Lemma unpack_ok_inv (host : endian) (packet : bytes) (o : cobj) :
  unpack_udp_packet host packet = Ok o ->
  HeaderFieldsToPacketType !! key_at packet = Some (otype o) /\
  length packet = sizeof (otype o) /\
  ovalue o = read host host (otype o) packet.
Proof.
  rewrite unpack_udp_packet_spec.
  destruct (length packet <? 24); [discriminate|].
  destruct (HeaderFieldsToPacketType !! key_at packet) as [t|]; [|discriminate].
  destruct (Nat.eqb_spec (length packet) (sizeof t)); [|discriminate].
  intros [= <-]. repeat split. assumption.
Qed.

(** X5.  Every object that [unpack_udp_packet] returns holds a value of
    its type: each integer lies in the range of its field (0..255 for
    [c_uint8], -128..127 for [c_int8], and so on), each array has its
    declared length, each structure its declared fields in order.  It is
    therefore an object that the round trip applies to: unpacking its
    bytes gives it again. *)
Theorem unpack_well_typed (host : endian) (packet : bytes) (o : cobj) :
  unpack_udp_packet host packet = Ok o ->
  has_type (otype o) (ovalue o) = true /\
  unpack_udp_packet host (to_bytes host o) = Ok o.
Proof.
  intros H. destruct (unpack_ok_inv _ _ _ H) as (Ht & Hlen & Hv).
  destruct o as [t v]. cbn [otype ovalue] in *.
  assert (has_type t v = true) as Htyped by (subst v; apply has_type_read; lia).
  split; [exact Htyped|]. unfold to_bytes. cbn [otype ovalue].
  pose proof (registered_header_first _ _ Ht) as Hfirst.
  pose proof (read_write t host host v [] Htyped) as Hread. rewrite app_nil_r in Hread.
  rewrite (unpack_exact host _ t).
  - now rewrite Hread.
  - pose proof (key_of_read host host t (write host host t v) Hfirst) as Hk.
    rewrite Hread, Hv, key_of_read in Hk by exact Hfirst.
    assert (key_at (write host host t v) = key_at packet) as Hk' by congruence.
    now rewrite Hk'.
  - now apply length_write.
Qed.

Lemma unpack_well_typed_witness :
  has_type PacketEventData_V1 (read Little Little PacketEventData_V1 fastest_lap_packet) = true /\
  unpack_udp_packet Little
    (to_bytes Little (Cobj PacketEventData_V1
                           (read Little Little PacketEventData_V1 fastest_lap_packet)))
  = Ok (Cobj PacketEventData_V1 (read Little Little PacketEventData_V1 fastest_lap_packet)).
Proof.
  apply (unpack_well_typed Little fastest_lap_packet
           (Cobj PacketEventData_V1 (read Little Little PacketEventData_V1 fastest_lap_packet))).
  vm_compute. reflexivity.
Defined.

(** ** Event packets *)

Lemma registry_event :
  HeaderFieldsToPacketType !! (2020, 1, 3)%Z = Some PacketEventData_V1.
Proof. vm_compute. reflexivity. Qed.

Lemma unpack_event (host : endian) (packet : bytes) :
  length packet = 35 ->
  decoded_key host packet = Ok (2020, 1, 3)%Z ->
  unpack_udp_packet host packet
    = Ok (Cobj PacketEventData_V1 (read host host PacketEventData_V1 packet)).
Proof.
  intros Hlen Hkey. rewrite decoded_key_spec in Hkey by lia.
  assert (key_at packet = (2020, 1, 3)%Z) as Hkey' by congruence.
  apply unpack_exact; [rewrite Hkey'; exact registry_event | exact Hlen].
Qed.

Lemma read_event (host ord : endian) (packet : bytes) :
  length packet = 35 ->
  read host ord PacketEventData_V1 packet =
  VStruct [("header", header_at packet);
           ("eventStringCode", VArray (map VChar (event_code_at packet)));
           ("eventDetails", VUnion (drop 28 packet))].
Proof.
  intros H. explicit_bytes packet H. reflexivity.
Qed.

Lemma chars_map (bs : bytes) : chars (map VChar bs) = bs.
Proof.
  unfold chars. induction bs as [|b bs IH]; [reflexivity|].
  cbn. now rewrite IH.
Qed.

Lemma until_nul_full (bs : bytes) :
  length (until_nul bs) = length bs -> until_nul bs = bs.
Proof.
  induction bs as [|b bs IH]; simpl; [reflexivity|].
  destruct (Byte.eqb b x00); simpl; [discriminate|].
  intros H. f_equal. apply IH. lia.
Qed.

(** Text that equals a four-letter literal comes from exactly its four
    bytes. *)
Lemma code_of_event (code : bytes) (name : string) :
  length code = 4 ->
  String.length name = 4 ->
  String.string_of_list_byte (until_nul code) = name ->
  code = String.list_byte_of_string name.
Proof.
  intros Hlen Hname Hev.
  apply (f_equal String.list_byte_of_string) in Hev.
  rewrite String.list_byte_of_string_of_list_byte in Hev.
  rewrite <- Hev. symmetry. apply until_nul_full.
  rewrite Hev, Hlen. clear -Hname.
  do 5 (destruct name as [|? name]; try discriminate Hname). reflexivity.
Qed.

Lemma event_code_length (packet : bytes) :
  length packet = 35 -> length (event_code_at packet) = 4.
Proof.
  intros H. unfold event_code_at. rewrite length_take, length_drop. lia.
Qed.

(** What [__repr__] does for an event object, by the text of its code. *)
Lemma repr_event (host : endian) (h : value) (code u : bytes) :
  PacketEventData_V1_repr host
    (VStruct [("header", h); ("eventStringCode", VArray (map VChar code));
              ("eventDetails", VUnion u)]) =
  (event ← decode (until_nul code);
  if bool_decide (event ∈ ["CHQF"; "DRSD"; "DRSE"; "SEND"; "SSTA"]) then Ok None
  else
    event_str ←
      (if String.eqb event "FTLP" then union_member host EventDataDetails "fastestLap" (VUnion u)
       else if String.eqb event "PENA" then union_member host EventDataDetails "penalty" (VUnion u)
       else if String.eqb event "RCWN" then union_member host EventDataDetails "raceWinner" (VUnion u)
       else if String.eqb event "RTMT" then union_member host EventDataDetails "retirement" (VUnion u)
       else if String.eqb event "SPTP" then union_member host EventDataDetails "speedTrap" (VUnion u)
       else if String.eqb event "TMPT" then union_member host EventDataDetails "teamMateInPits" (VUnion u)
       else Raise (RuntimeError "Bad event code {}" event));
    Ok (Some event_str)).
Proof.
  unfold PacketEventData_V1_repr, getattr_bytes.
  change (getattr (VStruct _) "eventStringCode") with (Ok (VArray (map VChar code))).
  change (getattr (VStruct _) "eventDetails") with (Ok (VUnion u)).
  cbn [mbind result_bind]. now rewrite chars_map.
Qed.

(** C7, counterexample.  An event datagram whose code, XXXX, is none of
    the eleven is unpacked into an event object all the same. *)
Lemma unknown_event_code_unpacked :
  length unknown_event_packet = 35 /\
  decoded_key Little unknown_event_packet = Ok (2020, 1, 3)%Z /\
  event_code_at unknown_event_packet = String.list_byte_of_string "XXXX" /\
  (event_code_at unknown_event_packet ∉ map snd EventStringCode) /\
  exists v, unpack_udp_packet Little unknown_event_packet = Ok (Cobj PacketEventData_V1 v).
Proof.
  split; [reflexivity|]. split; [reflexivity|]. split; [reflexivity|]. split.
  - intros H. apply list_elem_of_In in H. vm_compute in H.
    repeat (destruct H as [H|H]; [discriminate H|]). destruct H.
  - eexists. vm_compute. reflexivity.
Qed.

(** * Further properties *)

(** ** What [unpack_udp_packet] raises and when it returns *)

(** X1.  [unpack_udp_packet] returns an object or raises [UnpackError],
    whatever the buffer and the host: the [ValueError] of
    [from_buffer_copy] and a missing header attribute cannot occur. *)
Theorem unpack_raises_only_UnpackError (host : endian) (packet : bytes) :
  (exists o, unpack_udp_packet host packet = Ok o) \/
  (exists e, unpack_udp_packet host packet = Raise (UnpackError e)).
Proof.
  rewrite unpack_udp_packet_spec.
  destruct (length packet <? 24); [right; eexists; reflexivity|].
  destruct (HeaderFieldsToPacketType !! key_at packet) as [t|];
    [|right; eexists; reflexivity].
  destruct (negb (Nat.eqb (length packet) (sizeof t)));
    [right|left]; eexists; reflexivity.
Qed.

(** X2.  [unpack_udp_packet] returns an object of type [t] exactly when
    the buffer has at least 24 bytes, the key in its header is registered
    for [t], and the buffer is as long as [t]; the header of the object
    returned holds the key that was looked up. *)
Theorem unpack_ok_iff (host : endian) (packet : bytes) (t : ctype) :
  ((exists v, unpack_udp_packet host packet = Ok (Cobj t v)) <->
   24 <= length packet /\
   (exists key, decoded_key host packet = Ok key /\
                HeaderFieldsToPacketType !! key = Some t) /\
   length packet = sizeof t) /\
  (forall v, unpack_udp_packet host packet = Ok (Cobj t v) ->
             key_of v = decoded_key host packet).
Proof.
  assert (forall v, unpack_udp_packet host packet = Ok (Cobj t v) ->
                    HeaderFieldsToPacketType !! key_at packet = Some t /\
                    24 <= length packet /\ length packet = sizeof t /\
                    v = read host host t packet) as Hinv.
  { intros v H. destruct (unpack_ok_inv _ _ _ H) as (Ht & Hlen & Hv).
    cbn [otype ovalue] in *.
    pose proof (sizeof_header_first _ (registered_header_first _ _ Ht)) as Hge.
    repeat split; [exact Ht|lia|exact Hlen|exact Hv]. }
  split; [split|].
  - intros [v H]. destruct (Hinv v H) as (Ht & Hge & Hlen & _).
    split; [exact Hge|]. split; [|exact Hlen].
    exists (key_at packet). split; [now apply decoded_key_spec|exact Ht].
  - intros (Hge & (key & Hkey & Ht) & Hlen).
    rewrite decoded_key_spec in Hkey by exact Hge. injection Hkey as <-.
    eexists. now apply unpack_exact.
  - intros v H. destruct (Hinv v H) as (Ht & Hge & _ & ->).
    rewrite decoded_key_spec by exact Hge.
    apply key_of_read. exact (registered_header_first _ _ Ht).
Qed.

Lemma unpack_ok_iff_witness :
  exists v, unpack_udp_packet Little fastest_lap_packet = Ok (Cobj PacketEventData_V1 v).
Proof.
  apply (proj2 (proj1 (unpack_ok_iff Little fastest_lap_packet PacketEventData_V1))).
  split; [simpl; lia|]. split; [|reflexivity].
  exists (2020, 1, 3)%Z. split; [reflexivity|vm_compute; reflexivity].
Defined.

(** ** Reading, then writing *)

(** X4.  Nothing of a datagram is lost in decoding: the bytes of the
    object that [unpack_udp_packet] returns are the datagram itself, so two
    datagrams that decode to the same object are the same. *)
Theorem unpack_to_bytes (host : endian) (packet : bytes) (o : cobj) :
  unpack_udp_packet host packet = Ok o ->
  to_bytes host o = packet /\
  (forall packet', unpack_udp_packet host packet' = Ok o -> packet' = packet).
Proof.
  assert (forall p, unpack_udp_packet host p = Ok o -> to_bytes host o = p) as H.
  { intros p Hp. destruct (unpack_ok_inv _ _ _ Hp) as (Ht & Hlen & Hv).
    unfold to_bytes. rewrite Hv.
    rewrite write_read by first [apply (registered_order_fixed _ _ Ht) | lia].
    rewrite <- Hlen. apply firstn_all. }
  intros Hp. split; [now apply H|].
  intros p' Hp'. now rewrite <- (H _ Hp), <- (H _ Hp').
Qed.

Lemma unpack_to_bytes_witness :
  to_bytes Big (Cobj PacketEventData_V1 (read Big Big PacketEventData_V1 fastest_lap_packet))
    = fastest_lap_packet /\
  (forall packet',
      unpack_udp_packet Big packet'
        = Ok (Cobj PacketEventData_V1 (read Big Big PacketEventData_V1 fastest_lap_packet)) ->
      packet' = fastest_lap_packet).
Proof.
  apply (unpack_to_bytes Big fastest_lap_packet). vm_compute. reflexivity.
Defined.

(** ** Bytes beyond a type *)

Lemma drop_take_le {A : Type} (l : list A) (o n : nat) :
  o <= n -> drop o (take n l) = take (n - o) (drop o l).
Proof.
  intros H. rewrite take_drop_commute. do 2 f_equal. lia.
Qed.

Lemma read_simple_take (ord : endian) (t : ctype) (n : nat) (buf : bytes) :
  simple_size t <> 0 -> simple_size t <= n ->
  read_simple ord t (take n buf) = read_simple ord t buf.
Proof.
  intros Ht Hn. unfold read_simple. rewrite take_take, Nat.min_l by exact Hn.
  destruct t; try reflexivity.
  destruct n; [simpl in Hn; lia|]. now destruct buf.
Qed.

Lemma read_fields_take (rd : ctype -> bytes -> value) (pack n : nat) (buf : bytes)
    (fs : list (string * ctype)) :
  Forall (fun f => forall m b, sizeof (snd f) <= m -> rd (snd f) (take m b) = rd (snd f) b) fs ->
  forall off al,
    fst (struct_end pack (map (fun f => layout (snd f)) fs) off al) <= n ->
    read_fields rd pack (take n buf) fs off = read_fields rd pack buf fs off.
Proof.
  induction 1 as [|f fs Hf _ IH]; intros off al Hend; [reflexivity|].
  cbn [read_fields]. cbn [map struct_end] in Hend.
  pose proof (struct_end_ge pack (map (fun f => layout (snd f)) fs)
                (round_up off (field_align pack (alignment (snd f))) + sizeof (snd f))
                (max al (field_align pack (alignment (snd f))))) as Hge.
  unfold sizeof, alignment in *. destruct (layout (snd f)) as [sz a].
  cbn [fst snd] in *.
  rewrite drop_take_le by lia.
  rewrite Hf by lia.
  now rewrite (IH _ _ Hend).
Qed.

(** A read looks at no byte beyond the size of its type. *)
Lemma read_take (t : ctype) :
  forall host ord n buf, sizeof t <= n -> read host ord t (take n buf) = read host ord t buf.
Proof.
  induction t as [t Ht|e len IH|name bo pack fs IH|name bo pack fs _] using ctype_fields_ind;
    intros host ord n buf Hn.
  - pose proof (read_simple_take ord t n buf Ht) as H.
    destruct t; try (exfalso; apply Ht; reflexivity); apply H; exact Hn.
  - cbn [read]. f_equal. apply map_ext_in. intros i Hi. apply in_seq in Hi.
    unfold sizeof in Hn. cbn [layout fst] in Hn. fold (sizeof e) in Hn.
    rewrite drop_take_le by nia. apply IH. nia.
  - cbn [read]. f_equal. rewrite sizeof_Structure in Hn.
    apply (read_fields_take _ pack n buf fs) with (al := 1).
    + eapply Forall_impl; [exact IH|]. intros f Hf m b Hm. now apply Hf.
    + etransitivity; [apply round_up_ge|exact Hn].
  - cbn [read]. f_equal. now rewrite take_take, Nat.min_l.
Qed.

Lemma repr_member (host : endian) (code member : string) (t : ctype) (h : value) (u : bytes) :
  (code, (member, t)) ∈ event_members ->
  assoc member (fields_of EventDataDetails) = Some t /\
  sizeof t <= sizeof EventDataDetails /\
  PacketEventData_V1_repr host
    (VStruct [("header", h);
              ("eventStringCode", VArray (map VChar (String.list_byte_of_string code)));
              ("eventDetails", VUnion u)])
  = Ok (Some (read host (effective host Native) t u)).
Proof.
  intros Hin. apply list_elem_of_In in Hin. simpl in Hin.
  repeat (destruct Hin as [Hin|Hin];
          [injection Hin as <- <- <-; split; [reflexivity|split; [vm_compute; lia|reflexivity]]|]).
  destruct Hin.
Qed.

(** X6.  Each member of [EventDataDetails] is no larger than the union,
    and what is printed of an event depends on no payload byte beyond the
    member that its code selects: two event datagrams with the same code
    that agree on the bytes of that member, from offset 28 on, show the
    same details, whatever follows in the 7 bytes reserved for the
    union. *)
Theorem event_bytes_beyond_member (host : endian) (p1 p2 : bytes)
    (code member : string) (t : ctype) :
  (code, (member, t)) ∈ event_members ->
  length p1 = 35 -> decoded_key host p1 = Ok (2020, 1, 3)%Z ->
  length p2 = 35 -> decoded_key host p2 = Ok (2020, 1, 3)%Z ->
  event_code_at p1 = String.list_byte_of_string code ->
  event_code_at p2 = String.list_byte_of_string code ->
  take (sizeof t) (drop 28 p1) = take (sizeof t) (drop 28 p2) ->
  sizeof t <= sizeof EventDataDetails /\
  exists v1 v2,
    unpack_udp_packet host p1 = Ok (Cobj PacketEventData_V1 v1) /\
    unpack_udp_packet host p2 = Ok (Cobj PacketEventData_V1 v2) /\
    PacketEventData_V1_repr host v1 = PacketEventData_V1_repr host v2.
Proof.
  intros Hin Hlen1 Hkey1 Hlen2 Hkey2 Hcode1 Hcode2 Hsame.
  split; [apply (repr_member host code member t (VInt 0) [] Hin)|].
  exists (read host host PacketEventData_V1 p1), (read host host PacketEventData_V1 p2).
  split; [now apply unpack_event|]. split; [now apply unpack_event|].
  rewrite !read_event by assumption. rewrite Hcode1, Hcode2.
  destruct (repr_member host code member t (header_at p1) (drop 28 p1) Hin) as (_ & _ & ->).
  destruct (repr_member host code member t (header_at p2) (drop 28 p2) Hin) as (_ & _ & ->).
  rewrite <- (read_take t host _ (sizeof t) (drop 28 p1)) by lia.
  rewrite <- (read_take t host _ (sizeof t) (drop 28 p2)) by lia.
  now rewrite Hsame.
Qed.

Lemma event_bytes_beyond_member_witness :
  sizeof FastestLapData <= sizeof EventDataDetails /\
  exists v1 v2,
    unpack_udp_packet Little fastest_lap_packet = Ok (Cobj PacketEventData_V1 v1) /\
    unpack_udp_packet Little fastest_lap_packet' = Ok (Cobj PacketEventData_V1 v2) /\
    PacketEventData_V1_repr Little v1 = PacketEventData_V1_repr Little v2.
Proof.
  apply (event_bytes_beyond_member Little fastest_lap_packet fastest_lap_packet'
           "FTLP" "fastestLap" FastestLapData); try reflexivity.
  apply list_elem_of_In. simpl. tauto.
Defined.

(** ** Button flags *)

Lemma land_pow2_nonzero (x i : Z) :
  (0 <= i)%Z -> (Z.land x (2 ^ i) <> 0 <-> Z.testbit x i = true)%Z.
Proof.
  intros Hi. split.
  - intros Hne. destruct (Z.testbit x i) eqn:Hb; [reflexivity|].
    exfalso. apply Hne. apply Z.bits_inj'. intros m Hm.
    rewrite Z.land_spec, Z.bits_0, Z.pow2_bits_eqb by exact Hi.
    destruct (Z.eqb_spec i m) as [<-|]; [now rewrite Hb|apply andb_false_r].
  - intros Hb Hz. apply (f_equal (fun z => Z.testbit z i)) in Hz.
    rewrite Z.land_spec, Z.bits_0, Hb, Z.pow2_bits_eqb, Z.eqb_refl in Hz by exact Hi.
    discriminate.
Qed.

Lemma testbit_lor_all (pressed : list Z) (i : Z) :
  Z.testbit (foldr Z.lor 0%Z pressed) i = existsb (fun f => Z.testbit f i) pressed.
Proof.
  induction pressed as [|f pressed IH]; [apply Z.bits_0|].
  cbn [foldr existsb]. now rewrite Z.lor_spec, IH.
Qed.

Lemma ButtonFlag_bits :
  map snd ButtonFlag = map (fun i => 2 ^ i)%Z (seqZ 0 15).
Proof. reflexivity. Qed.

Lemma ButtonFlag_bit (flag : Z) :
  flag ∈ map snd ButtonFlag <-> exists i, (0 <= i < 15)%Z /\ flag = (2 ^ i)%Z.
Proof.
  rewrite ButtonFlag_bits, list_elem_of_fmap. split.
  - intros (i & -> & Hi). apply elem_of_seqZ in Hi. exists i. split; [lia|reflexivity].
  - intros (i & Hi & ->). exists i. split; [reflexivity|]. apply elem_of_seqZ. lia.
Qed.

(** X8.  The button flags are separate bits: when any of them are or-ed
    into a [buttonStatus], testing a flag with [&] tells exactly whether
    that flag was among them; and the result fits the 32 bits of the
    field. *)
Theorem button_flags_independent (pressed : list Z) (flag : Z) :
  pressed ⊆ map snd ButtonFlag ->
  flag ∈ map snd ButtonFlag ->
  (Z.land (foldr Z.lor 0 pressed) flag <> 0 <-> flag ∈ pressed)%Z /\
  has_simple_type c_uint32 (VInt (foldr Z.lor 0%Z pressed)) = true.
Proof.
  intros Hsub Hflag. split.
  - apply ButtonFlag_bit in Hflag as (i & Hi & ->).
    rewrite land_pow2_nonzero, testbit_lor_all, existsb_exists by lia. split.
    + intros (f & Hf & Hbit). apply list_elem_of_In in Hf.
      destruct (proj1 (ButtonFlag_bit f) (Hsub f Hf)) as (j & Hj & ->).
      rewrite Z.pow2_bits_eqb in Hbit by lia. apply Z.eqb_eq in Hbit. now subst j.
    + intros Hin. exists (2 ^ i)%Z. split; [now apply list_elem_of_In|].
      rewrite Z.pow2_bits_eqb by lia. apply Z.eqb_refl.
  - apply in_range_spec. cbn [simple_size].
    assert (0 <= foldr Z.lor 0 pressed < 2 ^ 15)%Z as H; [|change (2 ^ (8 * Z.of_nat 4))%Z with (2 ^ 32)%Z; lia].
    induction pressed as [|f pressed IH]; [cbn; lia|].
    cbn [foldr].
    assert (pressed ⊆ map snd ButtonFlag) as Hsub' by (intros x Hx; apply Hsub; now right).
    specialize (IH Hsub').
    destruct (proj1 (ButtonFlag_bit f) (Hsub f ltac:(now left))) as (j & Hj & ->).
    assert (0 <= 2 ^ j < 2 ^ 15)%Z as Hf
        by (split; [apply Z.pow_nonneg; lia|apply Z.pow_lt_mono_r; lia]).
    split; [apply Z.lor_nonneg; lia|].
    destruct (Z.eq_dec (Z.lor (2 ^ j) (foldr Z.lor 0 pressed)) 0)%Z as [->|Hne]; [lia|].
    apply Z.log2_lt_pow2; [pose proof (Z.lor_nonneg (2 ^ j) (foldr Z.lor 0 pressed))%Z; lia|].
    rewrite Z.log2_lor by lia.
    destruct (Z.eq_dec (foldr Z.lor 0 pressed) 0)%Z as [Hz|Hnz].
    + rewrite Hz. cbn [Z.log2]. rewrite Z.max_l by apply Z.log2_nonneg.
      rewrite Z.log2_pow2; lia.
    + apply Z.max_lub_lt; [rewrite Z.log2_pow2; lia|apply Z.log2_lt_pow2; lia].
Qed.

Lemma button_flags_independent_witness :
  (Z.land (foldr Z.lor 0 [0x0001; 0x0004]) 0x0004 <> 0 <-> 0x0004 ∈ [0x0001; 0x0004])%Z /\
  has_simple_type c_uint32 (VInt (foldr Z.lor 0%Z [0x0001; 0x0004]%Z)) = true.
Proof.
  apply (button_flags_independent [0x0001; 0x0004]%Z 0x0004%Z).
  - intros x Hx. apply list_elem_of_In in Hx. apply list_elem_of_In.
    simpl in Hx. destruct Hx as [<-|[<-|[]]]; simpl; tauto.
  - apply list_elem_of_In. simpl. tauto.
Defined.

(** ** The kind of a packet and its description *)

(** X9.  The [packetId] in the header of every object that
    [unpack_udp_packet] returns is the value of a member of [PacketID], and
    [PacketID.short_description] and [PacketID.long_description] both have
    an entry for it. *)
Theorem unpacked_kind_described (host : endian) (packet : bytes) (o : cobj) :
  unpack_udp_packet host packet = Ok o ->
  exists kind name,
    (header ← getattr (ovalue o) "header"; getattr_int header "packetId") = Ok kind /\
    (name, kind) ∈ PacketID_members /\
    is_Some (PacketID_short_description !! kind) /\
    is_Some (PacketID_long_description !! kind).
Proof.
  intros H. destruct (unpack_ok_inv _ _ _ H) as (Ht & _ & ->).
  rewrite (getattr_header host host _ packet (registered_header_first _ _ Ht)).
  change (header ← Ok (header_at packet); getattr_int header "packetId")
    with (Ok (field_at packet 5 1)).
  assert (key_at packet ∈ registered_keys) as Hkey
      by (apply registry_keys; now exists (otype o)).
  unfold key_at in Hkey. exists (field_at packet 5 1).
  set (kind := field_at packet 5 1) in *. clearbody kind.
  set (packetFormat := field_at packet 0 2) in *. clearbody packetFormat.
  set (packetVersion := field_at packet 4 1) in *. clearbody packetVersion.
  apply list_elem_of_In in Hkey. vm_compute in Hkey.
  repeat (destruct Hkey as [Hkey|Hkey];
          [injection Hkey as <- <- <-; eexists;
           split; [reflexivity|];
           split; [apply list_elem_of_In; simpl; tauto|];
           split; eexists; vm_compute; reflexivity|]).
  destruct Hkey.
Qed.

Lemma unpacked_kind_described_witness :
  exists kind name,
    (header ← getattr (read Little Little PacketEventData_V1 fastest_lap_packet) "header";
     getattr_int header "packetId") = Ok kind /\
    (name, kind) ∈ PacketID_members /\
    is_Some (PacketID_short_description !! kind) /\
    is_Some (PacketID_long_description !! kind).
Proof.
  apply (unpacked_kind_described Little fastest_lap_packet
           (Cobj PacketEventData_V1 (read Little Little PacketEventData_V1 fastest_lap_packet))).
  vm_compute. reflexivity.
Defined.

(** ** The lookup tables *)

(** X12.  Every key of a lookup table of the appendices is a value that the
    field which the table explains can hold: team, driver and nationality
    ids, surface, penalty and infringement types fit [c_uint8], track ids
    fit [c_int8]. *)
Theorem table_keys_fit_fields :
  Forall (fun e =>
            exists ft,
              assoc (snd (snd (snd e))) (fields_of (fst (snd (snd e)))) = Some ft /\
              map_Forall (fun k _ => has_simple_type (element_type ft) (VInt k) = true)
                         (fst (snd e)))
         appendix_tables.
Proof.
  repeat constructor; cbn [fst snd]; eexists; (split; [reflexivity|]);
    apply (bool_decide_unpack _); vm_compute; exact I.
Qed.

(** ** The length of a datagram *)

Lemma registered_size_inj (k1 k2 : Z * Z * Z) (t1 t2 : ctype) :
  HeaderFieldsToPacketType !! k1 = Some t1 ->
  HeaderFieldsToPacketType !! k2 = Some t2 ->
  sizeof t1 = sizeof t2 ->
  k1 = k2 /\ t1 = t2.
Proof.
  intros H1 H2.
  apply registry_lookup, list_elem_of_In in H1. apply registry_lookup, list_elem_of_In in H2.
  simpl in H1, H2.
  repeat (destruct H1 as [H1|H1]; [injection H1 as <- <-|]); try destruct H1;
    (repeat (destruct H2 as [H2|H2]; [injection H2 as <- <-|]); try destruct H2);
    intros Hs; first [split; reflexivity | vm_compute in Hs; discriminate Hs].
Qed.

(** X13.  The ten packet types have ten different sizes, so the length of
    a datagram that is accepted tells its type: two buffers of one length
    that are both unpacked give objects of the same type with the same key
    in their headers. *)
Theorem length_determines_type (host : endian) (p1 p2 : bytes) (o1 o2 : cobj) :
  unpack_udp_packet host p1 = Ok o1 ->
  unpack_udp_packet host p2 = Ok o2 ->
  length p1 = length p2 ->
  otype o1 = otype o2 /\ key_of (ovalue o1) = key_of (ovalue o2).
Proof.
  intros H1 H2 Hlen.
  destruct (unpack_ok_inv _ _ _ H1) as (Ht1 & Hl1 & Hv1).
  destruct (unpack_ok_inv _ _ _ H2) as (Ht2 & Hl2 & Hv2).
  destruct (registered_size_inj _ _ _ _ Ht1 Ht2 ltac:(congruence)) as [Hk Ht].
  split; [exact Ht|].
  rewrite Hv1, Hv2, !key_of_read by (eapply registered_header_first; eassumption).
  now rewrite Hk.
Qed.

Lemma length_determines_type_witness :
  PacketEventData_V1 = PacketEventData_V1 /\
  key_of (read Little Little PacketEventData_V1 fastest_lap_packet)
    = key_of (read Little Little PacketEventData_V1 unknown_event_packet).
Proof.
  apply (length_determines_type Little fastest_lap_packet unknown_event_packet
           (Cobj PacketEventData_V1 (read Little Little PacketEventData_V1 fastest_lap_packet))
           (Cobj PacketEventData_V1 (read Little Little PacketEventData_V1 unknown_event_packet))).
  - vm_compute. reflexivity.
  - vm_compute. reflexivity.
  - reflexivity.
Defined.

(** ** Printing *)

Lemma mapM_ok {A B : Type} (f : A -> result B) (l : list A) :
  Forall (fun a => exists b, f a = Ok b) l -> exists bs, mapM f l = Ok bs.
Proof.
  induction 1 as [|a l [b Hb] _ [bs Hbs]]; [now exists []|].
  exists (b :: bs). cbn [mapM]. now rewrite Hb, Hbs.
Qed.

Section PrintingProperties.

Variable py : builtins.

Lemma repr_simple_ok (t : ctype) (v : value) :
  has_simple_type t v = true -> exists s, repr_simple py t v = Ok s.
Proof.
  destruct t, v; try discriminate; intros _; eexists; reflexivity.
Qed.

Lemma field_repr_ok (ft : ctype) (fv : value) :
  prints py ft ->
  match ft with Array e _ => prints py e | _ => True end ->
  field_printable printable ft = true ->
  has_type ft fv = true ->
  exists s, field_repr py (instance_repr py) ft fv = Ok s.
Proof.
  intros Hft He Hp Hv.
  destruct ft as [| | | | | | | | |e n|name bo pack fs|name bo pack fs];
    try (apply (Hft eq_refl _ Hv)).
  - destruct fv as [| | | |vs| |]; try discriminate.
    cbn [has_type] in Hv. apply andb_true_iff in Hv as [_ Hvs].
    assert (e = c_char \/ (field_repr py (instance_repr py) (Array e n) (VArray vs)
                           = (strs ← mapM (instance_repr py e) vs;
                              Ok ("[" +:+ join ", " strs +:+ "]"))
                           /\ printable e = true)) as [->|[-> Hpe]].
    { destruct e; try (right; split; [reflexivity|exact Hp]). now left. }
    + eexists. reflexivity.
    + destruct (mapM_ok (instance_repr py e) vs) as [strs ->]; [|eexists; reflexivity].
      apply Forall_forall. intros v Hin. apply (He Hpe).
      rewrite forallb_forall in Hvs. apply Hvs. now apply list_elem_of_In.
  - cbn [field_printable field_repr] in *. apply andb_true_iff in Hp as [-> Hp].
    apply (Hft Hp _ Hv).
  - cbn [field_printable is_PackedLittleEndianStructure] in Hp. discriminate.
Qed.

Lemma fields_repr_ok (fs : list (string * ctype)) :
  Forall (fun f => prints py (snd f) /\
                   match snd f with Array e _ => prints py e | _ => True end) fs ->
  forallb (fun f => field_printable printable (snd f)) fs = true ->
  forall fvs,
    have_types has_type fs fvs = true ->
    exists l, fields_repr py (instance_repr py) fs fvs = Ok l.
Proof.
  induction 1 as [|f fs [Hf He] _ IH]; intros Hp fvs Hv; [now exists []|].
  destruct fvs as [|fv fvs]; [discriminate|].
  cbn [forallb] in Hp. apply andb_true_iff in Hp as [Hpf Hp].
  cbn [have_types] in Hv. apply andb_true_iff in Hv as [Hv Hvs].
  apply andb_true_iff in Hv as [_ Hv].
  cbn [fields_repr].
  destruct (field_repr_ok _ _ Hf He Hpf Hv) as [s ->].
  destruct (IH Hp fvs Hvs) as [l Hl]. cbn [fields_repr] in Hl. rewrite Hl.
  eexists. reflexivity.
Qed.

Lemma printable_prints (t : ctype) :
  prints py t /\ match t with Array e _ => prints py e | _ => True end.
Proof.
  induction t as [t Ht|e n IH|name bo pack fs IH|name bo pack fs _] using ctype_fields_ind.
  - split; [|now destruct t].
    intros _ v Hv.
    destruct t; try (exfalso; apply Ht; reflexivity); apply (repr_simple_ok _ _ Hv).
  - split; [|apply IH]. intros _ v _. eexists. reflexivity.
  - split; [|exact I]. intros Hp v Hv.
    destruct bo; try (eexists; reflexivity).
    destruct pack as [|[|pack]]; try (eexists; reflexivity).
    destruct v as [| | | | |fvs|]; try discriminate.
    cbn [printable] in Hp. cbn [has_type] in Hv. cbn [instance_repr].
    destruct (fields_repr_ok fs IH Hp fvs Hv) as [l ->]. eexists. reflexivity.
  - split; [|exact I]. intros _ v _. eexists. reflexivity.
Qed.

(** X11.  [PackedLittleEndianStructure.__repr__] returns a string for
    every object whose fields are numbers, bytes, packed structures and
    arrays of these, which all structures of the module but one are; on a
    [PacketEventData_V1], which has a union field, it raises
    [RuntimeError] ("Bad value"), so that this class needs the [__repr__]
    of its own. *)
Theorem inherited_repr :
  (forall t v, printable t = true -> has_type t v = true ->
               exists s, instance_repr py t v = Ok s) /\
  Forall (fun t => printable t = negb (String.eqb (type_name t) "PacketEventData_V1"))
         packed_structures /\
  (forall v, has_type PacketEventData_V1 v = true ->
             exists msg, instance_repr py PacketEventData_V1 v = Raise (RuntimeError msg "")).
Proof.
  split; [|split].
  - intros t v Hp Hv. exact (proj1 (printable_prints t) Hp v Hv).
  - repeat constructor.
  - intros v Hv.
    unfold PacketEventData_V1, PackedLittleEndianStructure in Hv |- *.
    destruct v as [| | | | |fvs|]; try discriminate Hv.
    cbn [has_type] in Hv.
    destruct fvs as [|[n1 hv] fvs]; [discriminate Hv|].
    cbn [have_types fst snd] in Hv.
    apply andb_true_iff in Hv as [Hv Hrest]. apply andb_true_iff in Hv as [_ Hh].
    destruct fvs as [|[n2 cv] fvs]; [discriminate Hrest|].
    cbn [have_types fst snd] in Hrest.
    apply andb_true_iff in Hrest as [Hc Hrest]. apply andb_true_iff in Hc as [_ Hc].
    destruct fvs as [|[n3 dv] fvs]; [discriminate Hrest|].
    destruct cv as [| | | |vs| |]; try discriminate Hc.
    destruct (proj1 (printable_prints PacketHeader) eq_refl hv Hh) as [hs Hhs].
    cbn [instance_repr fields_repr fst snd].
    change (field_repr py (instance_repr py) PacketHeader hv)
      with (instance_repr py PacketHeader hv).
    rewrite Hhs. cbn [mbind result_bind field_repr].
    eexists. reflexivity.
Qed.

(** ** Printing what was unpacked *)

Lemma registered_printable (key : Z * Z * Z) (t : ctype) :
  HeaderFieldsToPacketType !! key = Some t ->
  t = PacketEventData_V1 \/
  (printable t = true /\
   String.eqb (type_name t) (type_name PacketEventData_V1) = false).
Proof.
  intros Ht. apply registry_lookup, list_elem_of_In in Ht. simpl in Ht.
  repeat (destruct Ht as [Ht|Ht];
          [injection Ht as _ <-;
           first [left; reflexivity | right; split; vm_compute; reflexivity]|]).
  destruct Ht.
Qed.

Lemma unknown_code_text (code : bytes) (name : string) :
  length code = 4 ->
  code ∉ map snd EventStringCode ->
  name ∈ map fst EventStringCode ->
  String.string_of_list_byte (until_nul code) <> name.
Proof.
  intros Hlen Hcode Hin Hev. apply Hcode.
  apply list_elem_of_In in Hin. simpl in Hin.
  repeat (destruct Hin as [<-|Hin];
          [match type of Hev with
           | _ = ?n => rewrite (code_of_event code n Hlen eq_refl Hev)
           end;
           apply list_elem_of_In; simpl; tauto|]).
  destruct Hin.
Qed.

Lemma known_code_name (code : bytes) :
  code ∈ map snd EventStringCode ->
  exists name, name ∈ map fst EventStringCode /\
               code = String.list_byte_of_string name /\
               decode (until_nul code) = Ok name.
Proof.
  intros Hin. apply list_elem_of_In in Hin. simpl in Hin.
  repeat (destruct Hin as [<-|Hin];
          [eexists; split; [|split; reflexivity]; apply list_elem_of_In; simpl; tauto|]).
  destruct Hin.
Qed.

End PrintingProperties.

Lemma inherited_repr_witness :
  exists s, instance_repr sample_builtins PacketHeader (header_at fastest_lap_packet) = Ok s.
Proof.
  apply (proj1 (inherited_repr sample_builtins) PacketHeader (header_at fastest_lap_packet)).
  - reflexivity.
  - vm_compute. reflexivity.
Defined.

(** ** Event packets: what the record holds and what is printed *)

(** The members of [eventDetails], read by hand from the bytes after the
    event code. *)
Lemma event_member_at (host : endian) (packet : bytes) (code member : string)
    (t : ctype) (details : value) :
  length packet = 35 ->
  (code, (member, t)) ∈ event_members ->
  (code, (member, details)) ∈ event_details_at packet ->
  union_member host EventDataDetails member (VUnion (drop 28 packet)) = Ok details /\
  has_type t details = true.
Proof.
  intros Hlen Ht Hd.
  assert (sizeof t <= 7 /\
          union_member host EventDataDetails member (VUnion (drop 28 packet))
            = Ok (read host host t (drop 28 packet)) /\
          read host host t (drop 28 packet) = details) as (Hsize & Hm & Hr).
  { apply list_elem_of_In in Ht. simpl in Ht.
    apply list_elem_of_In in Hd. cbn [event_details_at In] in Hd.
    explicit_bytes packet Hlen.
    repeat (destruct Ht as [Ht|Ht];
            [injection Ht as <- <- <-;
             repeat (destruct Hd as [Hd|Hd];
                     [first [discriminate Hd
                            | injection Hd as <-;
                              split; [vm_compute; lia|split; reflexivity]]|]);
             destruct Hd|]).
    destruct Ht. }
  split; [now rewrite Hm, Hr|].
  rewrite <- Hr. apply has_type_read. rewrite length_drop. lia.
Qed.

Section EventPrinting.

Variable py : builtins.

Lemma repr_header_at (packet : bytes) :
  24 <= length packet ->
  exists hs, instance_repr py PacketHeader (header_at packet) = Ok hs.
Proof.
  intros Hlen. apply (proj1 (printable_prints py PacketHeader) eq_refl).
  rewrite <- (read_PacketHeader Little Little). apply has_type_read.
  change (sizeof PacketHeader) with 24. lia.
Qed.

(** [__repr__] on what an event datagram is unpacked into. *)
Lemma repr_event_packet (host : endian) (packet : bytes) (hs : string) :
  length packet = 35 ->
  instance_repr py PacketHeader (header_at packet) = Ok hs ->
  repr py host (Cobj PacketEventData_V1 (read host host PacketEventData_V1 packet)) =
  (let eventStringCode := until_nul (event_code_at packet) in
   let eventDetails := VUnion (drop 28 packet) in
   let msg := "PacketEventData_V1(header=" +:+ hs
                +:+ ", eventStringCode=" +:+ repr_bytes eventStringCode in
   event ← decode eventStringCode;
   if bool_decide (event ∈ ["CHQF"; "DRSD"; "DRSE"; "SEND"; "SSTA"]) then Ok (msg +:+ ")")
   else
     event_str ←
       (if String.eqb event "FTLP" then
          m ← union_member host EventDataDetails "fastestLap" eventDetails;
          instance_repr py FastestLapData m
        else if String.eqb event "PENA" then
          m ← union_member host EventDataDetails "penalty" eventDetails;
          instance_repr py PenaltyData m
        else if String.eqb event "RCWN" then
          m ← union_member host EventDataDetails "raceWinner" eventDetails;
          instance_repr py RaceWinnerData m
        else if String.eqb event "RTMT" then
          m ← union_member host EventDataDetails "retirement" eventDetails;
          instance_repr py RetirementData m
        else if String.eqb event "SPTP" then
          m ← union_member host EventDataDetails "speedTrap" eventDetails;
          instance_repr py SpeedTrapData m
        else if String.eqb event "TMPT" then
          m ← union_member host EventDataDetails "teamMateInPits" eventDetails;
          instance_repr py TeamMateInPitsData m
        else Raise (RuntimeError "Bad event code {}" event));
     Ok (msg +:+ ", eventDetails=" +:+ event_str +:+ ")")).
Proof.
  intros Hlen Hhs. rewrite read_event by exact Hlen.
  unfold repr. cbn [otype ovalue]. rewrite String.eqb_refl.
  unfold PacketEventData_V1___repr__, getattr_bytes.
  change (getattr (VStruct _) "header") with (Ok (header_at packet)).
  change (getattr (VStruct _) "eventStringCode")
    with (Ok (VArray (map VChar (event_code_at packet)))).
  change (getattr (VStruct _) "eventDetails") with (Ok (VUnion (drop 28 packet))).
  cbn [mbind result_bind]. rewrite Hhs, chars_map. reflexivity.
Qed.

(** A code that is none of the eleven: the exception that [__repr__]
    raises. *)
Lemma repr_unknown_event (host : endian) (packet : bytes) :
  length packet = 35 ->
  event_code_at packet ∉ map snd EventStringCode ->
  repr py host (Cobj PacketEventData_V1 (read host host PacketEventData_V1 packet)) =
  if utf8_valid (until_nul (event_code_at packet)) then
    Raise (RuntimeError "Bad event code {}"
             (String.string_of_list_byte (until_nul (event_code_at packet))))
  else Raise UnicodeDecodeError.
Proof.
  intros Hlen Hcode.
  destruct (repr_header_at packet ltac:(lia)) as [hs Hhs].
  rewrite (repr_event_packet host packet hs Hlen Hhs). cbn zeta.
  pose proof (event_code_length packet Hlen) as Hlen4.
  set (code := event_code_at packet) in *.
  pose proof (unknown_code_text code) as Hne.
  unfold decode. destruct (utf8_valid (until_nul code)); [|reflexivity].
  cbn [mbind result_bind].
  set (event := String.string_of_list_byte (until_nul code)) in *.
  assert (forall name, name ∈ map fst EventStringCode -> String.eqb event name = false)
    as Heqb by (intros name Hin; apply String.eqb_neq; now apply Hne).
  case_bool_decide as Hfive.
  - exfalso. apply list_elem_of_In in Hfive. simpl in Hfive.
    repeat (destruct Hfive as [Hfive|Hfive];
            [symmetry in Hfive; revert Hfive; apply Hne; try assumption;
             apply list_elem_of_In; simpl; tauto|]).
    destruct Hfive.
  - rewrite !Heqb by (apply list_elem_of_In; simpl; tauto). reflexivity.
Qed.

(** One of the five codes without details: the text ends after the
    code. *)
Lemma repr_event_without_details (host : endian) (packet : bytes) (hs code : string) :
  length packet = 35 ->
  instance_repr py PacketHeader (header_at packet) = Ok hs ->
  code ∈ no_details_codes ->
  event_code_at packet = String.list_byte_of_string code ->
  repr py host (Cobj PacketEventData_V1 (read host host PacketEventData_V1 packet))
  = Ok (("PacketEventData_V1(header=" +:+ hs +:+ ", eventStringCode="
           +:+ repr_bytes (String.list_byte_of_string code)) +:+ ")").
Proof.
  intros Hlen Hhs Hin Hcode.
  rewrite (repr_event_packet host packet hs Hlen Hhs), Hcode. cbn zeta.
  apply list_elem_of_In in Hin. simpl in Hin.
  repeat (destruct Hin as [<-|Hin]; [reflexivity|]).
  destruct Hin.
Qed.

(** One of the six codes with details: the text ends with the member
    that the code selects, printed as an object of its class. *)
Lemma repr_event_with_details (host : endian) (packet : bytes) (hs code member : string)
    (t : ctype) (details : value) :
  length packet = 35 ->
  instance_repr py PacketHeader (header_at packet) = Ok hs ->
  (code, (member, t)) ∈ event_members ->
  (code, (member, details)) ∈ event_details_at packet ->
  event_code_at packet = String.list_byte_of_string code ->
  exists event_str,
    instance_repr py t details = Ok event_str /\
    repr py host (Cobj PacketEventData_V1 (read host host PacketEventData_V1 packet))
    = Ok (("PacketEventData_V1(header=" +:+ hs +:+ ", eventStringCode="
             +:+ repr_bytes (String.list_byte_of_string code))
            +:+ ", eventDetails=" +:+ event_str +:+ ")").
Proof.
  intros Hlen Hhs Ht Hd Hcode.
  destruct (event_member_at host packet code member t details Hlen Ht Hd) as [Hm Htyped].
  assert (printable t = true) as Hp.
  { apply list_elem_of_In in Ht. simpl in Ht.
    repeat (destruct Ht as [Ht|Ht]; [injection Ht as <- <- <-; reflexivity|]).
    destruct Ht. }
  destruct (proj1 (printable_prints py t) Hp details Htyped) as [event_str Hstr].
  exists event_str. split; [exact Hstr|].
  rewrite (repr_event_packet host packet hs Hlen Hhs), Hcode. cbn zeta.
  clear Hd Htyped Hp. revert Hm Hstr.
  apply list_elem_of_In in Ht. simpl in Ht.
  repeat (destruct Ht as [Ht|Ht];
          [injection Ht as <- <- <-; intros Hm Hstr;
           rewrite Hm; cbn [mbind result_bind]; rewrite Hstr; reflexivity|]).
  destruct Ht.
Qed.

(** C6, as amended.  An event datagram (35 bytes, key (2020, 1, 3)) is
    unpacked into a record that exposes all six members of its
    [eventDetails] whatever the event code is, each a sub-record of its
    class read from the bytes that follow the code: the record has no
    state without a payload and no active member.  The event code alone
    selects what [__repr__] shows of them: after SSTA, SEND, DRSE, DRSD
    and CHQF the text ends with the event code, and after FTLP, PENA,
    RCWN, RTMT, SPTP and TMPT it ends with [eventDetails=] and the
    matching member, printed as an object of its class.  For the fastest
    lap of car 7 in 91.234 s the member [fastestLap] has [vehicleIdx = 7]
    and a [lapTime] between 91.23399 and 91.23401. *)
Theorem event_details_by_code :
  (forall host packet,
      length packet = 35 ->
      decoded_key host packet = Ok (2020, 1, 3)%Z ->
      exists v hs,
        unpack_udp_packet host packet = Ok (Cobj PacketEventData_V1 v) /\
        (header ← getattr v "header"; instance_repr py PacketHeader header) = Ok hs /\
        (forall code member t details,
            (code, (member, t)) ∈ event_members ->
            (code, (member, details)) ∈ event_details_at packet ->
            has_type t details = true /\
            (eventDetails ← getattr v "eventDetails";
             union_member host EventDataDetails member eventDetails) = Ok details) /\
        (forall code,
            code ∈ no_details_codes ->
            event_code_at packet = String.list_byte_of_string code ->
            repr py host (Cobj PacketEventData_V1 v)
            = Ok (("PacketEventData_V1(header=" +:+ hs +:+ ", eventStringCode="
                     +:+ repr_bytes (String.list_byte_of_string code)) +:+ ")")) /\
        (forall code member t details,
            (code, (member, t)) ∈ event_members ->
            (code, (member, details)) ∈ event_details_at packet ->
            event_code_at packet = String.list_byte_of_string code ->
            exists event_str,
              instance_repr py t details = Ok event_str /\
              repr py host (Cobj PacketEventData_V1 v)
              = Ok (("PacketEventData_V1(header=" +:+ hs +:+ ", eventStringCode="
                       +:+ repr_bytes (String.list_byte_of_string code))
                      +:+ ", eventDetails=" +:+ event_str +:+ ")"))) /\
  (forall host,
      exists v q,
        unpack_udp_packet host fastest_lap_packet = Ok (Cobj PacketEventData_V1 v) /\
        (eventDetails ← getattr v "eventDetails";
         union_member host EventDataDetails "fastestLap" eventDetails)
          = Ok (VStruct [("vehicleIdx", VInt 7); ("lapTime", VFloat 1119254479)]) /\
        float32_value 1119254479 = Some q /\
        Qlt (9123399 # 100000) q /\ Qlt q (9123401 # 100000)).
Proof.
  split.
  - intros host packet Hlen Hkey.
    destruct (repr_header_at packet ltac:(lia)) as [hs Hhs].
    exists (read host host PacketEventData_V1 packet), hs.
    split; [now apply unpack_event|]. clear Hkey.
    split; [|split; [|split]].
    + rewrite read_event by exact Hlen. exact Hhs.
    + intros code member t details Ht Hd. rewrite read_event by exact Hlen.
      destruct (event_member_at host packet code member t details Hlen Ht Hd).
      now split.
    + intros code. now apply repr_event_without_details.
    + intros code member t details. now apply repr_event_with_details.
  - intros host.
    exists (read host host PacketEventData_V1 fastest_lap_packet), (11958223 # 131072)%Q.
    split; [|split; [|split; [|split]]].
    + apply unpack_event; [reflexivity|]. now rewrite decoded_key_spec by (simpl; lia).
    + reflexivity.
    + vm_compute. reflexivity.
    + reflexivity.
    + reflexivity.
Qed.

(** One of the eleven codes: [__repr__] returns a text. *)
Lemma repr_known_event (host : endian) (packet : bytes) :
  length packet = 35 ->
  event_code_at packet ∈ map snd EventStringCode ->
  exists s, repr py host (Cobj PacketEventData_V1 (read host host PacketEventData_V1 packet))
            = Ok s.
Proof.
  intros Hlen Hcode.
  destruct (repr_header_at packet ltac:(lia)) as [hs Hhs].
  assert ((exists code, code ∈ no_details_codes /\
                        event_code_at packet = String.list_byte_of_string code) \/
          (exists code member t details,
              (code, (member, t)) ∈ event_members /\
              (code, (member, details)) ∈ event_details_at packet /\
              event_code_at packet = String.list_byte_of_string code)) as [H|H].
  { apply list_elem_of_In in Hcode. simpl in Hcode.
    repeat (destruct Hcode as [Hcode|Hcode];
            [symmetry in Hcode;
             first [ left; eexists; split; [|exact Hcode]; apply list_elem_of_In; simpl; tauto
                   | right; do 4 eexists; split; [|split; [|exact Hcode]];
                     apply list_elem_of_In; cbn [event_members event_details_at In];
                     first [ left; reflexivity
                           | right; left; reflexivity
                           | do 2 right; left; reflexivity
                           | do 3 right; left; reflexivity
                           | do 4 right; left; reflexivity
                           | do 5 right; left; reflexivity ] ]|]).
    destruct Hcode. }
  - destruct H as (code & Hin & Hc). eexists.
    exact (repr_event_without_details host packet hs code Hlen Hhs Hin Hc).
  - destruct H as (code & member & t & details & Ht & Hd & Hc).
    destruct (repr_event_with_details host packet hs code member t details
                Hlen Hhs Ht Hd Hc) as (event_str & _ & ->).
    eexists. reflexivity.
Qed.

(** C7, as amended.  [unpack_udp_packet] does not look at the event code:
    an event datagram (35 bytes, key (2020, 1, 3)) is unpacked into an
    event object whatever its four code bytes are.  The code matters when
    the object is printed.  With one of the eleven codes [__repr__]
    returns a text.  With any other code it returns none: it raises
    [UnicodeDecodeError] when the code bytes before the first NUL byte are
    not UTF-8, and otherwise [RuntimeError] with the two arguments
    "Bad event code {}" and the text of those bytes, which is the whole
    code only if the code has no NUL byte. *)
Theorem unknown_event_code (host : endian) (packet : bytes) :
  length packet = 35 ->
  decoded_key host packet = Ok (2020, 1, 3)%Z ->
  exists v,
    unpack_udp_packet host packet = Ok (Cobj PacketEventData_V1 v) /\
    (event_code_at packet ∈ map snd EventStringCode ->
     exists s, repr py host (Cobj PacketEventData_V1 v) = Ok s) /\
    (event_code_at packet ∉ map snd EventStringCode ->
     repr py host (Cobj PacketEventData_V1 v) =
     if utf8_valid (until_nul (event_code_at packet)) then
       Raise (RuntimeError "Bad event code {}"
                (String.string_of_list_byte (until_nul (event_code_at packet))))
     else Raise UnicodeDecodeError).
Proof.
  intros Hlen Hkey.
  exists (read host host PacketEventData_V1 packet).
  split; [now apply unpack_event|].
  split; [now apply repr_known_event|now apply repr_unknown_event].
Qed.

(** X10.  Printing an object that [unpack_udp_packet] returned gives a
    text, with one exception: an event whose code is none of the eleven.
    For that [__repr__] raises [UnicodeDecodeError] when the code bytes
    before the first NUL byte are not UTF-8, and otherwise [RuntimeError]
    with the arguments "Bad event code {}" and the text of those
    bytes. *)
Theorem repr_unpacked (host : endian) (packet : bytes) (o : cobj) :
  unpack_udp_packet host packet = Ok o ->
  (otype o = PacketEventData_V1 /\ event_code_at packet ∉ map snd EventStringCode ->
   repr py host o =
   if utf8_valid (until_nul (event_code_at packet)) then
     Raise (RuntimeError "Bad event code {}"
              (String.string_of_list_byte (until_nul (event_code_at packet))))
   else Raise UnicodeDecodeError) /\
  (~ (otype o = PacketEventData_V1 /\ event_code_at packet ∉ map snd EventStringCode) ->
   exists s, repr py host o = Ok s).
Proof.
  intros H. destruct (unpack_ok_inv _ _ _ H) as (Ht & Hlen & Hv).
  assert (has_type (otype o) (ovalue o) = true) as Htyped
      by (rewrite Hv; apply has_type_read; lia).
  destruct o as [t v]. cbn [otype ovalue] in *.
  destruct (registered_printable _ _ Ht) as [->|[Hp Hname]].
  2:{ split.
      - intros [-> _]. discriminate Hname.
      - intros _. unfold repr. cbn [otype ovalue]. rewrite Hname.
        exact (proj1 (printable_prints py t) Hp v Htyped). }
  change (sizeof PacketEventData_V1) with 35 in Hlen. subst v.
  split.
  - intros [_ Hcode]. now apply repr_unknown_event.
  - intros Hknown. apply repr_known_event; [exact Hlen|].
    destruct (decide (event_code_at packet ∈ map snd EventStringCode)) as [Hin|Hout];
      [exact Hin|].
    exfalso. apply Hknown. now split.
Qed.

(** What [PacketEventData_V1_repr] keeps of [__repr__]: whether it
    raises, and the member printed at the end of the text. *)
Lemma PacketEventData_V1_repr_spec (host : endian) (packet : bytes) (hs : string) :
  length packet = 35 ->
  instance_repr py PacketHeader (header_at packet) = Ok hs ->
  repr py host (Cobj PacketEventData_V1 (read host host PacketEventData_V1 packet)) =
  (let msg := "PacketEventData_V1(header=" +:+ hs +:+ ", eventStringCode="
                +:+ repr_bytes (until_nul (event_code_at packet)) in
   match PacketEventData_V1_repr host (read host host PacketEventData_V1 packet) with
   | Raise e => Raise e
   | Ok None => Ok (msg +:+ ")")
   | Ok (Some details) =>
       event_str ← instance_repr py (event_class (until_nul (event_code_at packet))) details;
       Ok (msg +:+ ", eventDetails=" +:+ event_str +:+ ")")
   end).
Proof.
  intros Hlen Hhs.
  rewrite (repr_event_packet host packet hs Hlen Hhs).
  rewrite read_event, repr_event by exact Hlen. cbn zeta.
  unfold event_class, decode.
  destruct (utf8_valid (until_nul (event_code_at packet))); [|reflexivity].
  cbn [mbind result_bind].
  generalize (String.string_of_list_byte (until_nul (event_code_at packet))).
  intros event. case_bool_decide; [reflexivity|].
  destruct (String.eqb_spec event "FTLP") as [->|_].
  { now destruct (union_member host EventDataDetails "fastestLap" _). }
  destruct (String.eqb_spec event "PENA") as [->|_].
  { now destruct (union_member host EventDataDetails "penalty" _). }
  destruct (String.eqb_spec event "RCWN") as [->|_].
  { now destruct (union_member host EventDataDetails "raceWinner" _). }
  destruct (String.eqb_spec event "RTMT") as [->|_].
  { now destruct (union_member host EventDataDetails "retirement" _). }
  destruct (String.eqb_spec event "SPTP") as [->|_].
  { now destruct (union_member host EventDataDetails "speedTrap" _). }
  destruct (String.eqb_spec event "TMPT") as [->|_].
  { now destruct (union_member host EventDataDetails "teamMateInPits" _). }
  reflexivity.
Qed.

End EventPrinting.

(** C6, counterexample.  The record unpacked from a session-started
    event, whose code SSTA is one of the five without details, exposes a
    fastest lap all the same: car 7 with the bit pattern of 91.234. *)
Lemma event_details_by_code_counterexample :
  length session_started_packet = 35 /\
  decoded_key Little session_started_packet = Ok (2020, 1, 3)%Z /\
  event_code_at session_started_packet = String.list_byte_of_string "SSTA" /\
  exists v,
    unpack_udp_packet Little session_started_packet = Ok (Cobj PacketEventData_V1 v) /\
    (eventDetails ← getattr v "eventDetails";
     union_member Little EventDataDetails "fastestLap" eventDetails)
    = Ok (VStruct [("vehicleIdx", VInt 7); ("lapTime", VFloat 1119254479)]).
Proof.
  split; [reflexivity|]. split; [reflexivity|]. split; [reflexivity|].
  eexists. split; vm_compute; reflexivity.
Qed.

Lemma event_details_by_code_witness :
  Forall
    (fun packet =>
       exists v hs,
         unpack_udp_packet Little packet = Ok (Cobj PacketEventData_V1 v) /\
         (header ← getattr v "header"; instance_repr sample_builtins PacketHeader header)
         = Ok hs /\
         (forall code member t details,
             (code, (member, t)) ∈ event_members ->
             (code, (member, details)) ∈ event_details_at packet ->
             has_type t details = true /\
             (eventDetails ← getattr v "eventDetails";
              union_member Little EventDataDetails member eventDetails) = Ok details) /\
         (forall code,
             code ∈ no_details_codes ->
             event_code_at packet = String.list_byte_of_string code ->
             repr sample_builtins Little (Cobj PacketEventData_V1 v)
             = Ok (("PacketEventData_V1(header=" +:+ hs +:+ ", eventStringCode="
                      +:+ repr_bytes (String.list_byte_of_string code)) +:+ ")")) /\
         (forall code member t details,
             (code, (member, t)) ∈ event_members ->
             (code, (member, details)) ∈ event_details_at packet ->
             event_code_at packet = String.list_byte_of_string code ->
             exists event_str,
               instance_repr sample_builtins t details = Ok event_str /\
               repr sample_builtins Little (Cobj PacketEventData_V1 v)
               = Ok (("PacketEventData_V1(header=" +:+ hs +:+ ", eventStringCode="
                        +:+ repr_bytes (String.list_byte_of_string code))
                       +:+ ", eventDetails=" +:+ event_str +:+ ")")))
    [session_started_packet; race_winner_packet; fastest_lap_packet].
Proof.
  constructor; [|constructor; [|constructor; [|constructor]]];
    apply (proj1 (event_details_by_code sample_builtins) Little); reflexivity.
Defined.

Lemma unknown_event_code_witness :
  Forall
    (fun packet =>
       exists v,
         unpack_udp_packet Little packet = Ok (Cobj PacketEventData_V1 v) /\
         (event_code_at packet ∈ map snd EventStringCode ->
          exists s, repr sample_builtins Little (Cobj PacketEventData_V1 v) = Ok s) /\
         (event_code_at packet ∉ map snd EventStringCode ->
          repr sample_builtins Little (Cobj PacketEventData_V1 v) =
          if utf8_valid (until_nul (event_code_at packet)) then
            Raise (RuntimeError "Bad event code {}"
                     (String.string_of_list_byte (until_nul (event_code_at packet))))
          else Raise UnicodeDecodeError))
    [unknown_event_packet; nul_code_packet; bad_utf8_packet; fastest_lap_packet].
Proof.
  constructor; [|constructor; [|constructor; [|constructor; [|constructor]]]];
    apply (unknown_event_code sample_builtins Little); reflexivity.
Defined.

Lemma repr_unpacked_witness :
  (PacketEventData_V1 = PacketEventData_V1 /\
   event_code_at nul_code_packet ∉ map snd EventStringCode ->
   repr sample_builtins Little
     (Cobj PacketEventData_V1 (read Little Little PacketEventData_V1 nul_code_packet))
   = if utf8_valid (until_nul (event_code_at nul_code_packet)) then
       Raise (RuntimeError "Bad event code {}"
                (String.string_of_list_byte (until_nul (event_code_at nul_code_packet))))
     else Raise UnicodeDecodeError) /\
  (~ (PacketEventData_V1 = PacketEventData_V1 /\
      event_code_at nul_code_packet ∉ map snd EventStringCode) ->
   exists s,
     repr sample_builtins Little
       (Cobj PacketEventData_V1 (read Little Little PacketEventData_V1 nul_code_packet))
     = Ok s).
Proof.
  apply (repr_unpacked sample_builtins Little nul_code_packet
           (Cobj PacketEventData_V1 (read Little Little PacketEventData_V1 nul_code_packet))).
  vm_compute. reflexivity.
Defined.

Example repr_of_events :
  (o ← unpack_udp_packet Little session_started_packet; repr sample_builtins Little o)
  = Ok ("PacketEventData_V1(header=PacketHeader(packetFormat=2020, gameMajorVersion=1, "
        +:+ "gameMinorVersion=2, packetVersion=1, packetId=3, sessionUID=12152865349844574881, "
        +:+ "sessionTime=<float32 1065353216>, frameIdentifier=513, playerCarIndex=19, "
        +:+ "secondaryPlayerCarIndex=255), eventStringCode=b'SSTA')") /\
  (o ← unpack_udp_packet Little race_winner_packet; repr sample_builtins Little o)
  = Ok ("PacketEventData_V1(header=PacketHeader(packetFormat=2020, gameMajorVersion=1, "
        +:+ "gameMinorVersion=2, packetVersion=1, packetId=3, sessionUID=12152865349844574881, "
        +:+ "sessionTime=<float32 1065353216>, frameIdentifier=513, playerCarIndex=19, "
        +:+ "secondaryPlayerCarIndex=255), eventStringCode=b'RCWN', "
        +:+ "eventDetails=RaceWinnerData(vehicleIdx=7))") /\
  (o ← unpack_udp_packet Little unknown_event_packet; repr sample_builtins Little o)
  = Raise (RuntimeError "Bad event code {}" "XXXX") /\
  (o ← unpack_udp_packet Little nul_code_packet; repr sample_builtins Little o)
  = Raise (RuntimeError "Bad event code {}" "AB") /\
  (o ← unpack_udp_packet Little bad_utf8_packet; repr sample_builtins Little o)
  = Raise UnicodeDecodeError.
Proof. repeat split; vm_compute; reflexivity. Qed.

(** ** The byte order of the host *)

Lemma _other_endian_ok (lib : ctypes_release) (typ t : ctype) :
  _other_endian lib typ = Ok t -> t = typ.
Proof.
  revert t. induction typ as [| | | | | | | | |elt IH len|name bo pack fs|name bo pack fs];
    intros t; cbn [_other_endian]; try (now intros [= <-]).
  - destruct (_other_endian lib elt) as [t'|e]; [|discriminate].
    cbn [mbind result_bind]. intros [= <-]. now rewrite (IH t' eq_refl).
  - destruct lib; [discriminate|]. now intros [= <-].
Qed.

(** Where a class is created, it has the fields of its declaration. *)
Lemma create_class_fields (lib : ctypes_release) (host : endian) (t : ctype)
    (fs : list (string * ctype)) :
  create_class lib host t = Ok fs -> fs = fields_of t.
Proof.
  assert (forall l l',
             mapM (fun desc : string * ctype =>
                     typ ← _other_endian lib (snd desc); Ok (fst desc, typ)) l = Ok l' ->
             l' = l) as Hmap.
  { induction l as [|[n typ] l IH]; intros l'; cbn [mapM fst snd].
    - now intros [= <-].
    - destruct (_other_endian lib typ) as [t'|e] eqn:Ht; [|discriminate].
      cbn [mbind result_bind].
      destruct (mapM _ l) as [l0|e]; [|discriminate].
      cbn [mbind result_bind]. intros [= <-].
      now rewrite (_other_endian_ok _ _ _ Ht), (IH l0 eq_refl). }
  destruct t; cbn [create_class fields_of]; try (now intros [= <-]);
    (destruct (swapped host bo); [apply Hmap|now intros [= <-]]).
Qed.

Lemma repr_host_independent (py : builtins) (h1 h2 : endian) (o : cobj) :
  repr py h1 o = repr py h2 o.
Proof.
  unfold repr. destruct (String.eqb _ _); [|reflexivity].
  unfold PacketEventData_V1___repr__.
  destruct (getattr (ovalue o) "header") as [header|]; [|reflexivity].
  cbn [mbind result_bind].
  destruct (instance_repr py PacketHeader header) as [header_repr|]; [|reflexivity].
  cbn [mbind result_bind].
  destruct (getattr_bytes (ovalue o) "eventStringCode") as [code|]; [|reflexivity].
  cbn [mbind result_bind].
  destruct (decode code) as [event|]; [|reflexivity]. cbn [mbind result_bind].
  case_bool_decide; [reflexivity|].
  destruct (getattr (ovalue o) "eventDetails") as [details|]; [|reflexivity].
  cbn [mbind result_bind].
  now rewrite !(union_member_order_fixed h1 h2 EventDataDetails).
Qed.

(** X3.  What the byte order of the host changes.  On a little-endian
    host every class of the module is created.  On a big-endian host the
    structures are swapped ones, and a [ctypes] whose [_other_endian]
    takes structures only (CPython 3.11.2) raises [TypeError] when
    [PacketEventData_V1] is created, for its field of the union type
    [EventDataDetails]; every other class is created, but the module as a
    whole is not.  With a [ctypes] whose [_other_endian] takes unions too
    (CPython 3.11.11) every class is created on a big-endian host as well,
    and then nothing depends on the host: a buffer gives the same outcome
    of [unpack_udp_packet], the same object or the same error, and an
    object is printed the same. *)
Theorem host_byte_order :
  (forall lib, Forall (fun t => create_class lib Little t = Ok (fields_of t)) module_classes) /\
  Forall (fun t => create_class Structure_only Big t
                   = if String.eqb (type_name t) "PacketEventData_V1"
                     then Raise (TypeError "EventDataDetails")
                     else Ok (fields_of t))
         module_classes /\
  create_classes Structure_only Big = Raise (TypeError "EventDataDetails") /\
  Forall (fun t => create_class Structure_or_Union Big t = Ok (fields_of t)) module_classes /\
  (forall h1 h2 packet, unpack_udp_packet h1 packet = unpack_udp_packet h2 packet) /\
  (forall py h1 h2 o, repr py h1 o = repr py h2 o).
Proof.
  split; [|split; [|split; [|split; [|split]]]].
  - intros lib. repeat constructor.
  - repeat constructor.
  - reflexivity.
  - repeat constructor.
  - intros h1 h2 packet. rewrite !unpack_udp_packet_spec.
    destruct (length packet <? 24); [reflexivity|].
    destruct (HeaderFieldsToPacketType !! key_at packet) as [t|] eqn:Ht; [|reflexivity].
    destruct (negb (Nat.eqb (length packet) (sizeof t))); [reflexivity|].
    do 2 f_equal.
    apply (read_order_fixed t false); [|discriminate].
    exact (proj1 (registered_order_fixed _ _ Ht)).
  - exact repr_host_independent.
Qed.

(** ** The layout of a packed structure *)







(** ** The enumerations *)

(** X14.  The three enumerations keep what [@enum.unique] demands, no two
    members with one value, so that the module loads; the name of each
    event code is the text of its value; and the description tables have
    an entry for every member of their enumeration and no other entry, so
    that looking up the description of a member never fails. *)
Theorem enumerations_described :
  (NoDup (map snd PacketID_members) /\
   NoDup (map snd EventStringCode) /\
   NoDup (map snd ButtonFlag)) /\
  Forall (fun m => snd m = String.list_byte_of_string (fst m)) EventStringCode /\
  (Forall (fun m => is_Some (PacketID_short_description !! snd m) /\
                    is_Some (PacketID_long_description !! snd m)) PacketID_members /\
   size PacketID_short_description = length PacketID_members /\
   size PacketID_long_description = length PacketID_members) /\
  (Forall (fun m => is_Some (EventStringCode_short_description !! fst m) /\
                    is_Some (EventStringCode_long_description !! fst m)) EventStringCode /\
   size EventStringCode_short_description = length EventStringCode /\
   size EventStringCode_long_description = length EventStringCode) /\
  (Forall (fun m => is_Some (ButtonFlag_description !! snd m)) ButtonFlag /\
   size ButtonFlag_description = length ButtonFlag).
Proof.
  split; [|split; [|split; [|split]]].
  - repeat split; apply (bool_decide_unpack _); vm_compute; exact I.
  - repeat constructor.
  - split; [|split; vm_compute; reflexivity].
    repeat constructor; eexists; vm_compute; reflexivity.
  - split; [|split; vm_compute; reflexivity].
    repeat constructor; eexists; vm_compute; reflexivity.
  - split; [|vm_compute; reflexivity].
    repeat constructor; eexists; vm_compute; reflexivity.
Qed.
